(** * pccxl: the KuCoin perpetual-futures client

    A shallow embedding of
      - [pccxl/common/utils.py]                  (SIDE_MAPPING, flat_uuid),
      - [pccxl/providers/kucoin/validations.py]  (the order validators),
      - [pccxl/providers/kucoin/clients/perp.py] (class [Client]),
    followed by the properties of the order builder and of the request
    dispatcher.

    Modelling conventions.
      - A Python value is a [pyval].  Python's [int] and [float] are both
        embedded as exact rationals ([Q]): the model does not round, and it
        identifies [20] with [20.0] (as Python's [==] does).
      - A Python [dict] with string keys is a [gmap string pyval].
      - Exceptions are values of [exn]; a computation that may raise returns a
        [result].
      - Stateful code runs in the monad [M]: the state holds the class-level
        dict [Client.DEFAULT_HEADERS] (one object, shared by every call), the
        log of the HTTP requests issued so far, and how often the clock and
        the uuid generator were read.
      - The world outside the program (clock, uuid generator, HMAC, JSON
        serialiser, HTTP peer) is a record [env] that every theorem
        quantifies over.  The peer always answers: a connection that
        [requests] cannot make is not modelled. *)

From Stdlib Require Import ZArith QArith Qround String Ascii List Lia.
From Stdlib Require Import DecimalString.
From stdpp Require Import gmap strings list fin_maps.

Local Open Scope string_scope.

(** ** Python values *)

#[warnings="-register-all"]
Inductive pyval : Type :=
| PNone
| PBool (b : bool)
| PNum (q : Q)
| PStr (s : string)
| PList (l : list pyval)
| PDict (d : gmap string pyval).

(** [bool(v)]: the truth value Python gives to [v] in [if v], [not v],
    [a and b]. *)
Definition truthy (v : pyval) : bool :=
  match v with
  | PNone => false
  | PBool b => b
  | PNum q => negb (Qeq_bool q 0)
  | PStr s => match s with EmptyString => false | String _ _ => true end
  | PList l => match l with [] => false | _ :: _ => true end
  | PDict d => negb (Nat.eqb (size d) 0)
  end.

(** [v == s] for a string literal [s]. *)
Definition py_eq_str (v : pyval) (s : string) : bool :=
  match v with
  | PStr t => String.eqb t s
  | _ => false
  end.

(** [v in (s1, ..., sn)] for a tuple of string literals. *)
Definition py_in_strs (v : pyval) (l : list string) : bool :=
  existsb (py_eq_str v) l.

(** [v is None]. *)
Definition is_None (v : pyval) : bool :=
  match v with PNone => true | _ => false end.

(** A value used as a number: [bool] is a subclass of [int]. *)
Definition as_number (v : pyval) : option Q :=
  match v with
  | PNum q => Some q
  | PBool true => Some 1%Q
  | PBool false => Some 0%Q
  | _ => None
  end.

(** [d.get(k)]: [None] when the key is missing. *)
Definition dict_get (d : gmap string pyval) (k : string) : pyval :=
  default PNone (d !! k).

(** ** Strings *)

Definition upper_ascii (a : ascii) : ascii :=
  let n := nat_of_ascii a in
  if (97 <=? n)%nat && (n <=? 122)%nat then ascii_of_nat (n - 32) else a.

Definition lower_ascii (a : ascii) : ascii :=
  let n := nat_of_ascii a in
  if (65 <=? n)%nat && (n <=? 90)%nat then ascii_of_nat (n + 32) else a.

(** [s.upper()] and [s.lower()], on the ASCII letters. *)
Fixpoint upper (s : string) : string :=
  match s with
  | EmptyString => EmptyString
  | String a s' => String (upper_ascii a) (upper s')
  end.

Fixpoint lower (s : string) : string :=
  match s with
  | EmptyString => EmptyString
  | String a s' => String (lower_ascii a) (lower s')
  end.

(** [k in s] for two strings: [k] occurs in [s]. *)
Fixpoint substring_of (k s : string) : bool :=
  String.prefix k s ||
  match s with
  | EmptyString => false
  | String _ s' => substring_of k s'
  end.

(** [str(n)] for an integer. *)
Definition str_int (z : Z) : string :=
  NilZero.string_of_int (Z.to_int z).

(** ** HTTP messages, exceptions *)

(** What [requests] hands back.  [json] is the outcome of [response.json()]:
    [None] when the body is not JSON and the call raises [ValueError]. *)
Record response := {
  status_code : Z;
  text : string;
  json : option pyval
}.

(** The arguments of one [requests.request] call.  [req_json] is the object
    given as [data=] to [_request], [req_data] its [json.dumps]. *)
Record request := {
  req_method : string;
  req_url : string;
  req_json : pyval;
  req_data : string;
  req_headers : gmap string string
}.

Inductive exn : Type :=
| OrderParameterValidationException (msg : string)
| KucoinAPIException (r : response)
| KucoinRequestException (msg : string)
| TypeError
| ZeroDivisionError
| AttributeError
| KeyError.

Inductive result (A : Type) : Type :=
| Ok (a : A)
| Raise (x : exn).
Arguments Ok {A} a.
Arguments Raise {A} x.

Definition is_Raise {A} (r : result A) : bool :=
  match r with Ok _ => false | Raise _ => true end.

Definition is_validation_exn (x : exn) : bool :=
  match x with OrderParameterValidationException _ => true | _ => false end.

Definition is_validation_error {A} (r : result A) : bool :=
  match r with
  | Raise (OrderParameterValidationException _) => true
  | _ => false
  end.

(** [d[k]]: [KeyError] when the key is missing. *)
Definition dict_getitem (d : gmap string pyval) (k : string) : result pyval :=
  match d !! k with
  | Some v => Ok v
  | None => Raise KeyError
  end.

(** ** common/utils.py *)

Definition SIDE_MAPPING : gmap string string :=
  <["buy" := "sell"]> (<["sell" := "buy"]> ∅).

(** [SIDE_MAPPING.get(v)].  ([_create_order] looks up [order['side']] only
    after [validate_side] accepted it, so the key is a string.) *)
Definition SIDE_MAPPING_get (v : pyval) : pyval :=
  match v with
  | PStr s => match SIDE_MAPPING !! s with Some t => PStr t | None => PNone end
  | _ => PNone
  end.

(** [SIDE_MAPPING[v]] *)
Definition SIDE_MAPPING_getitem (v : pyval) : result pyval :=
  match v with
  | PStr s => match SIDE_MAPPING !! s with Some t => Ok (PStr t) | None => Raise KeyError end
  | _ => Raise KeyError
  end.

(** ** providers/kucoin/validations.py *)

Definition VALID_SIDE : list string := ["buy"; "sell"].
Definition VALID_STOP : list string := ["down"; "up"].
Definition VALID_STOP_PRICE_TYPE : list string := ["TP"; "MP"; "IP"].
Definition VALID_TIME_IN_FORCE : list string := ["GTC"; "IOC"].

Definition validate_side (side : pyval) : result unit :=
  if negb (py_in_strs side VALID_SIDE) then
    Raise (OrderParameterValidationException
             "Order 'side' need to be one of ('buy', 'sell')")
  else Ok tt.

Definition validate_stop (stop stop_price stop_price_type : pyval) : result unit :=
  if negb (truthy stop) then Ok tt
  else if negb (py_in_strs stop VALID_STOP) then
    Raise (OrderParameterValidationException
             "Property 'stop' need to be one of ('down', 'up')")
  else if negb (py_in_strs stop_price_type VALID_STOP_PRICE_TYPE) then
    Raise (OrderParameterValidationException
             "Property 'stop_price_type' need to be one of ('TP', 'MP', 'IP')")
  else if negb (truthy stop_price) then
    Raise (OrderParameterValidationException
             "Property 'stop_price' need to be defined")
  else Ok tt.

Definition validate_stop_loss_take_profit (stop stop_loss take_profit : pyval)
  : result unit :=
  if truthy stop && (truthy stop_loss || truthy take_profit) then
    Raise (OrderParameterValidationException
             "If property 'stop_loss' or 'take_profit' defined proerty 'stop' need to be empty")
  else Ok tt.

Definition validate_time_in_force (time_in_force : pyval) : result unit :=
  if negb (truthy time_in_force) then Ok tt
  else if negb (py_in_strs time_in_force VALID_TIME_IN_FORCE) then
    Raise (OrderParameterValidationException
             "Property 'time_in_force' need to be one of: ('GTC', 'IOC')")
  else Ok tt.

(** The parameters come in the order of the [def]: first [time_in_force],
    then [post_only].  [VALID_TIME_IN_FORCE[0]] is ["GTC"]. *)
Definition validate_post_only (time_in_force post_only : pyval) : result unit :=
  if truthy post_only
     && negb (py_eq_str time_in_force (nth 0 VALID_TIME_IN_FORCE EmptyString)) then
    Raise (OrderParameterValidationException
             "If property 'post_only' defined, 'time_in_force' need to be GTC")
  else Ok tt.

Definition validate_hidden_and_iceberg (hidden iceberg : pyval) : result unit :=
  if truthy hidden && truthy iceberg then
    Raise (OrderParameterValidationException
             "Only one of 'hodden' and 'iceberg' can be defined")
  else Ok tt.

Definition validate_iceberg (iceberg visible_size : pyval) : result unit :=
  if truthy iceberg && negb (truthy visible_size) then
    Raise (OrderParameterValidationException
             "If property 'iceberg' is defined, proerty 'visible_size' need to be empty")
  else Ok tt.

Definition validate_amount_size (amount size : pyval) : result unit :=
  if truthy amount && truthy size then
    Raise (OrderParameterValidationException
             "Either 'amount' or 'size' need to be empty.")
  else Ok tt.

(** ** The monad of the client code *)

(** The outside world.  [time_ms n] is [int(time.time() * 1000)] at the
    [n]-th reading of the clock, [uuid4_hex n] the [n]-th result of
    [flat_uuid()], [hmac_sha256_b64 key msg] is
    [base64.b64encode(hmac.new(key, msg, hashlib.sha256).digest())],
    [http n rq] the response to [rq] when [n] requests went out before it,
    [py_repr v] is [str(v)] for a value that is not a string. *)
Record env := {
  time_ms : nat -> Z;
  uuid4_hex : nat -> string;
  hmac_sha256_b64 : string -> string -> string;
  json_dumps : pyval -> string;
  py_repr : pyval -> string;
  http : nat -> request -> response
}.

Record state := {
  clock_reads : nat;
  uuid_calls : nat;
  DEFAULT_HEADERS : gmap string string;
  sent : list request
}.

Definition M (A : Type) : Type := state -> result A * state.

Definition ret {A} (a : A) : M A := fun st => (Ok a, st).

Definition bind {A B} (m : M A) (k : A -> M B) : M B :=
  fun st =>
    match m st with
    | (Ok a, st') => k a st'
    | (Raise x, st') => (Raise x, st')
    end.

Definition lift {A} (r : result A) : M A := fun st => (r, st).

Notation "'let*' x ':=' m 'in' k" := (bind m (fun x => k))
  (at level 10, x name, m at level 100, k at level 200).

(** [str(v)], as an f-string formats [v]. *)
Definition py_str (e : env) (v : pyval) : string :=
  match v with
  | PStr s => s
  | _ => py_repr e v
  end.

(** [flat_uuid()] *)
Definition flat_uuid (e : env) : M string :=
  fun st =>
    (Ok (uuid4_hex e (uuid_calls st)),
     {| clock_reads := clock_reads st;
        uuid_calls := S (uuid_calls st);
        DEFAULT_HEADERS := DEFAULT_HEADERS st;
        sent := sent st |}).

(** ** providers/kucoin/clients/perp.py *)

Record Client := {
  API_KEY : string;
  API_SECRET : string;
  API_PASSPHRASE : string
}.

Definition API_URL : string := "https://api-futures.kucoin.com".
Definition API_V1 : string := "v1".

(** The class attribute as the class body creates it. *)
Definition DEFAULT_HEADERS_0 : gmap string string :=
  <["accept" := "application/json"]>
    (<["content-type" := "application/json"]> ∅).

Definition initial_state : state :=
  {| clock_reads := 0; uuid_calls := 0;
     DEFAULT_HEADERS := DEFAULT_HEADERS_0; sent := [] |}.

(** ['k' in res] and [res['k']] for a parsed JSON value. *)
Definition py_contains (k : string) (res : pyval) : result bool :=
  match res with
  | PDict d => Ok (bool_decide (is_Some (d !! k)))
  | PList l => Ok (existsb (fun x => py_eq_str x k) l)
  | PStr s => Ok (substring_of k s)
  | _ => Raise TypeError
  end.

Definition py_getitem (res : pyval) (k : string) : result pyval :=
  match res with
  | PDict d => dict_getitem d k
  | _ => Raise TypeError
  end.

Definition rbind {A B} (r : result A) (k : A -> result B) : result B :=
  match r with
  | Ok a => k a
  | Raise x => Raise x
  end.

(** [Client._handle_response].  Only [ValueError] is caught, and only
    [response.json()] raises it. *)
Definition _handle_response (r : response) : result pyval :=
  if negb (String.prefix "2" (str_int (status_code r))) then
    Raise (KucoinAPIException r)
  else
    match json r with
    | None => Raise (KucoinRequestException ("Invalid Response: " ++ text r))
    | Some res =>
        rbind (py_contains "code" res) (fun has_code =>
        rbind (if has_code
               then rbind (py_getitem res "code")
                      (fun v => Ok (negb (py_eq_str v "200000")))
               else Ok false) (fun bad_code =>
        if bad_code then Raise (KucoinAPIException r) else
        rbind (py_contains "success" res) (fun has_success =>
        rbind (if has_success
               then rbind (py_getitem res "success")
                      (fun v => Ok (negb (truthy v)))
               else Ok false) (fun failed =>
        if failed then Raise (KucoinAPIException r) else
        rbind (py_contains "data" res) (fun has_data =>
        if has_data then py_getitem res "data" else Ok res)))))
    end.

Definition _create_path (path : string) (api_version : option string) : string :=
  let api_version :=
    match api_version with
    | Some (String a v) => String a v
    | _ => API_V1
    end in
  "/api/" ++ api_version ++ "/" ++ path.

Definition _create_url (path : string) : string := API_URL ++ path.

Definition _generate_signature (e : env) (c : Client)
    (nonce : Z) (method api_path data : string) : string :=
  let str_to_sign := str_int nonce ++ method ++ api_path ++ data in
  hmac_sha256_b64 e (API_SECRET c) str_to_sign.

Definition _generate_passphrase (e : env) (c : Client) : string :=
  hmac_sha256_b64 e (API_SECRET c) (API_PASSPHRASE c).

(** The headers of a request: [headers] is the very dict
    [self.DEFAULT_HEADERS] (no caller passes [headers=]), and the five
    assignments write into it. *)
Definition signed_headers (e : env) (c : Client) (nonce : Z)
    (method full_path data : string) (headers : gmap string string)
  : gmap string string :=
  <["KC-API-KEY-VERSION" := "2"]>
  (<["KC-API-PASSPHRASE" := _generate_passphrase e c]>
  (<["KC-API-KEY" := API_KEY c]>
  (<["KC-API-SIGN" := _generate_signature e c nonce method full_path data]>
  (<["KC-API-TIMESTAMP" := str_int nonce]> headers)))).

(** The request [_request] hands to [requests.request] in state [st]. *)
Definition build_request (e : env) (c : Client) (st : state)
    (method path : string) (api_version : option string) (data : option pyval)
  : request :=
  let data_obj := default (PDict ∅) data in
  let data := json_dumps e data_obj in
  let full_path := _create_path path api_version in
  let url := _create_url full_path in
  let nonce := time_ms e (clock_reads st) in
  {| req_method := method;
     req_url := url;
     req_json := data_obj;
     req_data := data;
     req_headers :=
       signed_headers e c nonce method full_path data (DEFAULT_HEADERS st) |}.

(** [Client._request] *)
Definition _request (e : env) (c : Client)
    (method path : string) (api_version : option string) (data : option pyval)
  : M pyval :=
  fun st =>
    let rq := build_request e c st method path api_version data in
    let response := http e (length (sent st)) rq in
    (_handle_response response,
     {| clock_reads := S (clock_reads st);
        uuid_calls := uuid_calls st;
        DEFAULT_HEADERS := req_headers rq;
        sent := sent st ++ [rq] |}).

(** [Client.contract_info] *)
Definition contract_info (e : env) (c : Client) (symbol : pyval) : M pyval :=
  _request e c "GET" ("contracts/" ++ py_str e symbol) None None.

(** [symbol_info.get("multiplier")]: only a dict has [get]. *)
Definition py_get (v : pyval) (k : string) : result pyval :=
  match v with
  | PDict d => Ok (dict_get d k)
  | _ => Raise AttributeError
  end.

(** [int(q)]: towards zero. *)
Definition py_int (q : Q) : Z := Z.quot (Qnum q) (Z.pos (Qden q)).

(** [a // m] *)
Definition py_floordiv (a m : Q) : result pyval :=
  if Qeq_bool m 0 then Raise ZeroDivisionError
  else Ok (PNum (inject_Z (Qfloor (a / m)))).

(** Lines 160-167 of perp.py: the size of an order given as an amount.
    ([size] is assigned on both branches, so the bare [raise] under
    [if size is None] is never reached.) *)
Definition amount_to_size (amount multiplier : pyval) : result pyval :=
  match as_number amount with
  | None => Raise TypeError
  | Some a =>
      if Qle_bool 1 a then
        match as_number multiplier with
        | None => Raise TypeError
        | Some m =>
            if negb (Qle_bool 1 m) then
              if Qeq_bool m 0 then Raise ZeroDivisionError
              else Ok (PNum (inject_Z (py_int (a * (1 / m)))))
            else py_floordiv a m
        end
      else
        match as_number multiplier with
        | None => Raise TypeError
        | Some m => py_floordiv a m
        end
  end.

(** [stop_loss_order] of [_create_order], before it is sent (lines 173-179). *)
Definition stop_loss_order (order : gmap string pyval) (oid : string)
    (side stop_loss_price : pyval) : gmap string pyval :=
  <["reduceOnly" := PBool true]>
  (<["stopPriceType" := PStr "TP"]>
  (<["stopPrice" := stop_loss_price]>
  (<["stop" := PStr (if py_eq_str side "buy" then "down" else "up")]>
  (<["side" := SIDE_MAPPING_get side]>
  (<["clientOid" := PStr oid]> order))))).

(** [take_profit_order] of [_create_order] (lines 183-189), given the result
    of [SIDE_MAPPING[order['side']]]. *)
Definition take_profit_order (order : gmap string pyval) (oid : string)
    (side inverse take_profit_price : pyval) : gmap string pyval :=
  <["reduceOnly" := PBool true]>
  (<["stopPriceType" := PStr "TP"]>
  (<["stopPrice" := take_profit_price]>
  (<["stop" := PStr (if py_eq_str side "buy" then "up" else "down")]>
  (<["side" := inverse]>
  (<["clientOid" := PStr oid]> order))))).

(** Lines 154-155: [if order.get("clientOid") is None:
    order["clientOid"] = flat_uuid()]. *)
Definition ensure_client_oid (e : env) (order : gmap string pyval)
  : M (gmap string pyval) :=
  if is_None (dict_get order "clientOid")
  then let* oid := flat_uuid e in ret (<["clientOid" := PStr oid]> order)
  else ret order.

(** Lines 157-168: [if amount:] fetch the contract, compute the size and
    store it in the order. *)
Definition size_from_amount (e : env) (c : Client) (order : gmap string pyval)
    (amount : pyval) : M (gmap string pyval) :=
  if truthy amount then
    let* symbol := lift (dict_getitem order "symbol") in
    let* symbol_info := contract_info e c symbol in
    let* multiplier := lift (py_get symbol_info "multiplier") in
    let* size := lift (amount_to_size amount multiplier) in
    ret (<["size" := size]> order)
  else ret order.

(** Lines 172-180: [if stop_loss_price:] build and post the stop-loss
    order. *)
Definition submit_stop_loss (e : env) (c : Client) (order : gmap string pyval)
    (stop_loss_price : pyval) : M unit :=
  if truthy stop_loss_price then
    let* oid := flat_uuid e in
    let* side := lift (dict_getitem order "side") in
    let* _ := _request e c "POST" "orders" None
                (Some (PDict (stop_loss_order order oid side stop_loss_price))) in
    ret tt
  else ret tt.

(** Lines 182-190: [if take_profit_price:] build and post the take-profit
    order. *)
Definition submit_take_profit (e : env) (c : Client) (order : gmap string pyval)
    (take_profit_price : pyval) : M unit :=
  if truthy take_profit_price then
    let* oid := flat_uuid e in
    let* side := lift (dict_getitem order "side") in
    let* inverse := lift (SIDE_MAPPING_getitem side) in
    let* _ := _request e c "POST" "orders" None
                (Some (PDict (take_profit_order order oid side inverse
                                take_profit_price))) in
    ret tt
  else ret tt.

(** Lines 154-192 of [_create_order]: what follows its validator calls. *)
Definition submit (e : env) (c : Client) (order : gmap string pyval)
    (amount stop_loss_price take_profit_price : pyval) : M pyval :=
  let* order := ensure_client_oid e order in
  let* order := size_from_amount e c order amount in
  let* new_order_response :=
    _request e c "POST" "orders" None (Some (PDict order)) in
  let* _ := submit_stop_loss e c order stop_loss_price in
  let* _ := submit_take_profit e c order take_profit_price in
  ret new_order_response.

(** [Client._create_order] *)
Definition _create_order (e : env) (c : Client) (order : gmap string pyval)
    (amount stop_loss_price take_profit_price : pyval) : M pyval :=
  let* side := lift (dict_getitem order "side") in
  let* _ := lift (validate_side side) in
  let* _ := lift (validate_stop (dict_get order "stop")
                                (dict_get order "stopPrice")
                                (dict_get order "stopPriceType")) in
  let* _ := lift (validate_stop_loss_take_profit
                    (dict_get order "stop") stop_loss_price take_profit_price) in
  let* _ := lift (validate_amount_size amount (dict_get order "size")) in
  submit e c order amount stop_loss_price take_profit_price.

(** [order[k] = v] under [if v:]. *)
Definition set_if (k : string) (v : pyval) (order : gmap string pyval)
  : gmap string pyval :=
  if truthy v then <[k := v]> order else order.

(** The parameters of [create_limit_order], with the defaults of its
    signature. *)
Module Limit.
Record args := {
  side : string;
  price : pyval;
  symbol : string;
  leverage : pyval;
  amount : pyval;
  size : pyval;
  client_oid : pyval;
  remark : pyval;
  stop : pyval;
  stop_price : pyval;
  stop_price_type : pyval;
  reduce_only : pyval;
  close_order : pyval;
  force_hold : pyval;
  time_in_force : pyval;
  post_only : pyval;
  hidden : pyval;
  iceberg : pyval;
  visible_size : pyval;
  stop_loss_price : pyval;
  take_profit_price : pyval
}.

(** A call that passes the four required parameters only. *)
Definition required (side : string) (price : pyval) (symbol : string)
    (leverage : pyval) : args :=
  {| side := side; price := price; symbol := symbol; leverage := leverage;
     amount := PNone; size := PNone; client_oid := PNone; remark := PNone;
     stop := PNone; stop_price := PNone; stop_price_type := PNone;
     reduce_only := PNone; close_order := PNone; force_hold := PNone;
     time_in_force := PNone; post_only := PNone; hidden := PNone;
     iceberg := PNone; visible_size := PStr EmptyString;
     stop_loss_price := PNone; take_profit_price := PNone |}.

(** The same call with one keyword argument given. *)
Definition with_amount (v : pyval) (a : args) : args :=
  {| side := side a; price := price a; symbol := symbol a;
     leverage := leverage a; amount := v; size := size a;
     client_oid := client_oid a; remark := remark a; stop := stop a;
     stop_price := stop_price a; stop_price_type := stop_price_type a;
     reduce_only := reduce_only a; close_order := close_order a;
     force_hold := force_hold a; time_in_force := time_in_force a;
     post_only := post_only a; hidden := hidden a; iceberg := iceberg a;
     visible_size := visible_size a; stop_loss_price := stop_loss_price a;
     take_profit_price := take_profit_price a |}.

Definition with_size (v : pyval) (a : args) : args :=
  {| side := side a; price := price a; symbol := symbol a;
     leverage := leverage a; amount := amount a; size := v;
     client_oid := client_oid a; remark := remark a; stop := stop a;
     stop_price := stop_price a; stop_price_type := stop_price_type a;
     reduce_only := reduce_only a; close_order := close_order a;
     force_hold := force_hold a; time_in_force := time_in_force a;
     post_only := post_only a; hidden := hidden a; iceberg := iceberg a;
     visible_size := visible_size a; stop_loss_price := stop_loss_price a;
     take_profit_price := take_profit_price a |}.

Definition with_time_in_force (v : pyval) (a : args) : args :=
  {| side := side a; price := price a; symbol := symbol a;
     leverage := leverage a; amount := amount a; size := size a;
     client_oid := client_oid a; remark := remark a; stop := stop a;
     stop_price := stop_price a; stop_price_type := stop_price_type a;
     reduce_only := reduce_only a; close_order := close_order a;
     force_hold := force_hold a; time_in_force := v;
     post_only := post_only a; hidden := hidden a; iceberg := iceberg a;
     visible_size := visible_size a; stop_loss_price := stop_loss_price a;
     take_profit_price := take_profit_price a |}.

Definition with_post_only (v : pyval) (a : args) : args :=
  {| side := side a; price := price a; symbol := symbol a;
     leverage := leverage a; amount := amount a; size := size a;
     client_oid := client_oid a; remark := remark a; stop := stop a;
     stop_price := stop_price a; stop_price_type := stop_price_type a;
     reduce_only := reduce_only a; close_order := close_order a;
     force_hold := force_hold a; time_in_force := time_in_force a;
     post_only := v; hidden := hidden a; iceberg := iceberg a;
     visible_size := visible_size a; stop_loss_price := stop_loss_price a;
     take_profit_price := take_profit_price a |}.

Definition with_stop_loss_price (v : pyval) (a : args) : args :=
  {| side := side a; price := price a; symbol := symbol a;
     leverage := leverage a; amount := amount a; size := size a;
     client_oid := client_oid a; remark := remark a; stop := stop a;
     stop_price := stop_price a; stop_price_type := stop_price_type a;
     reduce_only := reduce_only a; close_order := close_order a;
     force_hold := force_hold a; time_in_force := time_in_force a;
     post_only := post_only a; hidden := hidden a; iceberg := iceberg a;
     visible_size := visible_size a; stop_loss_price := v;
     take_profit_price := take_profit_price a |}.

Definition with_take_profit_price (v : pyval) (a : args) : args :=
  {| side := side a; price := price a; symbol := symbol a;
     leverage := leverage a; amount := amount a; size := size a;
     client_oid := client_oid a; remark := remark a; stop := stop a;
     stop_price := stop_price a; stop_price_type := stop_price_type a;
     reduce_only := reduce_only a; close_order := close_order a;
     force_hold := force_hold a; time_in_force := time_in_force a;
     post_only := post_only a; hidden := hidden a; iceberg := iceberg a;
     visible_size := visible_size a; stop_loss_price := stop_loss_price a;
     take_profit_price := v |}.
End Limit.

(** The parameters of [create_market_order]. *)
Module Market.
Record args := {
  side : string;
  symbol : string;
  leverage : pyval;
  amount : pyval;
  size : pyval;
  client_oid : pyval;
  remark : pyval;
  stop : pyval;
  stop_price : pyval;
  stop_price_type : pyval;
  reduce_only : pyval;
  close_order : pyval;
  force_hold : pyval;
  stop_loss_price : pyval;
  take_profit_price : pyval
}.

Definition required (side symbol : string) (leverage : pyval) : args :=
  {| side := side; symbol := symbol; leverage := leverage;
     amount := PNone; size := PNone; client_oid := PNone; remark := PNone;
     stop := PNone; stop_price := PNone; stop_price_type := PNone;
     reduce_only := PNone; close_order := PNone; force_hold := PNone;
     stop_loss_price := PNone; take_profit_price := PNone |}.

Definition with_amount (v : pyval) (a : args) : args :=
  {| side := side a; symbol := symbol a; leverage := leverage a; amount := v;
     size := size a; client_oid := client_oid a; remark := remark a;
     stop := stop a; stop_price := stop_price a;
     stop_price_type := stop_price_type a; reduce_only := reduce_only a;
     close_order := close_order a; force_hold := force_hold a;
     stop_loss_price := stop_loss_price a;
     take_profit_price := take_profit_price a |}.

Definition with_size (v : pyval) (a : args) : args :=
  {| side := side a; symbol := symbol a; leverage := leverage a;
     amount := amount a; size := v; client_oid := client_oid a;
     remark := remark a; stop := stop a; stop_price := stop_price a;
     stop_price_type := stop_price_type a; reduce_only := reduce_only a;
     close_order := close_order a; force_hold := force_hold a;
     stop_loss_price := stop_loss_price a;
     take_profit_price := take_profit_price a |}.

Definition with_stop_loss_price (v : pyval) (a : args) : args :=
  {| side := side a; symbol := symbol a; leverage := leverage a;
     amount := amount a; size := size a; client_oid := client_oid a;
     remark := remark a; stop := stop a; stop_price := stop_price a;
     stop_price_type := stop_price_type a; reduce_only := reduce_only a;
     close_order := close_order a; force_hold := force_hold a;
     stop_loss_price := v; take_profit_price := take_profit_price a |}.

Definition with_take_profit_price (v : pyval) (a : args) : args :=
  {| side := side a; symbol := symbol a; leverage := leverage a;
     amount := amount a; size := size a; client_oid := client_oid a;
     remark := remark a; stop := stop a; stop_price := stop_price a;
     stop_price_type := stop_price_type a; reduce_only := reduce_only a;
     close_order := close_order a; force_hold := force_hold a;
     stop_loss_price := stop_loss_price a; take_profit_price := v |}.
End Market.

(** The dict [order] of [create_limit_order] when it is handed to
    [_create_order] (lines 227-257). *)
Definition limit_order (a : Limit.args) : gmap string pyval :=
  let order : gmap string pyval :=
    <["size" := Limit.size a]>
    (<["price" := Limit.price a]>
    (<["type" := PStr "limit"]>
    (<["side" := PStr (lower (Limit.side a))]>
    (<["symbol" := PStr (upper (Limit.symbol a))]> ∅)))) in
  let order := set_if "clientOid" (Limit.client_oid a) order in
  let order := set_if "leverage" (Limit.leverage a) order in
  let order := set_if "remark" (Limit.remark a) order in
  let order := set_if "stop" (Limit.stop a) order in
  let order := set_if "stopPrice" (Limit.stop_price a) order in
  let order := set_if "stopPriceType" (Limit.stop_price_type a) order in
  let order := set_if "reduceOnly" (Limit.reduce_only a) order in
  let order := set_if "closeOrder" (Limit.close_order a) order in
  let order := set_if "forceHold" (Limit.force_hold a) order in
  let order := set_if "hidden" (Limit.hidden a) order in
  if truthy (Limit.iceberg a)
  then <["visible_size" := Limit.visible_size a]>
         (<["iceberg" := Limit.iceberg a]> order)
  else order.

(** [Client.create_limit_order].  The four validators are called with the
    positional arguments of the source. *)
Definition create_limit_order (e : env) (c : Client) (a : Limit.args) : M pyval :=
  let* _ := lift (validate_time_in_force (Limit.time_in_force a)) in
  let* _ := lift (validate_post_only (Limit.post_only a) (Limit.time_in_force a)) in
  let* _ := lift (validate_hidden_and_iceberg (Limit.hidden a) (Limit.iceberg a)) in
  let* _ := lift (validate_iceberg (Limit.iceberg a) (Limit.visible_size a)) in
  _create_order e c (limit_order a)
    (Limit.amount a) (Limit.stop_loss_price a) (Limit.take_profit_price a).

(** The dict [order] of [create_market_order] (lines 285-309). *)
Definition market_order (a : Market.args) : gmap string pyval :=
  let order : gmap string pyval :=
    <["size" := Market.size a]>
    (<["type" := PStr "market"]>
    (<["side" := PStr (lower (Market.side a))]>
    (<["symbol" := PStr (upper (Market.symbol a))]> ∅))) in
  let order := set_if "clientOid" (Market.client_oid a) order in
  let order := set_if "leverage" (Market.leverage a) order in
  let order := set_if "remark" (Market.remark a) order in
  let order := set_if "stop" (Market.stop a) order in
  let order := set_if "stopPrice" (Market.stop_price a) order in
  let order := set_if "stopPriceType" (Market.stop_price_type a) order in
  let order := set_if "reduceOnly" (Market.reduce_only a) order in
  let order := set_if "closeOrder" (Market.close_order a) order in
  set_if "forceHold" (Market.force_hold a) order.

(** [Client.create_market_order] *)
Definition create_market_order (e : env) (c : Client) (a : Market.args) : M pyval :=
  _create_order e c (market_order a)
    (Market.amount a) (Market.stop_loss_price a) (Market.take_profit_price a).

(** The requests a computation issued: what it appended to the log. *)
Definition issued (st st' : state) : list request :=
  skipn (length (sent st)) (sent st').


(** ** The public order interface *)

(** A call of one of the two order methods. *)
Inductive order_call : Type :=
| LimitOrder (a : Limit.args)
| MarketOrder (a : Market.args).

Definition create_order (e : env) (c : Client) (k : order_call) : M pyval :=
  match k with
  | LimitOrder a => create_limit_order e c a
  | MarketOrder a => create_market_order e c a
  end.

Definition call_amount (k : order_call) : pyval :=
  match k with
  | LimitOrder a => Limit.amount a
  | MarketOrder a => Market.amount a
  end.

Definition call_size (k : order_call) : pyval :=
  match k with
  | LimitOrder a => Limit.size a
  | MarketOrder a => Market.size a
  end.

Definition call_side (k : order_call) : string :=
  match k with
  | LimitOrder a => Limit.side a
  | MarketOrder a => Market.side a
  end.

Definition call_symbol (k : order_call) : string :=
  match k with
  | LimitOrder a => Limit.symbol a
  | MarketOrder a => Market.symbol a
  end.

Definition call_stop_loss_price (k : order_call) : pyval :=
  match k with
  | LimitOrder a => Limit.stop_loss_price a
  | MarketOrder a => Market.stop_loss_price a
  end.

Definition call_take_profit_price (k : order_call) : pyval :=
  match k with
  | LimitOrder a => Limit.take_profit_price a
  | MarketOrder a => Market.take_profit_price a
  end.

Definition with_amount (v : pyval) (k : order_call) : order_call :=
  match k with
  | LimitOrder a => LimitOrder (Limit.with_amount v a)
  | MarketOrder a => MarketOrder (Market.with_amount v a)
  end.

Definition with_stop_loss_price (v : pyval) (k : order_call) : order_call :=
  match k with
  | LimitOrder a => LimitOrder (Limit.with_stop_loss_price v a)
  | MarketOrder a => MarketOrder (Market.with_stop_loss_price v a)
  end.

Definition with_take_profit_price (v : pyval) (k : order_call) : order_call :=
  match k with
  | LimitOrder a => LimitOrder (Limit.with_take_profit_price v a)
  | MarketOrder a => MarketOrder (Market.with_take_profit_price v a)
  end.

(** The dict the call hands to [_create_order]. *)
Definition call_order (k : order_call) : gmap string pyval :=
  match k with
  | LimitOrder a => limit_order a
  | MarketOrder a => market_order a
  end.

(** The validator calls of [create_limit_order], with the arguments the
    source passes, in its order. *)
Definition limit_checks (a : Limit.args) : list (result unit) :=
  [ validate_time_in_force (Limit.time_in_force a);
    validate_post_only (Limit.post_only a) (Limit.time_in_force a);
    validate_hidden_and_iceberg (Limit.hidden a) (Limit.iceberg a);
    validate_iceberg (Limit.iceberg a) (Limit.visible_size a) ].

(** The validator calls of [_create_order]. *)
Definition order_checks (order : gmap string pyval)
    (amount stop_loss_price take_profit_price : pyval) : list (result unit) :=
  [ validate_side (dict_get order "side");
    validate_stop (dict_get order "stop") (dict_get order "stopPrice")
      (dict_get order "stopPriceType");
    validate_stop_loss_take_profit (dict_get order "stop")
      stop_loss_price take_profit_price;
    validate_amount_size amount (dict_get order "size") ].

(** Every validator call an order call makes if none before it raises. *)
Definition call_checks (k : order_call) : list (result unit) :=
  match k with
  | LimitOrder a =>
      limit_checks a ++
      order_checks (limit_order a) (Limit.amount a)
        (Limit.stop_loss_price a) (Limit.take_profit_price a)
  | MarketOrder a =>
      order_checks (market_order a) (Market.amount a)
        (Market.stop_loss_price a) (Market.take_profit_price a)
  end.

(** ** Reading the request log *)

(** The [j]-th request a computation issued from [st], with what
    [_handle_response] made of its response. *)
Definition exchange (e : env) (st : state) (j : nat) (rq : request)
  : request * result pyval :=
  (rq, _handle_response (http e (length (sent st) + j) rq)).

Definition exchanges (e : env) (st st' : state)
  : list (request * result pyval) :=
  imap (exchange e st) (issued st st').

Definition is_post (x : request * result pyval) : bool :=
  String.eqb (req_method (fst x)) "POST".

(** The order submissions among them: the [POST] requests. *)
Definition submissions (e : env) (st st' : state)
  : list (request * result pyval) :=
  List.filter is_post (exchanges e st st').

(** The keys of a request's JSON object. *)
Definition payload_keys (rq : request) : gset string :=
  match req_json rq with
  | PDict d => dom d
  | _ => ∅
  end.

(** [payload rq !! k]: a field of a request's JSON object. *)
Definition payload (rq : request) : gmap string pyval :=
  match req_json rq with
  | PDict d => d
  | _ => ∅
  end.

(** How many [flat_uuid()] calls [_create_order] makes for the primary
    order. *)
Definition oid_draws (order : gmap string pyval) : nat :=
  if is_None (dict_get order "clientOid") then 1 else 0.

(** ** Describing a run *)

(** From [st] to [st'] exactly the requests of [xs] went out, in this order,
    and each is paired with what [_handle_response] made of its response. *)
Definition trace_of (e : env) (st st' : state)
    (xs : list (request * result pyval)) : Prop :=
  sent st' = (sent st ++ map fst xs)%list /\
  xs = imap (exchange e st) (map fst xs).

(** The order after lines 154-155: with a generated [clientOid] when it has
    none. *)
Definition order_with_oid (e : env) (st : state) (order : gmap string pyval)
  : gmap string pyval :=
  if is_None (dict_get order "clientOid")
  then <["clientOid" := PStr (uuid4_hex e (uuid_calls st))]> order
  else order.

(** Where orders are posted. *)
Definition orders_url : string := _create_url (_create_path "orders" None).

(** 1 when [if v:] takes the branch, else 0. *)
Definition flag (v : pyval) : nat := if truthy v then 1 else 0.

(** ** The size rule as the specification words it *)




(** ** A concrete world, for examples *)

Definition envelope (data : pyval) : pyval :=
  PDict (<["code" := PStr "200000"]> (<["data" := data]> ∅)).

Definition http_200 (body : pyval) : response :=
  {| status_code := 200; text := "{...}"; json := Some body |}.

(** A peer that answers the contract query with multiplier 0.1 and accepts
    every order. *)
Definition example_env : env :=
  {| time_ms := fun n => (1700000000000 + Z.of_nat n)%Z;
     uuid4_hex := fun n => "0123456789abcdef0123456789abcde" ++ str_int (Z.of_nat n);
     hmac_sha256_b64 := fun key msg => "c2lnbmF0dXJl";
     json_dumps := fun _ => "{...}";
     py_repr := fun _ => "?";
     http := fun n rq =>
       if String.eqb (req_method rq) "GET"
       then http_200 (envelope (PDict (<["multiplier" := PNum (1 # 10)]> ∅)))
       else http_200 (envelope (PDict (<["orderId" := PStr "5bd6e9286d99522a52e458de"]> ∅))) |}.

(** A peer that answers every request with a gateway error page. *)
Definition failing_env : env :=
  {| time_ms := time_ms example_env;
     uuid4_hex := uuid4_hex example_env;
     hmac_sha256_b64 := hmac_sha256_b64 example_env;
     json_dumps := json_dumps example_env;
     py_repr := py_repr example_env;
     http := fun n rq =>
       {| status_code := 502; text := "<html>Bad Gateway</html>"; json := None |} |}.

Definition example_client : Client :=
  {| API_KEY := "key"; API_SECRET := "secret"; API_PASSPHRASE := "passphrase" |}.

(** [create_limit_order("buy", "100", "XBTUSDTM", "5")] *)
Definition plain_limit_order : Limit.args :=
  Limit.required "buy" (PStr "100") "XBTUSDTM" (PStr "5").

(** [create_limit_order("buy", "100", "XBTUSDTM", "5", size=1,
    time_in_force="GTC", post_only=True)] *)
Definition post_only_GTC_order : Limit.args :=
  Limit.with_post_only (PBool true)
    (Limit.with_time_in_force (PStr "GTC")
       (Limit.with_size (PNum 1) plain_limit_order)).

(** [create_limit_order("buy", "100", "XBTUSDTM", "5", size=1,
    post_only=True)] *)
Definition post_only_no_tif_order : Limit.args :=
  Limit.with_post_only (PBool true)
    (Limit.with_size (PNum 1) plain_limit_order).

(** ** Keys of an order payload *)

(** The five keys of the dict literal in [create_limit_order]. *)
Definition literal_keys : gset string :=
  {[ "symbol"; "side"; "type"; "price"; "size" ]}.

(** The keys [_create_order] writes into the clone it posts as a stop-loss
    or take-profit order. *)
Definition conditional_keys : list string :=
  ["clientOid"; "side"; "stop"; "stopPrice"; "stopPriceType"; "reduceOnly"].

(** The [if v: order[k] = ...] lines of [create_limit_order]: each key with
    the argument whose truth value decides whether it is stored. *)
Definition limit_guards (a : Limit.args) : list (string * pyval) :=
  [ ("leverage", Limit.leverage a);
    ("remark", Limit.remark a);
    ("stop", Limit.stop a);
    ("stopPrice", Limit.stop_price a);
    ("stopPriceType", Limit.stop_price_type a);
    ("reduceOnly", Limit.reduce_only a);
    ("closeOrder", Limit.close_order a);
    ("forceHold", Limit.force_hold a);
    ("hidden", Limit.hidden a);
    ("iceberg", Limit.iceberg a);
    ("visible_size", Limit.iceberg a) ].

(** The keys of those guards that hold. *)
Definition optional_keys (guards : list (string * pyval)) : gset string :=
  list_to_set (map fst (List.filter (fun kv => truthy (snd kv)) guards)).

(** Calls used as examples. *)

(** [create_limit_order("buy", "100", "XBTUSDTM", "5", size=1,
    stop_loss_price=100)] *)
Definition buy_with_stop_loss : order_call :=
  LimitOrder (Limit.with_stop_loss_price (PNum 100)
                (Limit.with_size (PNum 1) plain_limit_order)).

(** [create_market_order("sell", "XBTUSDTM", "5", size=1,
    take_profit_price=50)] *)
Definition sell_with_take_profit : order_call :=
  MarketOrder (Market.with_take_profit_price (PNum 50)
                 (Market.with_size (PNum 1)
                    (Market.required "sell" "XBTUSDTM" (PStr "5")))).

(** [create_limit_order("buy", "100", "XBTUSDTM", "5", amount=2)] *)
Definition buy_amount_2 : order_call :=
  LimitOrder (Limit.with_amount (PNum 2) plain_limit_order).


(** [create_market_order("hold", "XBTUSDTM", "5", size=1)] *)
Definition bad_side_order : order_call :=
  MarketOrder (Market.with_size (PNum 1)
                 (Market.required "hold" "XBTUSDTM" (PStr "5"))).

(** ** The response envelope *)

Definition is_2xx (status : Z) : bool :=
  (200 <=? status)%Z && (status <=? 299)%Z.

(** The JSON object [d] carries a ['code'] other than ["200000"], or a
    ['success'] that Python takes for false. *)
Definition reports_failure (d : gmap string pyval) : bool :=
  match d !! "code" with
  | Some v => negb (py_eq_str v "200000")
  | None => false
  end
  || match d !! "success" with
     | Some v => negb (truthy v)
     | None => false
     end.

(** Responses used as examples. *)
Definition gateway_error : response :=
  {| status_code := 502; text := "<html>Bad Gateway</html>"; json := None |}.

Definition null_success : response :=
  http_200 (PDict (<["success" := PNone]> ∅)).

Definition bare_number : response := http_200 (PNum 5).

(** ** Describing a whole order call *)

(** The exception of the first call that raises, among validator calls made
    one after the other. *)
Fixpoint first_error (checks : list (result unit)) : option exn :=
  match checks with
  | [] => None
  | Ok _ :: rest => first_error rest
  | Raise x :: _ => Some x
  end.

(** The five headers [_request] assigns (lines 120-125). *)
Definition kc_headers : list string :=
  ["KC-API-TIMESTAMP"; "KC-API-SIGN"; "KC-API-KEY"; "KC-API-PASSPHRASE";
   "KC-API-KEY-VERSION"].

(** A relation between the state before and after holds for a computation. *)
Definition respects {A : Type} (R : state -> state -> Prop) (m : M A) : Prop :=
  forall st r st', m st = (r, st') -> R st st'.

(** [h'] is [h] up to the five [KC-API-*] entries. *)
Definition extends_headers (h h' : gmap string string) : Prop :=
  (forall key, key ∉ kc_headers -> h' !! key = h !! key) /\
  dom h ⊆ dom h' /\
  dom h' ⊆ dom h ∪ list_to_set kc_headers.

(** [rq] is a request as [_request] builds it at the clock reading [nonce],
    writing into the header dict [base]. *)
Definition built_from (e : env) (c : Client) (nonce : Z)
    (base : gmap string string) (rq : request) : Prop :=
  exists full_path,
    req_url rq = _create_url full_path /\
    req_data rq = json_dumps e (req_json rq) /\
    req_headers rq
    = signed_headers e c nonce (req_method rq) full_path (req_data rq) base.

(** From [st] to [st'] the log grew by requests built by [_request], one per
    clock reading, and the shared header dict changed in its [KC-API-*]
    entries only. *)
Definition signed_run (e : env) (c : Client) (st st' : state) : Prop :=
  exists rqs,
    sent st' = (sent st ++ rqs)%list /\
    clock_reads st' = clock_reads st + length rqs /\
    extends_headers (DEFAULT_HEADERS st) (DEFAULT_HEADERS st') /\
    forall j rq, rqs !! j = Some rq ->
      exists base,
        extends_headers (DEFAULT_HEADERS st) base /\
        built_from e c (time_ms e (clock_reads st + j)) base rq.

(** The request was handled without an exception. *)
Definition accepted (x : request * result pyval) : bool :=
  negb (is_Raise (snd x)).

(** The payloads lines 172-190 post after the order [o2], when [n] uuids
    were drawn before: the stop-loss order if [sl] is true, then the
    take-profit order if [tp] is true. *)
Definition conditional_orders (e : env) (n : nat) (o2 : gmap string pyval)
    (side inverse sl tp : pyval) : list pyval :=
  ((if truthy sl
    then [PDict (stop_loss_order o2 (uuid4_hex e n) side sl)] else []) ++
   (if truthy tp
    then [PDict (take_profit_order o2 (uuid4_hex e (n + flag sl)) side inverse tp)]
    else []))%list.

(** Lines 159-168, given what [contract_info] returned: the order with its
    computed size. *)
Definition sized_order (order : gmap string pyval) (amount : pyval)
    (info : pyval) : result (gmap string pyval) :=
  rbind (py_get info "multiplier") (fun multiplier =>
  rbind (amount_to_size amount multiplier) (fun size =>
  Ok (<["size" := size]> order))).

(** How a run of requests ends for the caller: at its first rejected
    request, with that request's exception, or with all of them accepted. *)
Definition stopped_at (xs : list (request * result pyval)) (x : exn) : Prop :=
  exists init rq, xs = (init ++ [(rq, Raise x)])%list /\ forallb accepted init = true.

(** The request is an order: a [POST] to the orders endpoint. *)
Definition to_orders (rq : request * result pyval) : Prop :=
  req_method (fst rq) = "POST" /\ req_url (fst rq) = orders_url.

(** Where the contract of a symbol is queried. *)
Definition contract_url (symbol : string) : string :=
  _create_url (_create_path ("contracts/" ++ symbol) None).

(** The contract query of a run, [query], and the order it leaves to post,
    [prepared] (lines 157-168 for the order [o1]). *)
Definition queried (e : env) (amount : pyval) (symbol : string)
    (o1 : gmap string pyval) (query : list (request * result pyval))
    (prepared : result (gmap string pyval)) : Prop :=
  (truthy amount = false /\ query = [] /\ prepared = Ok o1) \/
  (truthy amount = true /\
   exists ci rci,
     query = [(ci, rci)] /\
     req_method ci = "GET" /\ req_url ci = contract_url symbol /\
     req_json ci = PDict ∅ /\
     prepared = rbind rci (sized_order o1 amount)).

(** The orders of a run, [orders], posted for the order [o2] when [n] uuids
    were drawn before, and how the run ends in [r] and [st']. *)
Definition posted (e : env) (n : nat) (o2 : gmap string pyval)
    (side inverse sl tp : pyval) (orders : list (request * result pyval))
    (r : result pyval) (st' : state) : Prop :=
  Forall to_orders orders /\
  map (fun x => req_json (fst x)) orders
    `prefix_of` (PDict o2 :: conditional_orders e n o2 side inverse sl tp) /\
  ((exists x, stopped_at orders x /\ r = Raise x) \/
   (exists p v rest,
      orders = (p, Ok v) :: rest /\ forallb accepted rest = true /\
      length rest = flag sl + flag tp /\ r = Ok v /\
      uuid_calls st' = n + flag sl + flag tp)).

(** A peer whose contract query is answered without a multiplier. *)
Definition no_multiplier_env : env :=
  {| time_ms := time_ms example_env;
     uuid4_hex := uuid4_hex example_env;
     hmac_sha256_b64 := hmac_sha256_b64 example_env;
     json_dumps := json_dumps example_env;
     py_repr := py_repr example_env;
     http := fun n rq => http_200 (envelope (PDict ∅)) |}.



(** The [client_oid] argument of an order call. *)
Definition call_client_oid (k : order_call) : pyval :=
  match k with
  | LimitOrder a => Limit.client_oid a
  | MarketOrder a => Market.client_oid a
  end.

(** [order.get(k)] after [if v: order[k] = v] on an order without [k]. *)
Definition guarded (v : pyval) : pyval := if truthy v then v else PNone.

(** The [clientOid] of a request's payload. *)
Definition client_oid_of (x : request * result pyval) : option pyval :=
  payload (fst x) !! "clientOid".

(** [create_market_order("buy", "XBTUSDTM", "5", size=1, stop="up")] lacks
    a stop price: it is rejected. *)
Definition stop_without_price : Market.args :=
  {| Market.side := "buy"; Market.symbol := "XBTUSDTM";
     Market.leverage := PStr "5"; Market.amount := PNone;
     Market.size := PNum 1; Market.client_oid := PNone;
     Market.remark := PNone; Market.stop := PStr "up";
     Market.stop_price := PNone; Market.stop_price_type := PStr "TP";
     Market.reduce_only := PNone; Market.close_order := PNone;
     Market.force_hold := PNone; Market.stop_loss_price := PNone;
     Market.take_profit_price := PNone |}.

(** The [clientOid] of a JSON payload. *)
Definition json_client_oid (v : pyval) : option pyval :=
  match v with
  | PDict d => d !! "clientOid"
  | _ => None
  end.

(** The keys in which the stop-loss and the take-profit order of a call
    differ. *)
Definition trigger_keys : list string := ["clientOid"; "stop"; "stopPrice"].

(** [create_limit_order("sell", "100", "XBTUSDTM", "5", size=1,
    stop_loss_price=110, take_profit_price=90)] *)
Definition sell_with_both : order_call :=
  LimitOrder (Limit.with_take_profit_price (PNum 90)
                (Limit.with_stop_loss_price (PNum 110)
                   (Limit.with_size (PNum 1)
                      (Limit.required "sell" (PStr "100") "XBTUSDTM" (PStr "5"))))).


(** * Properties *)

(** ** Numbers *)

Section Numbers.
Local Open Scope Q_scope.





End Numbers.




(** ** The response handler *)

Lemma status_prefix (z : Z) :
  (100 <= z <= 999)%Z -> String.prefix "2" (str_int z) = is_2xx z.
Proof.
  intros Hz.
  assert (forallb (fun n => Bool.eqb (String.prefix "2" (str_int (Z.of_nat n)))
                               (is_2xx (Z.of_nat n)))
            (seq 100 900) = true) as Hall by (vm_compute; reflexivity).
  rewrite forallb_forall in Hall.
  specialize (Hall (Z.to_nat z)).
  rewrite Z2Nat.id in Hall by lia.
  apply Bool.eqb_prop, Hall, in_seq. lia.
Qed.

Lemma handle_response_not_2xx (r : response) :
  (100 <= status_code r <= 999)%Z ->
  is_2xx (status_code r) = false ->
  _handle_response r = Raise (KucoinAPIException r).
Proof.
  intros Hr H. unfold _handle_response. rewrite status_prefix, H by exact Hr.
  reflexivity.
Qed.

Lemma handle_response_unparsable (r : response) :
  (100 <= status_code r <= 999)%Z ->
  is_2xx (status_code r) = true ->
  json r = None ->
  _handle_response r = Raise (KucoinRequestException ("Invalid Response: " ++ text r)).
Proof.
  intros Hr H Hj. unfold _handle_response. rewrite status_prefix, H, Hj by exact Hr.
  reflexivity.
Qed.

Lemma handle_response_object (r : response) (d : gmap string pyval) :
  (100 <= status_code r <= 999)%Z ->
  is_2xx (status_code r) = true ->
  json r = Some (PDict d) ->
  _handle_response r =
    if reports_failure d then Raise (KucoinAPIException r)
    else Ok (match d !! "data" with Some v => v | None => PDict d end).
Proof.
  intros Hr H Hj. unfold _handle_response, reports_failure.
  rewrite status_prefix, H, Hj by exact Hr.
  unfold py_contains, py_getitem, dict_getitem.
  destruct (d !! "code") as [vc|]; destruct (d !! "success") as [vs|];
    destruct (d !! "data") as [vd|]; cbn;
    try destruct (py_eq_str vc "200000"); try destruct (truthy vs);
    reflexivity.
Qed.

(** C6, as stated, fails in three ways.  A gateway error page (status 502,
    body not JSON) raises the API error, not the request error: the status
    is looked at before the body is parsed.  A 200 response whose body is
    [{"success": null}] raises the API error although its ['success'] is not
    [false]: the handler tests [not res['success']].  A 200 response whose
    body is the JSON number [5] raises a [TypeError] at ['code' in res]
    instead of returning the body. *)
Lemma C6_handle_response_counterexample :
  (json gateway_error = None /\
   _handle_response gateway_error = Raise (KucoinAPIException gateway_error)) /\
  _handle_response null_success = Raise (KucoinAPIException null_success) /\
  _handle_response bare_number = Raise TypeError.
Proof. repeat split; reflexivity. Qed.

(** C6 (amended): for a response with a three-digit status whose body is
    either not JSON or a JSON object, [_handle_response]
      - raises the API error (carrying the response) exactly when the status
        is not 2xx, or the object has a ['code'] other than ["200000"] or a
        ['success'] that is falsy (false, null, 0, empty);
      - raises the request error exactly when the status is 2xx and the body
        is not JSON;
      - otherwise returns the ['data'] field when the object has one and the
        whole object when it has none.
    So a 2xx response with code "200000", no 'success' and a 'data' field
    returns the data, and a response with code "400001" raises the API
    error. *)
Theorem C6_handle_response (r : response) :
  (100 <= status_code r <= 999)%Z ->
  (json r = None \/ exists d, json r = Some (PDict d)) ->
  (_handle_response r = Raise (KucoinAPIException r) <->
     is_2xx (status_code r) = false \/
     exists d, json r = Some (PDict d) /\ reports_failure d = true) /\
  ((exists msg, _handle_response r = Raise (KucoinRequestException msg)) <->
     is_2xx (status_code r) = true /\ json r = None) /\
  (forall d, is_2xx (status_code r) = true ->
     json r = Some (PDict d) -> reports_failure d = false ->
     _handle_response r =
       Ok (match d !! "data" with Some v => v | None => PDict d end)) /\
  (forall d v, is_2xx (status_code r) = true ->
     json r = Some (PDict d) ->
     d !! "code" = Some (PStr "200000") -> d !! "success" = None ->
     d !! "data" = Some v ->
     _handle_response r = Ok v) /\
  (forall d, json r = Some (PDict d) ->
     d !! "code" = Some (PStr "400001") ->
     _handle_response r = Raise (KucoinAPIException r)).
Proof.
  intros Hr Hbody.
  destruct (is_2xx (status_code r)) eqn:H2.
  - destruct Hbody as [Hj | [d Hj]].
    + rewrite (handle_response_unparsable r Hr H2 Hj).
      split; [|split; [|split; [|split]]].
      * split; [discriminate|]. intros [? | (d & Hd & _)]; congruence.
      * split; eauto.
      * intros; congruence.
      * intros; congruence.
      * intros; congruence.
    + rewrite (handle_response_object r d Hr H2 Hj).
      split; [|split; [|split; [|split]]].
      * split.
        -- destruct (reports_failure d) eqn:Hf; [eauto | discriminate].
        -- intros [? | (d' & Hd' & Hf)]; [discriminate|].
           assert (d' = d) as -> by congruence. rewrite Hf. reflexivity.
      * split.
        -- destruct (reports_failure d); intros [? ?]; congruence.
        -- intros [_ ?]; congruence.
      * intros d' _ Hd' Hf. assert (d' = d) as -> by congruence.
        rewrite Hf. reflexivity.
      * intros d' v _ Hd' Hc Hs Hv. assert (d' = d) as -> by congruence.
        unfold reports_failure. rewrite Hc, Hs, Hv. reflexivity.
      * intros d' Hd' Hc. assert (d' = d) as -> by congruence.
        unfold reports_failure. rewrite Hc. reflexivity.
  - rewrite (handle_response_not_2xx r Hr H2).
    split; [|split; [|split; [|split]]].
    + split; eauto.
    + split; [intros [? ?]; discriminate | intros [? _]; discriminate].
    + intros; discriminate.
    + intros; discriminate.
    + reflexivity.
Qed.

Lemma C6_handle_response_witness :
  _handle_response
    (http_200 (envelope (PDict (<["multiplier" := PNum (1 # 10)]> ∅))))
  = Ok (PDict (<["multiplier" := PNum (1 # 10)]> ∅)).
Proof.
  refine (proj1 (proj2 (proj2 (proj2
    (C6_handle_response (http_200 (envelope _)) _ _)))) _ _ _ _ _ _ _);
    try reflexivity.
  - simpl. lia.
  - right. eexists. reflexivity.
Defined.

(** ** The validators as [create_limit_order] calls them *)

(** C1: the code breaks the claim.  [validate_post_only] is declared with
    the parameters [(time_in_force, post_only)] and, called that way, accepts
    [post_only=True] with [time_in_force="GTC"]; [create_limit_order] passes
    [(post_only, time_in_force)], so the limit order with [post_only=True]
    and [time_in_force="GTC"] is rejected before any request, in every
    world, while the one with [post_only=True] and no [time_in_force] is
    submitted. *)
Theorem C1_post_only_arguments_swapped (e : env) (c : Client) (st : state) :
  validate_post_only (PStr "GTC") (PBool true) = Ok tt /\
  create_limit_order e c post_only_GTC_order st =
    (Raise (OrderParameterValidationException
              "If property 'post_only' defined, 'time_in_force' need to be GTC"),
     st) /\
  (let run := create_limit_order example_env example_client
                post_only_no_tif_order initial_state in
   is_Raise (fst run) = false /\
   map req_method (sent (snd run)) = ["POST"]).
Proof.
  split; [reflexivity|]. split; [reflexivity|].
  split; vm_compute; reflexivity.
Qed.

(** ** The shared header dict *)

(** C8: the code breaks the claim.  [_request] takes [self.DEFAULT_HEADERS]
    itself as [headers] and assigns the five [KC-API-*] entries into it, so
    every call rewrites the dict that all calls (and all clients) share: after
    a call it holds that call's timestamp, signature, key and passphrase
    digest, and the first call on a fresh class already leaves it different
    from what it was. *)
Theorem C8_request_writes_default_headers (e : env) (c : Client)
    (method path : string) (api_version : option string) (data : option pyval)
    (st : state) :
  let st' := snd (_request e c method path api_version data st) in
  DEFAULT_HEADERS st' !! "KC-API-TIMESTAMP"
    = Some (str_int (time_ms e (clock_reads st))) /\
  DEFAULT_HEADERS st' !! "KC-API-KEY" = Some (API_KEY c) /\
  DEFAULT_HEADERS st' !! "KC-API-PASSPHRASE" = Some (_generate_passphrase e c) /\
  DEFAULT_HEADERS st' !! "KC-API-KEY-VERSION" = Some "2" /\
  dom (DEFAULT_HEADERS st') =
    dom (DEFAULT_HEADERS st) ∪
    {[ "KC-API-TIMESTAMP"; "KC-API-SIGN"; "KC-API-KEY"; "KC-API-PASSPHRASE";
       "KC-API-KEY-VERSION" ]} /\
  DEFAULT_HEADERS initial_state !! "KC-API-KEY" = None /\
  DEFAULT_HEADERS
    (snd (_request e c "GET" "contracts/XBTUSDTM" None None initial_state))
    <> DEFAULT_HEADERS initial_state.
Proof.
  cbn [snd _request DEFAULT_HEADERS build_request req_headers].
  unfold signed_headers.
  repeat split.
  - by simplify_map_eq.
  - by simplify_map_eq.
  - by simplify_map_eq.
  - by simplify_map_eq.
  - rewrite !dom_insert_L. apply set_eq. intros x. set_unfold. tauto.
  - intros H.
    assert (DEFAULT_HEADERS initial_state !! "KC-API-KEY-VERSION" = Some "2") as H2.
    { rewrite <- H. by simplify_map_eq. }
    vm_compute in H2. discriminate.
Qed.

(** ** Runs and their request logs *)

Lemma trace_nil (e : env) (st : state) : trace_of e st st [].
Proof. split; [symmetry; apply app_nil_r | reflexivity]. Qed.

Lemma trace_app (e : env) (st st1 st2 : state)
    (xs1 xs2 : list (request * result pyval)) :
  trace_of e st st1 xs1 -> trace_of e st1 st2 xs2 ->
  trace_of e st st2 (xs1 ++ xs2)%list.
Proof.
  intros [S1 X1] [S2 X2]. split.
  - rewrite S2, S1, map_app, app_assoc. reflexivity.
  - rewrite map_app, imap_app. f_equal; [exact X1|].
    rewrite X2 at 1. apply imap_ext. intros j rq _.
    unfold exchange. rewrite S1, length_app. simpl.
    do 3 f_equal. lia.
Qed.

Lemma trace_exchanges (e : env) (st st' : state)
    (xs : list (request * result pyval)) :
  trace_of e st st' xs -> exchanges e st st' = xs.
Proof.
  intros [S X]. unfold exchanges, issued. rewrite S, drop_app_length.
  symmetry. exact X.
Qed.

Lemma bind_inv {A B : Type} (m : M A) (k : A -> M B) (st st' : state)
    (r : result B) :
  bind m k st = (r, st') ->
  (exists a st1, m st = (Ok a, st1) /\ k a st1 = (r, st')) \/
  (exists x, m st = (Raise x, st') /\ r = Raise x).
Proof.
  unfold bind. destruct (m st) as [[a|x] st1]; intros H.
  - left. eauto.
  - right. injection H as <- <-. eauto.
Qed.

Lemma lift_inv {A : Type} (x : result A) (st st' : state) (r : result A) :
  lift x st = (r, st') -> r = x /\ st' = st.
Proof. intros H. injection H as <- <-. auto. Qed.

Lemma ret_inv {A : Type} (a : A) (st st' : state) (r : result A) :
  ret a st = (r, st') -> r = Ok a /\ st' = st.
Proof. intros H. injection H as <- <-. auto. Qed.

Lemma flat_uuid_inv (e : env) (st st' : state) (r : result string) :
  flat_uuid e st = (r, st') ->
  r = Ok (uuid4_hex e (uuid_calls st)) /\
  trace_of e st st' [] /\
  uuid_calls st' = S (uuid_calls st).
Proof.
  intros H. injection H as <- <-. repeat split.
  simpl. symmetry. apply app_nil_r.
Qed.

Lemma request_inv (e : env) (c : Client) (method path : string)
    (api_version : option string) (data : option pyval)
    (st st' : state) (r : result pyval) :
  _request e c method path api_version data st = (r, st') ->
  exists rq,
    req_method rq = method /\
    req_url rq = _create_url (_create_path path api_version) /\
    req_json rq = default (PDict ∅) data /\
    trace_of e st st' [(rq, r)] /\
    uuid_calls st' = uuid_calls st.
Proof.
  intros H. injection H as <- <-.
  exists (build_request e c st method path api_version data).
  repeat split.
  simpl. unfold exchange. rewrite Nat.add_0_r. reflexivity.
Qed.

(** ** The validators raise validation errors only *)


Ltac splits := repeat match goal with |- _ /\ _ => split end.

Ltac validator_cases :=
  repeat match goal with
         | |- context [if ?b then _ else _] => destruct b
         end;
  intros; simplify_eq; reflexivity.

Lemma validate_side_raises v x :
  validate_side v = Raise x -> is_validation_exn x = true.
Proof. unfold validate_side. validator_cases. Qed.

Lemma validate_stop_raises a b c x :
  validate_stop a b c = Raise x -> is_validation_exn x = true.
Proof. unfold validate_stop. validator_cases. Qed.

Lemma validate_stop_loss_take_profit_raises a b c x :
  validate_stop_loss_take_profit a b c = Raise x -> is_validation_exn x = true.
Proof. unfold validate_stop_loss_take_profit. validator_cases. Qed.

Lemma validate_amount_size_raises a b x :
  validate_amount_size a b = Raise x -> is_validation_exn x = true.
Proof. unfold validate_amount_size. validator_cases. Qed.

Lemma validate_time_in_force_raises a x :
  validate_time_in_force a = Raise x -> is_validation_exn x = true.
Proof. unfold validate_time_in_force. validator_cases. Qed.

Lemma validate_post_only_raises a b x :
  validate_post_only a b = Raise x -> is_validation_exn x = true.
Proof. unfold validate_post_only. validator_cases. Qed.

Lemma validate_hidden_and_iceberg_raises a b x :
  validate_hidden_and_iceberg a b = Raise x -> is_validation_exn x = true.
Proof. unfold validate_hidden_and_iceberg. validator_cases. Qed.

Lemma validate_iceberg_raises a b x :
  validate_iceberg a b = Raise x -> is_validation_exn x = true.
Proof. unfold validate_iceberg. validator_cases. Qed.

Create HintDb validators.
#[local] Hint Resolve validate_side_raises validate_stop_raises
  validate_stop_loss_take_profit_raises validate_amount_size_raises
  validate_time_in_force_raises validate_post_only_raises
  validate_hidden_and_iceberg_raises validate_iceberg_raises : validators.

(** The goal's left case, when the validator call at hand raised [x]. *)
Ltac rejected_with x :=
  left; split; [reflexivity|];
  assert (is_validation_exn x = true) by eauto with validators;
  destruct x; try discriminate; eauto.

(** Either a validator raises and nothing else happens, or all pass and the
    call continues with [submit]. *)
Lemma create_order_checks e c order amount sl tp st vside :
  order !! "side" = Some vside ->
  let checks := order_checks order amount sl tp in
  (existsb is_Raise checks = true /\
   exists msg, _create_order e c order amount sl tp st
               = (Raise (OrderParameterValidationException msg), st)) \/
  (existsb is_Raise checks = false /\
   validate_side vside = Ok tt /\
   _create_order e c order amount sl tp st = submit e c order amount sl tp st).
Proof.
  intros Hside. unfold order_checks, _create_order, dict_getitem, dict_get.
  rewrite Hside. cbn [from_option id existsb bind lift].
  destruct (validate_side vside) as [[]|x1] eqn:V1; cbn [is_Raise orb].
  2:{ rejected_with x1. }
  destruct (validate_stop _ _ _) as [[]|x2] eqn:V2; cbn [is_Raise orb].
  2:{ rejected_with x2. }
  destruct (validate_stop_loss_take_profit _ _ _) as [[]|x3] eqn:V3; cbn [is_Raise orb].
  2:{ rejected_with x3. }
  destruct (validate_amount_size _ _) as [[]|x4] eqn:V4; cbn [is_Raise orb].
  2:{ rejected_with x4. }
  right. repeat split.
Qed.

Ltac finish :=
  splits; first [assumption | reflexivity | lia | apply trace_nil | idtac].

Lemma trace_after_uuid e st st1 st2 xs :
  trace_of e st st1 [] -> trace_of e st1 st2 xs -> trace_of e st st2 xs.
Proof. intros T0 T. exact (trace_app e st st1 st2 [] xs T0 T). Qed.

Lemma ensure_client_oid_inv e order st r st1 :
  ensure_client_oid e order st = (r, st1) ->
  r = Ok (order_with_oid e st order) /\
  trace_of e st st1 [] /\
  uuid_calls st1 = uuid_calls st + oid_draws order.
Proof.
  unfold ensure_client_oid, order_with_oid, oid_draws.
  destruct (is_None (dict_get order "clientOid")); intros H.
  - apply bind_inv in H as [(oid & st2 & H1 & H) | (x & H1 & ->)];
      apply flat_uuid_inv in H1 as (E & T & U); [|discriminate].
    apply ret_inv in H as [-> ->]. injection E as ->. finish.
  - apply ret_inv in H as [-> ->]. finish.
Qed.

Lemma size_from_amount_inv e c order amount st r st1 vsym :
  order !! "symbol" = Some vsym ->
  size_from_amount e c order amount st = (r, st1) ->
  uuid_calls st1 = uuid_calls st /\
  ((truthy amount = false /\ r = Ok order /\ trace_of e st st1 []) \/
   (truthy amount = true /\
    exists ci rci,
      trace_of e st st1 [(ci, rci)] /\
      req_method ci = "GET" /\
      req_url ci = _create_url (_create_path ("contracts/" ++ py_str e vsym) None) /\
      req_json ci = PDict ∅ /\
      r = rbind rci (fun info =>
          rbind (py_get info "multiplier") (fun multiplier =>
          rbind (amount_to_size amount multiplier) (fun size =>
          Ok (<["size" := size]> order)))))).
Proof.
  intros Hsym. unfold size_from_amount, dict_getitem. rewrite Hsym.
  destruct (truthy amount); intros H.
  2:{ apply ret_inv in H as [-> ->]. split; [reflexivity|]. left. finish. }
  apply bind_inv in H as [(a & st2 & H1 & H) | (x & H1 & ->)];
    apply lift_inv in H1 as [E ->]; [|discriminate].
  injection E as ->.
  unfold contract_info in H.
  apply bind_inv in H as [(info & st2 & H1 & H) | (x & H1 & ->)];
    apply request_inv in H1 as (ci & Hm & Hu & Hj & T & U).
  2:{ split; [exact U|]. right. split; [reflexivity|]. exists ci, (Raise x).
      finish. }
  assert (uuid_calls st1 = uuid_calls st /\ trace_of e st st1 [(ci, Ok info)] /\
          r = rbind (py_get info "multiplier") (fun multiplier =>
              rbind (amount_to_size amount multiplier) (fun size =>
              Ok (<["size" := size]> order)))) as (U' & T' & ->).
  { apply bind_inv in H as [(mult & st3 & H1 & H) | (x & H1 & ->)];
      apply lift_inv in H1 as [E ->]; rewrite <- E; [|finish].
    apply bind_inv in H as [(sz & st3 & H1 & H) | (x & H1 & ->)];
      apply lift_inv in H1 as [E' ->]; cbn [rbind]; rewrite <- E'; [|finish].
    apply ret_inv in H as [-> ->]. finish. }
  split; [exact U'|]. right. split; [reflexivity|]. exists ci, (Ok info).
  finish.
Qed.

Lemma submit_stop_loss_inv e c order sl st r st1 vside :
  order !! "side" = Some vside ->
  submit_stop_loss e c order sl st = (r, st1) ->
  uuid_calls st1 = uuid_calls st + flag sl /\
  ((truthy sl = false /\ r = Ok tt /\ trace_of e st st1 []) \/
   (truthy sl = true /\
    exists s rs,
      trace_of e st st1 [(s, rs)] /\
      req_method s = "POST" /\
      req_url s = orders_url /\
      req_json s = PDict (stop_loss_order order (uuid4_hex e (uuid_calls st)) vside sl) /\
      r = rbind rs (fun _ => Ok tt))).
Proof.
  intros Hside. unfold submit_stop_loss, dict_getitem, flag. rewrite Hside.
  destruct (truthy sl); intros H.
  2:{ apply ret_inv in H as [-> ->]. split; [lia|]. left. finish. }
  apply bind_inv in H as [(oid & st2 & H1 & H) | (x & H1 & ->)];
    apply flat_uuid_inv in H1 as (E & T0 & U0); [|discriminate].
  injection E as ->.
  apply bind_inv in H as [(a & st3 & H1 & H) | (x & H1 & ->)];
    apply lift_inv in H1 as [E ->]; [|discriminate].
  injection E as ->.
  apply bind_inv in H as [(v & st3 & H1 & H) | (x & H1 & ->)];
    apply request_inv in H1 as (s & Hm & Hu & Hj & T & U).
  - apply ret_inv in H as [-> ->]. split; [lia|]. right. split; [reflexivity|].
    exists s, (Ok v). finish. exact (trace_after_uuid _ _ _ _ _ T0 T).
  - split; [lia|]. right. split; [reflexivity|].
    exists s, (Raise x). finish. exact (trace_after_uuid _ _ _ _ _ T0 T).
Qed.

Lemma submit_take_profit_inv e c order tp st r st1 vside inverse :
  order !! "side" = Some vside ->
  SIDE_MAPPING_getitem vside = Ok inverse ->
  submit_take_profit e c order tp st = (r, st1) ->
  uuid_calls st1 = uuid_calls st + flag tp /\
  ((truthy tp = false /\ r = Ok tt /\ trace_of e st st1 []) \/
   (truthy tp = true /\
    exists t rt,
      trace_of e st st1 [(t, rt)] /\
      req_method t = "POST" /\
      req_url t = orders_url /\
      req_json t = PDict (take_profit_order order (uuid4_hex e (uuid_calls st))
                            vside inverse tp) /\
      r = rbind rt (fun _ => Ok tt))).
Proof.
  intros Hside Hinv. unfold submit_take_profit, dict_getitem, flag. rewrite Hside.
  destruct (truthy tp); intros H.
  2:{ apply ret_inv in H as [-> ->]. split; [lia|]. left. finish. }
  apply bind_inv in H as [(oid & st2 & H1 & H) | (x & H1 & ->)];
    apply flat_uuid_inv in H1 as (E & T0 & U0); [|discriminate].
  injection E as ->.
  apply bind_inv in H as [(a & st3 & H1 & H) | (x & H1 & ->)];
    apply lift_inv in H1 as [E ->]; [|discriminate].
  injection E as ->.
  apply bind_inv in H as [(a & st3 & H1 & H) | (x & H1 & ->)];
    apply lift_inv in H1 as [E ->]; [|congruence].
  assert (a = inverse) as -> by congruence.
  apply bind_inv in H as [(v & st3 & H1 & H) | (x & H1 & ->)];
    apply request_inv in H1 as (s & Hm & Hu & Hj & T & U).
  - apply ret_inv in H as [-> ->]. split; [lia|]. right. split; [reflexivity|].
    exists s, (Ok v). finish. exact (trace_after_uuid _ _ _ _ _ T0 T).
  - split; [lia|]. right. split; [reflexivity|].
    exists s, (Raise x). finish. exact (trace_after_uuid _ _ _ _ _ T0 T).
Qed.

(** ** The requests of [submit] *)

Lemma submissions_of_trace e st st' xs :
  trace_of e st st' xs -> submissions e st st' = List.filter is_post xs.
Proof. intros T. unfold submissions. rewrite (trace_exchanges _ _ _ _ T). reflexivity. Qed.

Lemma is_post_POST rq (r : result pyval) : req_method rq = "POST" -> is_post (rq, r) = true.
Proof. unfold is_post. simpl. intros ->. reflexivity. Qed.

Lemma is_post_GET rq (r : result pyval) : req_method rq = "GET" -> is_post (rq, r) = false.
Proof. unfold is_post. simpl. intros ->. reflexivity. Qed.

Lemma filter_posts (l : list (request * result pyval)) :
  (forall x, x ∈ l -> req_method (fst x) = "POST") ->
  List.filter is_post l = l.
Proof.
  intros H. apply forallb_filter_id, forallb_forall. intros [rq ry] Hy.
  apply list_elem_of_In in Hy. apply is_post_POST, (H _ Hy).
Qed.

Lemma filter_get_cons ci (rci : result pyval) l :
  req_method ci = "GET" ->
  List.filter is_post ((ci, rci) :: l) = List.filter is_post l.
Proof. intros H. simpl. rewrite (is_post_GET _ _ H). reflexivity. Qed.

Lemma stop_loss_order_keys o oid side sl :
  dom (stop_loss_order o oid side sl) = dom o ∪ list_to_set conditional_keys.
Proof.
  unfold stop_loss_order, conditional_keys. rewrite !dom_insert_L.
  apply set_eq. intros x. set_unfold. tauto.
Qed.

Lemma take_profit_order_keys o oid side inverse tp :
  dom (take_profit_order o oid side inverse tp)
  = dom o ∪ list_to_set conditional_keys.
Proof.
  unfold take_profit_order, conditional_keys. rewrite !dom_insert_L.
  apply set_eq. intros x. set_unfold. tauto.
Qed.

Lemma payload_keys_json rq d : req_json rq = PDict d -> payload_keys rq = dom d.
Proof. unfold payload_keys. intros ->. reflexivity. Qed.

Lemma payload_json rq d : req_json rq = PDict d -> payload rq = d.
Proof. unfold payload. intros ->. reflexivity. Qed.

Lemma order_with_oid_lookup e st order k :
  k <> "clientOid" -> order_with_oid e st order !! k = order !! k.
Proof.
  intros Hk. unfold order_with_oid.
  destruct (is_None _); [|reflexivity]. rewrite lookup_insert_ne; congruence.
Qed.

Lemma validate_side_ok vside :
  validate_side vside = Ok tt ->
  (vside = PStr "buy" /\ SIDE_MAPPING_getitem vside = Ok (PStr "sell")) \/
  (vside = PStr "sell" /\ SIDE_MAPPING_getitem vside = Ok (PStr "buy")).
Proof.
  unfold validate_side, py_in_strs, VALID_SIDE. cbn [existsb].
  destruct vside as [| | |s| |]; cbn [py_eq_str]; try discriminate.
  destruct (String.eqb s "buy") eqn:E1.
  - apply String.eqb_eq in E1 as ->. intros _. left. split; reflexivity.
  - destruct (String.eqb s "sell") eqn:E2; [|discriminate].
    apply String.eqb_eq in E2 as ->. intros _. right. split; reflexivity.
Qed.



Ltac solve_elem :=
  let y := fresh "y" in
  let Hy := fresh "Hy" in
  intros y Hy;
  repeat (apply elem_of_cons in Hy as [-> | Hy];
          [ split; [assumption|];
            first [ erewrite payload_keys_json by eassumption;
                    apply stop_loss_order_keys
                  | erewrite payload_keys_json by eassumption;
                    apply take_profit_order_keys ] |]);
  inversion Hy.

Ltac solve_order Hj :=
  intros;
  first [ congruence
        | eexists _, _; splits;
          [ reflexivity | assumption | assumption
          | rewrite Hj; f_equal; f_equal; f_equal; first [congruence | lia] ] ].

Ltac flags :=
  unfold flag in *;
  repeat match goal with
         | H : truthy ?v = _ |- context [if truthy ?v then _ else _] =>
             rewrite H
         | H : truthy ?v = _, H' : context [if truthy ?v then _ else _] |- _ =>
             rewrite H in H'
         end.

Ltac orders_leaf Hs Ht :=
  flags; splits;
  try assumption;
  try solve [ solve_elem | solve_order Hs | solve_order Ht
            | simpl; lia | intros; congruence ].

(** The orders [submit] posts for the prepared order [o2], from state
    [st2] on. *)
Lemma orders_run e c o2 sl tp st2 r st' vside inverse :
  o2 !! "side" = Some vside ->
  SIDE_MAPPING_getitem vside = Ok inverse ->
  (let* new_order_response :=
     _request e c "POST" "orders" None (Some (PDict o2)) in
   let* _ := submit_stop_loss e c o2 sl in
   let* _ := submit_take_profit e c o2 tp in
   ret new_order_response) st2 = (r, st') ->
  exists p rp rest,
    trace_of e st2 st' ((p, rp) :: rest) /\
    (req_method p = "POST" /\ req_url p = orders_url /\ req_json p = PDict o2) /\
    (forall x, x ∈ rest ->
       req_method (fst x) = "POST" /\
       payload_keys (fst x) = dom o2 ∪ list_to_set conditional_keys) /\
    (forall v, rp = Ok v -> truthy sl = true ->
       exists s rs, rest !! 0 = Some (s, rs) /\
         req_method s = "POST" /\ req_url s = orders_url /\
         req_json s = PDict (stop_loss_order o2 (uuid4_hex e (uuid_calls st2))
                               vside sl)) /\
    (forall v, rp = Ok v -> truthy tp = true ->
       (truthy sl = true -> exists s w, rest !! 0 = Some (s, Ok w)) ->
       exists t rt, rest !! flag sl = Some (t, rt) /\
         req_method t = "POST" /\ req_url t = orders_url /\
         req_json t =
           PDict (take_profit_order o2 (uuid4_hex e (uuid_calls st2 + flag sl))
                    vside inverse tp)) /\
    length rest <= flag sl + flag tp /\
    (forall v, r = Ok v -> rp = Ok v) /\
    (forall x, rp = Raise x -> rest = []).
Proof.
  intros Hside Hinv H.
  apply bind_inv in H as [(v & st3 & H1 & H) | (x & H1 & ->)];
    apply request_inv in H1 as (p & Hpm & Hpu & Hpj & Tp & Up);
    simpl in Hpj.
  2:{ exists p, (Raise x), []. splits; try assumption; try discriminate;
        try reflexivity; [solve_elem | simpl; lia]. }
  apply bind_inv in H as [([] & st4 & H1 & H) | (x & H1 & ->)];
    apply (submit_stop_loss_inv _ _ _ _ _ _ _ _ Hside) in H1
      as (Us & [(Hsl & Es & Ts) | (Hsl & s & rs & Ts & Hsm & Hsu & Hsj & Es)]);
    try discriminate.
  - (* no stop-loss order *)
    apply bind_inv in H as [([] & st5 & H1 & H) | (x & H1 & ->)];
      apply (submit_take_profit_inv _ _ _ _ _ _ _ _ _ Hside Hinv) in H1
        as (Ut & [(Htp & Et & Tt) | (Htp & t & rt & Tt & Htm & Htu & Htj & Et)]);
      try discriminate;
      try (apply ret_inv in H as [-> ->]);
      pose proof (trace_app _ _ _ _ _ _ (trace_app _ _ _ _ _ _ Tp Ts) Tt) as T.
    + exists p, (Ok v), []. orders_leaf Hpj Hpj.
    + exists p, (Ok v), [(t, rt)]. orders_leaf Hpj Htj.
    + exists p, (Ok v), [(t, rt)]. orders_leaf Hpj Htj.
  - (* the stop-loss order was accepted *)
    destruct rs as [w|]; [|discriminate].
    apply bind_inv in H as [([] & st5 & H1 & H) | (x & H1 & ->)];
      apply (submit_take_profit_inv _ _ _ _ _ _ _ _ _ Hside Hinv) in H1
        as (Ut & [(Htp & Et & Tt) | (Htp & t & rt & Tt & Htm & Htu & Htj & Et)]);
      try discriminate;
      try (apply ret_inv in H as [-> ->]);
      pose proof (trace_app _ _ _ _ _ _ (trace_app _ _ _ _ _ _ Tp Ts) Tt) as T.
    + exists p, (Ok v), [(s, Ok w)]. orders_leaf Hsj Hsj.
    + exists p, (Ok v), [(s, Ok w); (t, rt)]. orders_leaf Hsj Htj.
    + exists p, (Ok v), [(s, Ok w); (t, rt)]. orders_leaf Hsj Htj.
  - (* the stop-loss order was rejected *)
    destruct rs as [w|x']; [discriminate|].
    pose proof (trace_app _ _ _ _ _ _ Tp Ts) as T.
    exists p, (Ok v), [(s, Raise x')]. orders_leaf Hsj Hsj.
    intros _ _ _ Hacc. destruct (Hacc eq_refl) as (s' & w' & Hs'). discriminate.
Qed.

(** What a run of [submit] does, read off the request log: an optional
    contract query [pre], then the order submissions [subs] for the prepared
    order [o2]. *)
Lemma submit_run e c order amount sl tp st r st' vside vsym inverse :
  order !! "side" = Some vside ->
  order !! "symbol" = Some vsym ->
  SIDE_MAPPING_getitem vside = Ok inverse ->
  submit e c order amount sl tp st = (r, st') ->
  let o1 := order_with_oid e st order in
  let n := uuid_calls st + oid_draws order in
  exists pre subs o2,
    exchanges e st st' = (pre ++ subs)%list /\
    submissions e st st' = subs /\
    ((truthy amount = false /\ pre = [] /\ o2 = o1 /\ subs <> []) \/
     (truthy amount = true /\
      exists ci rci,
        pre = [(ci, rci)] /\
        req_method ci = "GET" /\
        req_url ci = _create_url (_create_path ("contracts/" ++ py_str e vsym) None) /\
        req_json ci = PDict ∅ /\
        ((exists info multiplier size,
            rci = Ok info /\ py_get info "multiplier" = Ok multiplier /\
            amount_to_size amount multiplier = Ok size /\
            o2 = <["size" := size]> o1 /\ subs <> []) \/
         (subs = [] /\ is_Raise r = true /\
          forall info multiplier size,
            rci = Ok info -> py_get info "multiplier" = Ok multiplier ->
            amount_to_size amount multiplier = Ok size -> False)))) /\
    (forall p rp rest, subs = (p, rp) :: rest ->
       (req_method p = "POST" /\ req_url p = orders_url /\ req_json p = PDict o2) /\
       (forall x, x ∈ rest ->
       req_method (fst x) = "POST" /\
       payload_keys (fst x) = dom o2 ∪ list_to_set conditional_keys) /\
       (forall v, rp = Ok v -> truthy sl = true ->
          exists s rs, rest !! 0 = Some (s, rs) /\
            req_method s = "POST" /\ req_url s = orders_url /\
            req_json s = PDict (stop_loss_order o2 (uuid4_hex e n) vside sl)) /\
       (forall v, rp = Ok v -> truthy tp = true ->
          (truthy sl = true -> exists s w, rest !! 0 = Some (s, Ok w)) ->
          exists t rt, rest !! flag sl = Some (t, rt) /\
            req_method t = "POST" /\ req_url t = orders_url /\
            req_json t =
              PDict (take_profit_order o2 (uuid4_hex e (n + flag sl))
                       vside inverse tp)) /\
       length rest <= flag sl + flag tp /\
       (forall v, r = Ok v -> rp = Ok v) /\
       (forall x, rp = Raise x -> rest = [])).
Proof.
  intros Hside Hsym Hinv H o1 n.
  unfold submit in H.
  apply bind_inv in H as [(o1' & st1 & H1 & H) | (x & H1 & ->)];
    apply ensure_client_oid_inv in H1 as (E & T0 & U0); [|discriminate].
  injection E as ->. fold o1 in H.
  assert (o1 !! "symbol" = Some vsym) as Hsym1
      by (unfold o1; rewrite order_with_oid_lookup; [assumption|discriminate]).
  assert (o1 !! "side" = Some vside) as Hside1
      by (unfold o1; rewrite order_with_oid_lookup; [assumption|discriminate]).
  apply bind_inv in H as [(o2 & st2 & H1 & H) | (x & H1 & ->)];
    apply (size_from_amount_inv _ _ _ _ _ _ _ _ Hsym1) in H1
      as (U1 & [(Ha & E & T1) | (Ha & ci & rci & T1 & Hcm & Hcu & Hcj & E)]);
    try discriminate.
  - (* no amount *)
    injection E as ->.
    apply (orders_run _ _ _ _ _ _ _ _ _ _ Hside1 Hinv) in H
      as (p & rp & rest & T & (Hpm & Hpu & Hpj) & Hrest & Hs & Ht & Hlen & Hr & Hrej).
    pose proof (trace_app _ _ _ _ _ _ (trace_app _ _ _ _ _ _ T0 T1) T) as TT.
    simpl in TT.
    exists [], ((p, rp) :: rest), o1.
    assert (submissions e st st' = (p, rp) :: rest) as HS.
    { rewrite (submissions_of_trace _ _ _ _ TT). apply filter_posts.
      intros y Hy. apply elem_of_cons in Hy as [-> | Hy]; [exact Hpm | apply (Hrest _ Hy)]. }
    splits.
    + apply (trace_exchanges _ _ _ _ TT).
    + exact HS.
    + left. splits; try reflexivity; try assumption. discriminate.
    + intros p' rp' rest' [= <- <- <-].
      replace (uuid_calls st2) with n in Hs, Ht by (unfold n; lia).
      splits; assumption.
  - (* amount, conversion succeeded *)
    destruct rci as [info|]; [|discriminate]. cbn [rbind] in E.
    destruct (py_get info "multiplier") as [mult|] eqn:Em; [|discriminate].
    cbn [rbind] in E.
    destruct (amount_to_size amount mult) as [sz|] eqn:Ez; [|discriminate].
    cbn [rbind] in E. injection E as ->.
    assert (<["size" := sz]> o1 !! "side" = Some vside) as Hside2
        by (rewrite lookup_insert_ne; [assumption|discriminate]).
    apply (orders_run _ _ _ _ _ _ _ _ _ _ Hside2 Hinv) in H
      as (p & rp & rest & T & (Hpm & Hpu & Hpj) & Hrest & Hs & Ht & Hlen & Hr & Hrej).
    pose proof (trace_app _ _ _ _ _ _ (trace_app _ _ _ _ _ _ T0 T1) T) as TT.
    simpl in TT.
    exists [(ci, Ok info)], ((p, rp) :: rest), (<["size" := sz]> o1).
    assert (submissions e st st' = (p, rp) :: rest) as HS.
    { rewrite (submissions_of_trace _ _ _ _ TT), (filter_get_cons _ _ _ Hcm).
      apply filter_posts.
      intros y Hy. apply elem_of_cons in Hy as [-> | Hy]; [exact Hpm | apply (Hrest _ Hy)]. }
    splits.
    + apply (trace_exchanges _ _ _ _ TT).
    + exact HS.
    + right. split; [assumption|]. exists ci, (Ok info).
      splits; try assumption; try reflexivity.
      left. exists info, mult, sz. splits; try assumption; try reflexivity.
      discriminate.
    + intros p' rp' rest' [= <- <- <-].
      replace (uuid_calls st2) with n in Hs, Ht by (unfold n; lia).
      splits; assumption.
  - (* amount, conversion failed *)
    pose proof (trace_app _ _ _ _ _ _ T0 T1) as TT. simpl in TT.
    exists [(ci, rci)], [], o1.
    splits.
    + apply (trace_exchanges _ _ _ _ TT).
    + rewrite (submissions_of_trace _ _ _ _ TT), (filter_get_cons _ _ _ Hcm).
      reflexivity.
    + right. split; [assumption|]. exists ci, rci.
      splits; try assumption; try reflexivity.
      right. splits; try reflexivity.
      intros info mult sz -> Hm Hz. cbn [rbind] in E. rewrite Hm in E.
      cbn [rbind] in E. rewrite Hz in E. discriminate.
    + intros p' rp' rest' [=].
Qed.

(** ** The order dicts of the two public methods *)

Lemma lookup_set_if_ne k k' v (o : gmap string pyval) :
  k <> k' -> set_if k v o !! k' = o !! k'.
Proof.
  intros Hk. unfold set_if. destruct (truthy v); [|reflexivity].
  apply lookup_insert_ne, Hk.
Qed.

Ltac order_lookup :=
  repeat first [ rewrite lookup_insert_ne by discriminate
               | rewrite lookup_set_if_ne by discriminate ];
  try rewrite lookup_insert_eq; reflexivity.

Lemma limit_order_side a :
  limit_order a !! "side" = Some (PStr (lower (Limit.side a))).
Proof. unfold limit_order. destruct (truthy (Limit.iceberg a)); order_lookup. Qed.

Lemma limit_order_symbol a :
  limit_order a !! "symbol" = Some (PStr (upper (Limit.symbol a))).
Proof. unfold limit_order. destruct (truthy (Limit.iceberg a)); order_lookup. Qed.

Lemma limit_order_size a : limit_order a !! "size" = Some (Limit.size a).
Proof. unfold limit_order. destruct (truthy (Limit.iceberg a)); order_lookup. Qed.

Lemma market_order_side a :
  market_order a !! "side" = Some (PStr (lower (Market.side a))).
Proof. unfold market_order. order_lookup. Qed.

Lemma market_order_symbol a :
  market_order a !! "symbol" = Some (PStr (upper (Market.symbol a))).
Proof. unfold market_order. order_lookup. Qed.

Lemma market_order_size a : market_order a !! "size" = Some (Market.size a).
Proof. unfold market_order. order_lookup. Qed.

Lemma call_order_side k :
  call_order k !! "side" = Some (PStr (lower (call_side k))).
Proof. destruct k; [apply limit_order_side | apply market_order_side]. Qed.

Lemma call_order_symbol k :
  call_order k !! "symbol" = Some (PStr (upper (call_symbol k))).
Proof. destruct k; [apply limit_order_symbol | apply market_order_symbol]. Qed.

Lemma call_order_size k : call_order k !! "size" = Some (call_size k).
Proof. destruct k; [apply limit_order_size | apply market_order_size]. Qed.

(** ** Order calls: rejected by a validator, or handed to [submit] *)

Lemma create_order_cases e c k st :
  (existsb is_Raise (call_checks k) = true /\
   exists msg, create_order e c k st
               = (Raise (OrderParameterValidationException msg), st)) \/
  (existsb is_Raise (call_checks k) = false /\
   validate_side (PStr (lower (call_side k))) = Ok tt /\
   create_order e c k st
   = submit e c (call_order k) (call_amount k) (call_stop_loss_price k)
       (call_take_profit_price k) st).
Proof.
  destruct k as [a|a]; cbn [create_order call_checks call_order call_amount
    call_stop_loss_price call_take_profit_price call_side].
  - unfold create_limit_order, limit_checks.
    cbn [app existsb bind lift].
    destruct (validate_time_in_force _) as [[]|x1] eqn:V1; cbn [is_Raise orb].
    2:{ rejected_with x1. }
    destruct (validate_post_only _ _) as [[]|x2] eqn:V2; cbn [is_Raise orb].
    2:{ rejected_with x2. }
    destruct (validate_hidden_and_iceberg _ _) as [[]|x3] eqn:V3; cbn [is_Raise orb].
    2:{ rejected_with x3. }
    destruct (validate_iceberg _ _) as [[]|x4] eqn:V4; cbn [is_Raise orb].
    2:{ rejected_with x4. }
    apply (create_order_checks e c (limit_order a) _ _ _ st _ (limit_order_side a)).
  - unfold create_market_order.
    apply (create_order_checks e c (market_order a) _ _ _ st _ (market_order_side a)).
Qed.

Lemma exchanges_same e st : exchanges e st st = [].
Proof. apply trace_exchanges, trace_nil. Qed.

Lemma submissions_same e st : submissions e st st = [].
Proof. unfold submissions. rewrite exchanges_same. reflexivity. Qed.

(** C7: when any validator call of an order call raises, the call raises a
    parameter-validation error and leaves the state as it was: no request of
    any kind has gone out, neither the contract query nor an order. *)
Theorem C7_validation_before_network (e : env) (c : Client) (k : order_call)
    (st : state) :
  existsb is_Raise (call_checks k) = true ->
  exists msg,
    create_order e c k st = (Raise (OrderParameterValidationException msg), st) /\
    exchanges e st (snd (create_order e c k st)) = [].
Proof.
  intros Hc.
  destruct (create_order_cases e c k st) as [(_ & msg & E) | (Hc' & _)];
    [|congruence].
  exists msg. rewrite E. split; [reflexivity | apply exchanges_same].
Qed.

Lemma C7_validation_before_network_witness :
  exists msg,
    create_order example_env example_client bad_side_order initial_state
    = (Raise (OrderParameterValidationException msg), initial_state).
Proof.
  destruct (C7_validation_before_network example_env example_client
              bad_side_order initial_state) as (msg & E & _).
  - reflexivity.
  - exists msg. exact E.
Defined.

(** The prepared order differs from the call's dict in [clientOid] and
    [size] at most. *)
Lemma order_with_oid_keys e st (order : gmap string pyval) :
  dom (order_with_oid e st order) = dom order ∪ {[ "clientOid" ]}.
Proof.
  unfold order_with_oid, dict_get.
  destruct (order !! "clientOid") as [v|] eqn:E.
  - assert ("clientOid" ∈ dom order) by (apply elem_of_dom; eauto).
    destruct (is_None _); [rewrite dom_insert_L|];
      apply set_eq; intros x; set_unfold; intuition congruence.
  - cbn. rewrite dom_insert_L. apply set_eq. intros x. set_unfold. tauto.
Qed.

Ltac conditional_lookup :=
  unfold stop_loss_order, take_profit_order;
  repeat rewrite lookup_insert_ne by discriminate;
  try rewrite lookup_insert_eq; try reflexivity.

Lemma conditional_other_keys (key : string) :
  key ∉ conditional_keys ->
  key <> "reduceOnly" /\ key <> "stopPriceType" /\ key <> "stopPrice" /\
  key <> "stop" /\ key <> "side" /\ key <> "clientOid".
Proof. unfold conditional_keys. intros H. set_unfold. naive_solver. Qed.

Lemma stop_loss_order_other o oid side sl key :
  key ∉ conditional_keys -> stop_loss_order o oid side sl !! key = o !! key.
Proof.
  intros H. apply conditional_other_keys in H as (? & ? & ? & ? & ? & ?).
  unfold stop_loss_order. rewrite !lookup_insert_ne by congruence. reflexivity.
Qed.

Lemma take_profit_order_other o oid side inverse tp key :
  key ∉ conditional_keys -> take_profit_order o oid side inverse tp !! key = o !! key.
Proof.
  intros H. apply conditional_other_keys in H as (? & ? & ? & ? & ? & ?).
  unfold take_profit_order. rewrite !lookup_insert_ne by congruence. reflexivity.
Qed.

(** An order call whose first order went out: the checks passed, and the
    log holds the prepared order [o2] followed by its conditional orders. *)
Lemma submitted_run e c k st r st' p rp :
  create_order e c k st = (r, st') ->
  submissions e st st' !! 0 = Some (p, rp) ->
  let side := lower (call_side k) in
  let amount := call_amount k in
  let sl := call_stop_loss_price k in
  let tp := call_take_profit_price k in
  let n := uuid_calls st + oid_draws (call_order k) in
  exists o2 rest inv,
    submissions e st st' = (p, rp) :: rest /\
    existsb is_Raise (call_checks k) = false /\
    ((side = "buy" /\ inv = "sell") \/ (side = "sell" /\ inv = "buy")) /\
    (req_method p = "POST" /\ req_url p = orders_url /\ req_json p = PDict o2) /\
    (forall key, key <> "clientOid" -> key <> "size" ->
       o2 !! key = call_order k !! key) /\
    dom o2 = dom (call_order k) ∪ {[ "clientOid" ]} /\
    (is_None (dict_get (call_order k) "clientOid") = true ->
       o2 !! "clientOid" = Some (PStr (uuid4_hex e (uuid_calls st)))) /\
    (truthy amount = false ->
       exchanges e st st' = submissions e st st' /\
       o2 !! "size" = Some (call_size k)) /\
    (truthy amount = true ->
       exists ci info multiplier size,
         exchanges e st st' = (ci, Ok info) :: submissions e st st' /\
         req_method ci = "GET" /\
         req_url ci = _create_url (_create_path
                        ("contracts/" ++ upper (call_symbol k)) None) /\
         req_json ci = PDict ∅ /\
         py_get info "multiplier" = Ok multiplier /\
         amount_to_size amount multiplier = Ok size /\
         o2 !! "size" = Some size) /\
    (forall x, x ∈ rest ->
       req_method (fst x) = "POST" /\
       payload_keys (fst x) = dom o2 ∪ list_to_set conditional_keys) /\
    (forall v, rp = Ok v -> truthy sl = true ->
       exists s rs, rest !! 0 = Some (s, rs) /\
         req_method s = "POST" /\ req_url s = orders_url /\
         req_json s = PDict (stop_loss_order o2 (uuid4_hex e n) (PStr side) sl)) /\
    (forall v, rp = Ok v -> truthy tp = true ->
       (truthy sl = true -> exists s w, rest !! 0 = Some (s, Ok w)) ->
       exists t rt, rest !! flag sl = Some (t, rt) /\
         req_method t = "POST" /\ req_url t = orders_url /\
         req_json t =
           PDict (take_profit_order o2 (uuid4_hex e (n + flag sl))
                    (PStr side) (PStr inv) tp)) /\
    length rest <= flag sl + flag tp /\
    (forall v, r = Ok v -> rp = Ok v) /\
    (forall x, rp = Raise x -> rest = []).
Proof.
  intros H H0. cbv zeta. set (side := lower (call_side k)).
  destruct (create_order_cases e c k st) as [(_ & msg & E) | (Hc & Hv & E)];
    rewrite E in H.
  { injection H as <- <-. rewrite submissions_same in H0. discriminate. }
  assert (exists inv, ((side = "buy" /\ inv = "sell") \/ (side = "sell" /\ inv = "buy"))
                      /\ SIDE_MAPPING_getitem (PStr side) = Ok (PStr inv))
    as (inv & Hside & Hinv).
  { destruct (validate_side_ok _ Hv) as [(Hs & Hi) | (Hs & Hi)];
      injection Hs as Hs; fold side in Hs, Hi.
    - exists "sell". split; [left; split; [exact Hs | reflexivity] | exact Hi].
    - exists "buy". split; [right; split; [exact Hs | reflexivity] | exact Hi]. }
  destruct (submit_run e c _ _ _ _ st r st' _ _ _
              (call_order_side k) (call_order_symbol k) Hinv H)
    as (pre & subs & o2 & HX & HS & Hpre & Hsubs).
  rewrite HS in H0.
  destruct subs as [|[p' rp'] rest]; [discriminate|].
  injection H0 as -> ->.
  destruct (Hsubs p rp rest eq_refl)
    as ((Hpm & Hpu & Hpj) & Hrest & Hsl & Htp & Hlen & Hr & Hrej).
  exists o2, rest, inv.
  assert ("size" ∈ dom (call_order k)) as Hsz
    by (apply elem_of_dom; rewrite call_order_size; eauto).
  destruct Hpre as [(Ha & -> & -> & _)
                   | (Ha & ci & rci & -> & Hcm & Hcu & Hcj &
                      [(info & mult & sz & -> & Hm & Hz & -> & _) | (Hnil & _ & _)])];
    [| |discriminate].
  - (* no amount *)
    splits; try assumption.
    + intros key Hk _. apply order_with_oid_lookup, Hk.
    + apply order_with_oid_keys.
    + intros Hnone. unfold order_with_oid. rewrite Hnone. apply lookup_insert_eq.
    + intros _. split; [rewrite HX, HS; reflexivity|].
      rewrite order_with_oid_lookup by discriminate. apply call_order_size.
    + intros; congruence.
  - (* amount converted *)
    splits; try assumption.
    + intros key Hk Hk'. rewrite lookup_insert_ne by congruence.
      apply order_with_oid_lookup, Hk.
    + rewrite dom_insert_L, order_with_oid_keys.
      apply set_eq. intros x. set_unfold. intuition congruence.
    + intros Hnone. rewrite lookup_insert_ne by discriminate.
      unfold order_with_oid. rewrite Hnone. apply lookup_insert_eq.
    + intros; congruence.
    + intros _. exists ci, info, mult, sz.
      splits; try assumption.
      * rewrite HX, HS. reflexivity.
      * apply lookup_insert_eq.
Qed.

(** ** Conditional orders *)

(** C3: when an order call carries a stop-loss price (one that Python takes
    for true) and its primary order has been posted and accepted, the next
    order posted is the stop-loss order: the primary order's payload with
    [clientOid] replaced by the next id the uuid generator yields, [side]
    inverted, [stop] "down" for a buy and "up" for a sell, [stopPrice] the
    stop-loss price, [stopPriceType] "TP" and [reduceOnly] true; every other
    key is as in the primary order. *)
Theorem C3_stop_loss_order (e : env) (c : Client) (k : order_call)
    (st st' : state) (r : result pyval) (p : request) (v : pyval) :
  create_order e c k st = (r, st') ->
  truthy (call_stop_loss_price k) = true ->
  submissions e st st' !! 0 = Some (p, Ok v) ->
  let buy := String.eqb (lower (call_side k)) "buy" in
  exists s rs,
    submissions e st st' !! 1 = Some (s, rs) /\
    req_method s = "POST" /\
    req_url s = req_url p /\
    payload p !! "side" = Some (PStr (lower (call_side k))) /\
    payload s !! "clientOid"
      = Some (PStr (uuid4_hex e (uuid_calls st + oid_draws (call_order k)))) /\
    payload s !! "side" = Some (PStr (if buy then "sell" else "buy")) /\
    payload s !! "stop" = Some (PStr (if buy then "down" else "up")) /\
    payload s !! "stopPrice" = Some (call_stop_loss_price k) /\
    payload s !! "stopPriceType" = Some (PStr "TP") /\
    payload s !! "reduceOnly" = Some (PBool true) /\
    (forall key, key ∉ conditional_keys -> payload s !! key = payload p !! key).
Proof.
  intros H Hsl H0 buy.
  destruct (submitted_run e c k st r st' p (Ok v) H H0)
    as (o2 & rest & inv & HS & _ & Hside & (Hpm & Hpu & Hpj) & Hkeep & _ & _ & _
        & _ & _ & Hstop & _).
  destruct (Hstop v eq_refl Hsl) as (s & rs & Hs0 & Hsm & Hsu & Hsj).
  exists s, rs.
  rewrite (payload_json _ _ Hpj), (payload_json _ _ Hsj), HS.
  splits; try assumption; try congruence; try solve [conditional_lookup].
  - rewrite Hkeep by discriminate. apply call_order_side.
  - unfold stop_loss_order. rewrite !lookup_insert_ne by discriminate.
    rewrite lookup_insert_eq. subst buy.
    destruct Hside as [(-> & _) | (-> & _)]; reflexivity.
  - intros key Hkey. apply stop_loss_order_other, Hkey.
Qed.

Lemma C3_stop_loss_order_witness :
  let st' := snd (create_order example_env example_client buy_with_stop_loss
                    initial_state) in
  exists s rs,
    submissions example_env initial_state st' !! 1 = Some (s, rs) /\
    payload s !! "side" = Some (PStr "sell") /\
    payload s !! "stop" = Some (PStr "down") /\
    payload s !! "stopPrice" = Some (PNum 100) /\
    payload s !! "reduceOnly" = Some (PBool true).
Proof.
  intros st'.
  assert (exists p v, submissions example_env initial_state st' !! 0
                      = Some (p, Ok v)) as (p & v & H0).
  { vm_compute. eexists _, _. reflexivity. }
  destruct (C3_stop_loss_order example_env example_client buy_with_stop_loss
              initial_state st'
              (fst (create_order example_env example_client buy_with_stop_loss
                      initial_state)) p v)
    as (s & rs & H1 & _ & _ & _ & _ & Hside & Hstop & Hprice & _ & Hred & _).
  - apply surjective_pairing.
  - reflexivity.
  - exact H0.
  - exists s, rs. repeat split; assumption.
Defined.

(** Why C3 asks for the primary order to be accepted: when the exchange
    answers it with an error page, [_request] raises, and the stop-loss order
    is never posted. *)
Example rejected_primary_stops_the_call :
  let run := create_order failing_env example_client buy_with_stop_loss
               initial_state in
  is_Raise (fst run) = true /\
  map (fun x => req_method (fst x))
      (exchanges failing_env initial_state (snd run)) = ["POST"].
Proof. split; vm_compute; reflexivity. Qed.

(** C4: when an order call carries a take-profit price, its primary order
    has been posted and accepted, and so has the stop-loss order if the call
    carries a stop-loss price, the next order posted is the take-profit
    order: the primary order's payload cloned the same way ([clientOid] the
    next generated id, [side] inverted, [stopPrice] the take-profit price,
    [stopPriceType] "TP", [reduceOnly] true), with [stop] "up" for a buy
    and "down" for a sell. *)
Theorem C4_take_profit_order (e : env) (c : Client) (k : order_call)
    (st st' : state) (r : result pyval) (p : request) (v : pyval) :
  create_order e c k st = (r, st') ->
  truthy (call_take_profit_price k) = true ->
  submissions e st st' !! 0 = Some (p, Ok v) ->
  (truthy (call_stop_loss_price k) = true ->
   exists s w, submissions e st st' !! 1 = Some (s, Ok w)) ->
  let buy := String.eqb (lower (call_side k)) "buy" in
  let drawn := oid_draws (call_order k) + flag (call_stop_loss_price k) in
  exists t rt,
    submissions e st st' !! (1 + flag (call_stop_loss_price k)) = Some (t, rt) /\
    req_method t = "POST" /\
    req_url t = req_url p /\
    payload p !! "side" = Some (PStr (lower (call_side k))) /\
    payload t !! "clientOid" = Some (PStr (uuid4_hex e (uuid_calls st + drawn))) /\
    payload t !! "side" = Some (PStr (if buy then "sell" else "buy")) /\
    payload t !! "stop" = Some (PStr (if buy then "up" else "down")) /\
    payload t !! "stopPrice" = Some (call_take_profit_price k) /\
    payload t !! "stopPriceType" = Some (PStr "TP") /\
    payload t !! "reduceOnly" = Some (PBool true) /\
    (forall key, key ∉ conditional_keys -> payload t !! key = payload p !! key).
Proof.
  intros H Htp H0 Hacc buy drawn.
  destruct (submitted_run e c k st r st' p (Ok v) H H0)
    as (o2 & rest & inv & HS & _ & Hside & (Hpm & Hpu & Hpj) & Hkeep & _ & _ & _
        & _ & _ & _ & Htake & _).
  rewrite HS in Hacc. cbn [lookup list_lookup] in Hacc.
  destruct (Htake v eq_refl Htp Hacc) as (t & rt & Ht0 & Htm & Htu & Htj).
  exists t, rt.
  rewrite (payload_json _ _ Hpj), (payload_json _ _ Htj), HS.
  splits; try assumption; try congruence; try solve [conditional_lookup].
  - rewrite Hkeep by discriminate. apply call_order_side.
  - unfold take_profit_order. rewrite !lookup_insert_ne by discriminate.
    rewrite lookup_insert_eq. subst drawn. do 3 f_equal. lia.
  - unfold take_profit_order. rewrite !lookup_insert_ne by discriminate.
    rewrite lookup_insert_eq. subst buy.
    destruct Hside as [(-> & ->) | (-> & ->)]; reflexivity.
  - intros key Hkey. apply take_profit_order_other, Hkey.
Qed.

Lemma C4_take_profit_order_witness :
  let st' := snd (create_order example_env example_client sell_with_take_profit
                    initial_state) in
  exists t rt,
    submissions example_env initial_state st' !! 1 = Some (t, rt) /\
    payload t !! "side" = Some (PStr "buy") /\
    payload t !! "stop" = Some (PStr "down") /\
    payload t !! "stopPrice" = Some (PNum 50).
Proof.
  intros st'.
  assert (exists p v, submissions example_env initial_state st' !! 0
                      = Some (p, Ok v)) as (p & v & H0).
  { vm_compute. eexists _, _. reflexivity. }
  destruct (C4_take_profit_order example_env example_client sell_with_take_profit
              initial_state st'
              (fst (create_order example_env example_client sell_with_take_profit
                      initial_state)) p v)
    as (t & rt & H1 & _ & _ & _ & _ & Hside & Hstop & Hprice & _).
  - apply surjective_pairing.
  - reflexivity.
  - exact H0.
  - discriminate.
  - exists t, rt. repeat split; assumption.
Defined.

(** ** The keys of a limit order *)

Lemma dom_set_if k v (o : gmap string pyval) :
  dom (set_if k v o) = dom o ∪ (if truthy v then {[ k ]} else ∅).
Proof.
  unfold set_if. destruct (truthy v).
  - rewrite dom_insert_L. apply set_eq. intros x. set_unfold. tauto.
  - apply set_eq. intros x. set_unfold. tauto.
Qed.

Lemma optional_keys_nil : optional_keys [] = ∅.
Proof. reflexivity. Qed.

Lemma optional_keys_cons k v gs :
  optional_keys ((k, v) :: gs)
  = (if truthy v then {[ k ]} else ∅) ∪ optional_keys gs.
Proof.
  unfold optional_keys. cbn [List.filter snd]. destruct (truthy v).
  - reflexivity.
  - apply set_eq. intros x. set_unfold. tauto.
Qed.

Lemma limit_order_keys a :
  dom (limit_order a)
  = literal_keys
    ∪ (if truthy (Limit.client_oid a) then {[ "clientOid" ]} else ∅)
    ∪ optional_keys (limit_guards a).
Proof.
  unfold limit_order, limit_guards, literal_keys.
  rewrite !optional_keys_cons, optional_keys_nil.
  destruct (truthy (Limit.iceberg a));
    rewrite ?dom_insert_L, !dom_set_if, !dom_insert_L, dom_empty_L;
    apply set_eq; intros x; rewrite !elem_of_union; set_unfold; tauto.
Qed.

(** C5, as stated, fails: [create_limit_order("buy", "100", "XBTUSDTM", "5")],
    which passes nothing optional, posts one order, and its payload has seven
    keys, the five of the dict literal and also [leverage] (a required
    parameter, stored because it is true) and [clientOid] (generated by
    [_create_order]). *)
Lemma C5_five_keys_counterexample :
  let st' := snd (create_limit_order example_env example_client
                    plain_limit_order initial_state) in
  exists rq,
    issued initial_state st' = [rq] /\
    req_method rq = "POST" /\
    payload_keys rq
      = {[ "symbol"; "side"; "type"; "price"; "size"; "leverage"; "clientOid" ]} /\
    payload_keys rq <> literal_keys.
Proof.
  intros st'. eexists. split; [vm_compute; reflexivity|].
  split; [reflexivity|]. split; [vm_compute; reflexivity|].
  intros Heq.
  apply (f_equal (fun keys : gset string => bool_decide ("clientOid" ∈ keys))) in Heq.
  vm_compute in Heq. discriminate.
Qed.

(** C5 (amended): the payload of the primary order of a limit order has
    exactly the five keys of the dict literal (symbol, side, type, price,
    size), [clientOid] (the caller's, or a generated one) and the key of each
    optional field whose guard is true ([leverage], [remark], [stop],
    [stopPrice], [stopPriceType], [reduceOnly], [closeOrder], [forceHold],
    [hidden]; [iceberg] and [visible_size] when [iceberg] is true): an
    optional field that was not passed, or passed with a false value, is not
    in it.  When nothing optional is passed, that order is the only request,
    and its keys are the five, [clientOid], and [leverage] if it is true. *)
Theorem C5_limit_order_payload (e : env) (c : Client) (a : Limit.args)
    (st st' : state) (r : result pyval) (p : request) (rp : result pyval) :
  create_limit_order e c a st = (r, st') ->
  submissions e st st' !! 0 = Some (p, rp) ->
  payload_keys p
    = literal_keys ∪ {[ "clientOid" ]} ∪ optional_keys (limit_guards a) /\
  (forall key, key ∈ payload_keys p ->
     key ∈ literal_keys \/ key = "clientOid" \/
     exists value, (key, value) ∈ limit_guards a /\ truthy value = true) /\
  (forall side price symbol leverage,
     a = Limit.required side price symbol leverage ->
     exchanges e st st' = [(p, rp)] /\
     payload_keys p
       = literal_keys ∪ {[ "clientOid" ]}
         ∪ (if truthy leverage then {[ "leverage" ]} else ∅)).
Proof.
  intros H H0.
  destruct (submitted_run e c (LimitOrder a) st r st' p rp H H0)
    as (o2 & rest & inv & HS & _ & _ & (Hpm & Hpu & Hpj) & _ & Hdom & _ & Hno
        & _ & _ & _ & _ & Hlen & _).
  cbn [call_order call_amount call_stop_loss_price call_take_profit_price]
    in Hdom, Hno, Hlen.
  assert (payload_keys p
          = literal_keys ∪ {[ "clientOid" ]} ∪ optional_keys (limit_guards a))
    as Hkeys.
  { rewrite (payload_keys_json _ _ Hpj), Hdom, limit_order_keys.
    generalize (optional_keys (limit_guards a)) literal_keys. intros O L.
    destruct (truthy (Limit.client_oid a));
      apply set_eq; intros x; set_unfold; tauto. }
  splits.
  - exact Hkeys.
  - intros key. rewrite Hkeys, !elem_of_union.
    intros [[Hk | Hk] | Hk]; [left; exact Hk | right; left|right; right].
    + apply elem_of_singleton in Hk. exact Hk.
    + unfold optional_keys in Hk. apply elem_of_list_to_set in Hk.
      apply list_elem_of_fmap in Hk as ([k' v'] & -> & Hk).
      apply list_elem_of_In, filter_In in Hk as [Hk Ht].
      apply list_elem_of_In in Hk. exists v'. split; assumption.
  - intros side price symbol leverage ->.
    split.
    + destruct (Hno eq_refl) as [-> _]. rewrite HS.
      cbn in Hlen. destruct rest; [reflexivity | simpl in Hlen; lia].
    + rewrite Hkeys. unfold limit_guards, Limit.required.
      cbn [Limit.leverage Limit.remark Limit.stop Limit.stop_price
           Limit.stop_price_type Limit.reduce_only Limit.close_order
           Limit.force_hold Limit.hidden Limit.iceberg].
      rewrite !optional_keys_cons, optional_keys_nil. cbn [truthy].
      apply set_eq; intros x; rewrite !elem_of_union; set_unfold; tauto.
Qed.

Lemma C5_limit_order_payload_witness :
  let st' := snd (create_limit_order example_env example_client
                    plain_limit_order initial_state) in
  exists p rp,
    exchanges example_env initial_state st' = [(p, rp)] /\
    payload_keys p = literal_keys ∪ {[ "clientOid" ]} ∪ {[ "leverage" ]}.
Proof.
  intros st'.
  assert (exists p rp, submissions example_env initial_state st' !! 0
                       = Some (p, rp)) as (p & rp & H0).
  { vm_compute. eexists _, _. reflexivity. }
  destruct (C5_limit_order_payload example_env example_client plain_limit_order
              initial_state st'
              (fst (create_limit_order example_env example_client
                      plain_limit_order initial_state)) p rp)
    as (_ & _ & Hreq).
  - apply surjective_pairing.
  - exact H0.
  - exists p, rp. exact (Hreq _ _ _ _ eq_refl).
Defined.

(** ** Amount and size *)








(** ** Zero is taken for absent *)

Lemma run_submissions_bound e c k st :
  length (submissions e st (snd (create_order e c k st)))
  <= 1 + flag (call_stop_loss_price k) + flag (call_take_profit_price k).
Proof.
  destruct (create_order e c k st) as [r st'] eqn:H. cbn [snd].
  destruct (create_order_cases e c k st) as [(_ & msg & E) | (_ & Hv & E)];
    rewrite E in H.
  { injection H as <- <-. rewrite submissions_same. simpl. lia. }
  assert (exists inverse,
            SIDE_MAPPING_getitem (PStr (lower (call_side k))) = Ok inverse)
    as (inverse & Hinv)
    by (destruct (validate_side_ok _ Hv) as [(_ & Hi) | (_ & Hi)]; eauto).
  destruct (submit_run e c _ _ _ _ st r st' _ _ _
              (call_order_side k) (call_order_symbol k) Hinv H)
    as (pre & subs & o2 & HX & HS & Hpre & Hsubs).
  rewrite HS. destruct subs as [|[p rp] rest]; [simpl; lia|].
  destruct (Hsubs p rp rest eq_refl) as (_ & _ & _ & _ & Hlen & _).
  simpl. lia.
Qed.

Lemma run_without_query e c k st :
  truthy (call_amount k) = false ->
  forall x, x ∈ exchanges e st (snd (create_order e c k st)) ->
            req_method (fst x) = "POST".
Proof.
  intros Ha x.
  destruct (create_order e c k st) as [r st'] eqn:H. cbn [snd].
  destruct (create_order_cases e c k st) as [(_ & msg & E) | (_ & Hv & E)];
    rewrite E in H.
  { injection H as <- <-. rewrite exchanges_same. intros Hx. inversion Hx. }
  assert (exists inverse,
            SIDE_MAPPING_getitem (PStr (lower (call_side k))) = Ok inverse)
    as (inverse & Hinv)
    by (destruct (validate_side_ok _ Hv) as [(_ & Hi) | (_ & Hi)]; eauto).
  destruct (submit_run e c _ _ _ _ st r st' _ _ _
              (call_order_side k) (call_order_symbol k) Hinv H)
    as (pre & subs & o2 & HX & HS & Hpre & Hsubs).
  destruct Hpre as [(_ & -> & _) | (Ha' & _)]; [|congruence].
  rewrite HX. cbn [app]. intros Hx.
  destruct subs as [|[p rp] rest]; [inversion Hx|].
  destruct (Hsubs p rp rest eq_refl) as ((Hpm & _) & Hrest & _).
  apply elem_of_cons in Hx as [-> | Hx]; [exact Hpm | apply (Hrest _ Hx)].
Qed.

(** C10: a numeric argument equal to zero acts as one that is absent.
    [validate_amount_size] accepts [amount=0] whatever [size] is; an order
    call with [amount=0], [stop_loss_price=0] or [take_profit_price=0] runs
    exactly as the same call with [None] in its place; with [amount=0] no
    contract query goes out (every request is an order), and with a zero
    stop-loss or take-profit price no order is posted for it. *)
Theorem C10_zero_is_absent (e : env) (c : Client) (k : order_call) (st : state) :
  (forall size, validate_amount_size (PNum 0) size = Ok tt) /\
  create_order e c (with_amount (PNum 0) k) st
    = create_order e c (with_amount PNone k) st /\
  create_order e c (with_stop_loss_price (PNum 0) k) st
    = create_order e c (with_stop_loss_price PNone k) st /\
  create_order e c (with_take_profit_price (PNum 0) k) st
    = create_order e c (with_take_profit_price PNone k) st /\
  (forall x,
     x ∈ exchanges e st (snd (create_order e c (with_amount (PNum 0) k) st)) ->
     req_method (fst x) = "POST") /\
  length (submissions e st
            (snd (create_order e c (with_stop_loss_price (PNum 0) k) st)))
    <= 1 + flag (call_take_profit_price k) /\
  length (submissions e st
            (snd (create_order e c (with_take_profit_price (PNum 0) k) st)))
    <= 1 + flag (call_stop_loss_price k).
Proof.
  split; [reflexivity|].
  split; [destruct k as [a|a]; destruct a; reflexivity|].
  split; [destruct k as [a|a]; destruct a; reflexivity|].
  split; [destruct k as [a|a]; destruct a; reflexivity|].
  split; [|split].
  - apply run_without_query. destruct k; reflexivity.
  - pose proof (run_submissions_bound e c (with_stop_loss_price (PNum 0) k) st)
      as Hb.
    replace (call_take_profit_price (with_stop_loss_price (PNum 0) k))
      with (call_take_profit_price k) in Hb by (destruct k; reflexivity).
    replace (flag (call_stop_loss_price (with_stop_loss_price (PNum 0) k)))
      with 0 in Hb by (destruct k; reflexivity).
    lia.
  - pose proof (run_submissions_bound e c (with_take_profit_price (PNum 0) k) st)
      as Hb.
    replace (call_stop_loss_price (with_take_profit_price (PNum 0) k))
      with (call_stop_loss_price k) in Hb by (destruct k; reflexivity).
    replace (flag (call_take_profit_price (with_take_profit_price (PNum 0) k)))
      with 0 in Hb by (destruct k; reflexivity).
    lia.
Qed.


(** * Further properties of the client *)

(** ** The two side tables *)

Lemma SIDE_MAPPING_keys (s t : string) :
  SIDE_MAPPING !! s = Some t ->
  (s = "buy" /\ t = "sell") \/ (s = "sell" /\ t = "buy").
Proof.
  unfold SIDE_MAPPING. intros H.
  apply lookup_insert_Some in H as [[<- <-] | [_ H]]; [left; split; reflexivity|].
  apply lookup_insert_Some in H as [[<- <-] | [_ H]]; [right; split; reflexivity|].
  rewrite lookup_empty in H. discriminate.
Qed.

(** X1: the sides [validate_side] accepts are exactly the keys of
    [SIDE_MAPPING].  So, for a side that passed the check, the lookup
    [SIDE_MAPPING[side]] of the take-profit order cannot raise and
    [SIDE_MAPPING.get(side)] of the stop-loss order is not [None]; the
    inverse is again a valid side, differs from the side, and inverting
    twice gives the side back. *)
Theorem valid_sides_are_the_keys_of_SIDE_MAPPING (v : pyval) :
  (validate_side v = Ok tt <-> exists t, SIDE_MAPPING_getitem v = Ok t) /\
  (validate_side v = Ok tt ->
     SIDE_MAPPING_getitem v = Ok (SIDE_MAPPING_get v) /\
     validate_side (SIDE_MAPPING_get v) = Ok tt /\
     SIDE_MAPPING_get v <> v /\
     SIDE_MAPPING_get (SIDE_MAPPING_get v) = v).
Proof.
  split; [split|].
  - intros H. destruct (validate_side_ok v H) as [[_ E] | [_ E]]; eauto.
  - intros [t H]. destruct v as [| | |s| |]; try discriminate.
    cbn [SIDE_MAPPING_getitem] in H.
    destruct (SIDE_MAPPING !! s) as [t'|] eqn:E; [|discriminate].
    apply SIDE_MAPPING_keys in E as [[-> _] | [-> _]]; reflexivity.
  - intros H. destruct (validate_side_ok v H) as [[-> E] | [-> E]];
      (split; [exact E|]); (split; [reflexivity|]);
      (split; [discriminate | reflexivity]).
Qed.

Lemma valid_sides_are_the_keys_of_SIDE_MAPPING_witness :
  SIDE_MAPPING_get (SIDE_MAPPING_get (PStr "sell")) = PStr "sell".
Proof.
  apply (proj2 (valid_sides_are_the_keys_of_SIDE_MAPPING (PStr "sell"))).
  reflexivity.
Defined.

(** ** The first check that fails *)

Lemma first_error_existsb (l : list (result unit)) :
  first_error l = None <-> existsb is_Raise l = false.
Proof.
  induction l as [|[[]|x] l IH]; cbn; [tauto | exact IH |].
  split; discriminate.
Qed.

Lemma first_error_app (l1 l2 : list (result unit)) :
  first_error (l1 ++ l2)
  = match first_error l1 with Some x => Some x | None => first_error l2 end.
Proof. induction l1 as [|[[]|x] l1 IH]; cbn; [reflexivity | exact IH | reflexivity]. Qed.

(** One validator call: it raises and the call ends, or the next one is
    looked at. *)
Ltac check_step V :=
  match goal with
  | |- context [first_error (?v :: ?l)] =>
      destruct v as [[]|?] eqn:V;
      [ change (first_error (Ok tt :: l)) with (first_error l)
      | cbn [first_error bind lift]; reflexivity ];
      cbn [bind lift]
  end.

(** The checks of [_create_order]: the first that fails ends the call,
    otherwise the call goes on with [submit]. *)
Lemma create_order_checked_first e c order amount sl tp st vside :
  order !! "side" = Some vside ->
  match first_error (order_checks order amount sl tp) with
  | Some x => _create_order e c order amount sl tp st = (Raise x, st)
  | None =>
      validate_side vside = Ok tt /\
      _create_order e c order amount sl tp st
      = submit e c order amount sl tp st
  end.
Proof.
  intros Hside. unfold order_checks, _create_order, dict_getitem, dict_get.
  rewrite Hside. cbn [from_option id bind lift].
  check_step V1. check_step V2. check_step V3. check_step V4.
  split; reflexivity.
Qed.

Lemma create_order_checked e c k st :
  match first_error (call_checks k) with
  | Some x => create_order e c k st = (Raise x, st)
  | None =>
      validate_side (PStr (lower (call_side k))) = Ok tt /\
      create_order e c k st
      = submit e c (call_order k) (call_amount k) (call_stop_loss_price k)
          (call_take_profit_price k) st
  end.
Proof.
  destruct k as [a|a]; cbn [create_order call_checks call_order call_amount
    call_stop_loss_price call_take_profit_price call_side].
  - rewrite first_error_app. unfold create_limit_order, limit_checks.
    check_step V1. check_step V2. check_step V3. check_step V4.
    cbn [first_error].
    apply (create_order_checked_first e c (limit_order a) _ _ _ st _
             (limit_order_side a)).
  - apply (create_order_checked_first e c (market_order a) _ _ _ st _
             (market_order_side a)).
Qed.

(** X2: an order call with a failing check raises the exception of the
    first check that fails, in the order the source makes them (for a limit
    order: time_in_force, post_only, hidden/iceberg, iceberg/visible_size,
    then those of [_create_order]: side, stop, stop-loss/take-profit,
    amount/size), and leaves the state as it was. *)
Theorem first_failing_check_is_raised (e : env) (c : Client) (k : order_call)
    (st : state) (x : exn) :
  first_error (call_checks k) = Some x ->
  create_order e c k st = (Raise x, st) /\
  is_validation_exn x = true.
Proof.
  intros H. pose proof (create_order_checked e c k st) as Hc.
  rewrite H in Hc. split; [exact Hc|].
  destruct (create_order_cases e c k st) as [(_ & msg & E) | (Hno & _)].
  - rewrite E in Hc. injection Hc as <-. reflexivity.
  - apply first_error_existsb in Hno. congruence.
Qed.

(** [create_market_order("hold", "XBTUSDTM", "5", amount=2, size=1)]: the
    side is checked before amount and size. *)
Lemma first_failing_check_is_raised_witness :
  create_order example_env example_client
    (with_amount (PNum 2) bad_side_order) initial_state
  = (Raise (OrderParameterValidationException
              "Order 'side' need to be one of ('buy', 'sell')"),
     initial_state).
Proof.
  apply (first_failing_check_is_raised example_env example_client
           (with_amount (PNum 2) bad_side_order) initial_state).
  reflexivity.
Defined.

(** ** What holds from state to state holds for an order call *)

(** A relation on states that is reflexive and transitive, and that holds
    across [flat_uuid] and across [_request], holds across an order call:
    these two are the only steps of the client that touch the state. *)
Section Respects.
Variable e : env.
Variable c : Client.
Variable R : state -> state -> Prop.
Hypothesis R_refl : forall st, R st st.
Hypothesis R_trans : forall st1 st2 st3, R st1 st2 -> R st2 st3 -> R st1 st3.
Hypothesis R_flat_uuid : respects R (flat_uuid e).
Hypothesis R_request :
  forall method path api_version data,
    respects R (_request e c method path api_version data).

Lemma respects_ret {A : Type} (a : A) : respects R (ret a).
Proof. intros st r st' H. apply ret_inv in H as [_ ->]. apply R_refl. Qed.

Lemma respects_lift {A : Type} (x : result A) : respects R (lift x).
Proof. intros st r st' H. apply lift_inv in H as [_ ->]. apply R_refl. Qed.

Lemma respects_bind {A B : Type} (m : M A) (k : A -> M B) :
  respects R m -> (forall a, respects R (k a)) -> respects R (bind m k).
Proof.
  intros Hm Hk st r st' H.
  apply bind_inv in H as [(a & st1 & H1 & H) | (x & H1 & _)].
  - exact (R_trans _ _ _ (Hm _ _ _ H1) (Hk a _ _ _ H)).
  - exact (Hm _ _ _ H1).
Qed.

Ltac respects_step :=
  first [ apply respects_ret
        | apply respects_lift
        | apply R_flat_uuid
        | apply R_request
        | apply respects_bind; [|intros ?]
        | match goal with
          | |- respects _ (if ?b then _ else _) => destruct b
          end ].

Lemma respects_submit order amount sl tp :
  respects R (submit e c order amount sl tp).
Proof.
  unfold submit, ensure_client_oid, size_from_amount, contract_info,
    submit_stop_loss, submit_take_profit.
  repeat respects_step.
Qed.

Lemma respects_create_order (k : order_call) : respects R (create_order e c k).
Proof.
  destruct k as [a|a]; cbn [create_order];
    unfold create_limit_order, create_market_order, _create_order;
    repeat first [ apply respects_submit | respects_step ].
Qed.
End Respects.

(** ** Signed requests *)

Lemma not_kc_header (key : string) :
  key ∉ kc_headers ->
  key <> "KC-API-TIMESTAMP" /\ key <> "KC-API-SIGN" /\ key <> "KC-API-KEY" /\
  key <> "KC-API-PASSPHRASE" /\ key <> "KC-API-KEY-VERSION".
Proof. unfold kc_headers. intros H. set_unfold. naive_solver. Qed.

Lemma extends_headers_refl h : extends_headers h h.
Proof.
  split; [reflexivity|]. split; [reflexivity|].
  intros x Hx. apply elem_of_union. left. exact Hx.
Qed.

Lemma extends_headers_trans h1 h2 h3 :
  extends_headers h1 h2 -> extends_headers h2 h3 -> extends_headers h1 h3.
Proof.
  intros (K1 & L1 & U1) (K2 & L2 & U2). split; [|split].
  - intros key Hk. rewrite K2, K1 by exact Hk. reflexivity.
  - intros x Hx. apply L2, L1, Hx.
  - intros x Hx. apply U2, elem_of_union in Hx as [Hx | Hx].
    + apply U1, Hx.
    + apply elem_of_union. right. exact Hx.
Qed.

Lemma extends_headers_signed e c nonce method full_path data h :
  extends_headers h (signed_headers e c nonce method full_path data h).
Proof.
  unfold signed_headers. split; [|split].
  - intros key Hk. apply not_kc_header in Hk as (? & ? & ? & ? & ?).
    rewrite !lookup_insert_ne by congruence. reflexivity.
  - rewrite !dom_insert_L. intros x Hx. set_unfold. tauto.
  - rewrite !dom_insert_L. unfold kc_headers. intros x Hx. set_unfold. tauto.
Qed.

Lemma signed_run_refl e c st : signed_run e c st st.
Proof.
  exists []. split; [symmetry; apply app_nil_r|]. split; [simpl; lia|].
  split; [apply extends_headers_refl|]. intros j rq Hj. inversion Hj.
Qed.

Lemma signed_run_trans e c st1 st2 st3 :
  signed_run e c st1 st2 -> signed_run e c st2 st3 -> signed_run e c st1 st3.
Proof.
  intros (l1 & S1 & C1 & H1 & B1) (l2 & S2 & C2 & H2 & B2).
  exists (l1 ++ l2)%list. split; [|split; [|split]].
  - rewrite S2, S1, app_assoc. reflexivity.
  - rewrite C2, C1, length_app. lia.
  - exact (extends_headers_trans _ _ _ H1 H2).
  - intros j rq Hj. apply lookup_app_Some in Hj as [Hj | [Hlen Hj]].
    + exact (B1 j rq Hj).
    + destruct (B2 _ rq Hj) as (base & Hb & Hrq). exists base. split.
      * exact (extends_headers_trans _ _ _ H1 Hb).
      * replace (clock_reads st1 + j) with (clock_reads st2 + (j - length l1))
          by lia.
        exact Hrq.
Qed.

Lemma signed_run_flat_uuid e c : respects (signed_run e c) (flat_uuid e).
Proof.
  intros st r st' H. injection H as _ <-.
  exists []. split; [symmetry; apply app_nil_r|]. split; [simpl; lia|].
  split; [apply extends_headers_refl|]. intros j rq Hj. inversion Hj.
Qed.

Lemma signed_run_request e c method path api_version data :
  respects (signed_run e c) (_request e c method path api_version data).
Proof.
  intros st r st' H. injection H as _ <-.
  exists [build_request e c st method path api_version data].
  split; [reflexivity|]. split; [simpl; lia|].
  split; [apply extends_headers_signed|].
  intros [|j] rq Hj; [|destruct j; discriminate].
  injection Hj as <-. exists (DEFAULT_HEADERS st).
  split; [apply extends_headers_refl|].
  exists (_create_path path api_version). rewrite Nat.add_0_r.
  split; [reflexivity|]. split; reflexivity.
Qed.

Lemma create_order_signed_run e c k :
  respects (signed_run e c) (create_order e c k).
Proof.
  apply respects_create_order.
  - apply signed_run_refl.
  - apply signed_run_trans.
  - apply signed_run_flat_uuid.
  - apply signed_run_request.
Qed.

Lemma signed_run_issued e c st st' :
  signed_run e c st st' ->
  clock_reads st' = clock_reads st + length (issued st st') /\
  extends_headers (DEFAULT_HEADERS st) (DEFAULT_HEADERS st') /\
  forall j rq, issued st st' !! j = Some rq ->
    exists base,
      extends_headers (DEFAULT_HEADERS st) base /\
      built_from e c (time_ms e (clock_reads st + j)) base rq.
Proof.
  intros (l & S & C & H & B). unfold issued. rewrite S, drop_app_length.
  split; [exact C|]. split; [exact H | exact B].
Qed.

(** X3: every request of an order call is signed over what is sent.  The
    [j]-th request carries the [j]-th clock reading of the call as
    [KC-API-TIMESTAMP] (one reading per request), its body is the
    [json.dumps] of its payload, and [KC-API-SIGN] is the HMAC, under the
    client's secret, of that timestamp, the method, the path of the URL and
    that body; [KC-API-KEY] is the client's key, [KC-API-PASSPHRASE] the HMAC
    of its passphrase and [KC-API-KEY-VERSION] is "2". *)
Theorem requests_are_signed_over_what_is_sent (e : env) (c : Client)
    (k : order_call) (st st' : state) (r : result pyval) (j : nat)
    (rq : request) :
  create_order e c k st = (r, st') ->
  issued st st' !! j = Some rq ->
  let nonce := time_ms e (clock_reads st + j) in
  clock_reads st' = clock_reads st + length (issued st st') /\
  req_data rq = json_dumps e (req_json rq) /\
  req_headers rq !! "KC-API-TIMESTAMP" = Some (str_int nonce) /\
  req_headers rq !! "KC-API-KEY" = Some (API_KEY c) /\
  req_headers rq !! "KC-API-PASSPHRASE"
    = Some (hmac_sha256_b64 e (API_SECRET c) (API_PASSPHRASE c)) /\
  req_headers rq !! "KC-API-KEY-VERSION" = Some "2" /\
  exists full_path,
    req_url rq = API_URL ++ full_path /\
    req_headers rq !! "KC-API-SIGN"
    = Some (hmac_sha256_b64 e (API_SECRET c)
              (str_int nonce ++ req_method rq ++ full_path ++ req_data rq)).
Proof.
  intros H Hj nonce.
  destruct (signed_run_issued e c st st' (create_order_signed_run e c k _ _ _ H))
    as (Hclock & _ & Hrq).
  destruct (Hrq j rq Hj) as (base & _ & full_path & Hurl & Hdata & Hh).
  fold nonce in Hh. rewrite Hh. unfold signed_headers.
  splits; try assumption; try (by simplify_map_eq).
  exists full_path. split; [exact Hurl | by simplify_map_eq].
Qed.

Lemma requests_are_signed_over_what_is_sent_witness :
  let st' := snd (create_order example_env example_client buy_amount_2
                    initial_state) in
  exists rq,
    issued initial_state st' !! 1 = Some rq /\
    req_headers rq !! "KC-API-TIMESTAMP" = Some "1700000000001".
Proof.
  intros st'.
  assert (exists rq, issued initial_state st' !! 1 = Some rq) as (rq & Hj).
  { vm_compute. eexists. reflexivity. }
  exists rq. split; [exact Hj|].
  destruct (requests_are_signed_over_what_is_sent example_env example_client
              buy_amount_2 initial_state st'
              (fst (create_order example_env example_client buy_amount_2
                      initial_state)) 1 rq)
    as (_ & _ & Ht & _).
  - apply surjective_pairing.
  - exact Hj.
  - exact Ht.
Defined.

(** X4: an order call touches the five [KC-API-*] headers only.  Any other
    entry of [DEFAULT_HEADERS] is the same after the call as before, every
    request carries it unchanged, and the header names of a request are
    those of [DEFAULT_HEADERS] at the start of the call and the five. *)
Theorem plain_headers_are_kept (e : env) (c : Client) (k : order_call)
    (st st' : state) (r : result pyval) :
  create_order e c k st = (r, st') ->
  (forall key, key ∉ kc_headers ->
     DEFAULT_HEADERS st' !! key = DEFAULT_HEADERS st !! key) /\
  (forall rq, rq ∈ issued st st' ->
     (forall key, key ∉ kc_headers ->
        req_headers rq !! key = DEFAULT_HEADERS st !! key) /\
     dom (req_headers rq)
     = dom (DEFAULT_HEADERS st) ∪ list_to_set kc_headers).
Proof.
  intros H.
  destruct (signed_run_issued e c st st' (create_order_signed_run e c k _ _ _ H))
    as (_ & (Hkeep & _) & Hrq).
  split; [exact Hkeep|].
  intros rq Hin. apply list_elem_of_lookup in Hin as [j Hj].
  destruct (Hrq j rq Hj) as (base & (Kb & Lb & Ub) & full_path & _ & _ & Hh).
  pose proof (extends_headers_signed e c (time_ms e (clock_reads st + j))
                (req_method rq) full_path (req_data rq) base) as (Ks & Ls & Us).
  rewrite <- Hh in Ks, Ls, Us. split.
  - intros key Hk. rewrite Ks, Kb by exact Hk. reflexivity.
  - apply set_eq. intros x. split.
    + intros Hx. apply Us, elem_of_union in Hx as [Hx | Hx].
      * apply Ub, Hx.
      * apply elem_of_union. right. exact Hx.
    + intros Hx. apply elem_of_union in Hx as [Hx | Hx].
      * apply Ls, Lb, Hx.
      * rewrite Hh. unfold signed_headers, kc_headers in *.
        rewrite !dom_insert_L. set_unfold. tauto.
Qed.

Lemma plain_headers_are_kept_witness :
  let st' := snd (create_order example_env example_client buy_amount_2
                    initial_state) in
  DEFAULT_HEADERS st' !! "content-type" = Some "application/json" /\
  forall rq, rq ∈ issued initial_state st' ->
             req_headers rq !! "accept" = Some "application/json".
Proof.
  intros st'.
  destruct (plain_headers_are_kept example_env example_client buy_amount_2
              initial_state st'
              (fst (create_order example_env example_client buy_amount_2
                      initial_state))) as [Hkeep Hrq].
  - apply surjective_pairing.
  - assert (forall key, key = "accept" \/ key = "content-type" ->
                        key ∉ kc_headers) as Hplain.
    { intros key [-> | ->] Hin;
        repeat (apply elem_of_cons in Hin as [Hin | Hin]; [discriminate|]);
        inversion Hin. }
    split.
    + rewrite Hkeep by (apply Hplain; auto). reflexivity.
    + intros rq Hin. destruct (Hrq rq Hin) as [Hk _].
      rewrite Hk by (apply Hplain; auto). reflexivity.
Defined.

(** ** The requests of the order block *)

Ltac outcome_leaf :=
  splits;
  [ eassumption
  | repeat constructor; assumption
  | cbn [map fst]; unfold conditional_orders;
    repeat match goal with H : req_json _ = _ |- _ => rewrite H; clear H end;
    flags; eexists; cbn [app]; reflexivity
  | ].

Lemma orders_outcome e c o2 sl tp st2 r st' vside inverse :
  o2 !! "side" = Some vside ->
  SIDE_MAPPING_getitem vside = Ok inverse ->
  (let* new_order_response :=
     _request e c "POST" "orders" None (Some (PDict o2)) in
   let* _ := submit_stop_loss e c o2 sl in
   let* _ := submit_take_profit e c o2 tp in
   ret new_order_response) st2 = (r, st') ->
  exists xs,
    trace_of e st2 st' xs /\
    Forall to_orders xs /\
    map (fun x => req_json (fst x)) xs
      `prefix_of` (PDict o2 :: conditional_orders e (uuid_calls st2) o2
                                 vside inverse sl tp) /\
    ((exists x, stopped_at xs x /\ r = Raise x) \/
     (exists p v rest,
        xs = (p, Ok v) :: rest /\ forallb accepted rest = true /\
        length rest = flag sl + flag tp /\ r = Ok v /\
        uuid_calls st' = uuid_calls st2 + flag sl + flag tp)).
Proof.
  intros Hside Hinv H.
  apply bind_inv in H as [(v & st3 & H1 & H) | (x & H1 & ->)];
    apply request_inv in H1 as (p & Hpm & Hpu & Hpj & Tp & Up);
    simpl in Hpj; fold orders_url in Hpu.
  2:{ exists [(p, Raise x)]. outcome_leaf.
      left. exists x. split; [|reflexivity]. exists [], p. split; reflexivity. }
  apply bind_inv in H as [([] & st4 & H1 & H) | (x & H1 & ->)];
    apply (submit_stop_loss_inv _ _ _ _ _ _ _ _ Hside) in H1
      as (Us & [(Hsl & Es & Ts) | (Hsl & s & rs & Ts & Hsm & Hsu & Hsj & Es)]);
    try discriminate; rewrite Up in *.
  - (* no stop-loss order *)
    apply bind_inv in H as [([] & st5 & H1 & H) | (x & H1 & ->)];
      apply (submit_take_profit_inv _ _ _ _ _ _ _ _ _ Hside Hinv) in H1
        as (Ut & [(Htp & Et & Tt) | (Htp & t & rt & Tt & Htm & Htu & Htj & Et)]);
      try discriminate;
      try (apply ret_inv in H as [-> ->]);
      pose proof (trace_app _ _ _ _ _ _ (trace_app _ _ _ _ _ _ Tp Ts) Tt) as T;
      rewrite Us in *.
    + exists [(p, Ok v)]. outcome_leaf.
      right. exists p, v, []. flags. splits; try reflexivity. lia.
    + destruct rt as [w|]; [|discriminate].
      exists [(p, Ok v); (t, Ok w)]. outcome_leaf.
      right. exists p, v, [(t, Ok w)]. flags. splits; try reflexivity. lia.
    + destruct rt as [w|x']; [discriminate|]. injection Et as ->.
      exists [(p, Ok v); (t, Raise x')]. outcome_leaf.
      left. exists x'. split; [|reflexivity].
      exists [(p, Ok v)], t. split; reflexivity.
  - (* the stop-loss order was accepted *)
    destruct rs as [w|]; [|discriminate].
    apply bind_inv in H as [([] & st5 & H1 & H) | (x & H1 & ->)];
      apply (submit_take_profit_inv _ _ _ _ _ _ _ _ _ Hside Hinv) in H1
        as (Ut & [(Htp & Et & Tt) | (Htp & t & rt & Tt & Htm & Htu & Htj & Et)]);
      try discriminate;
      try (apply ret_inv in H as [-> ->]);
      pose proof (trace_app _ _ _ _ _ _ (trace_app _ _ _ _ _ _ Tp Ts) Tt) as T;
      rewrite Us in *.
    + exists [(p, Ok v); (s, Ok w)]. outcome_leaf.
      right. exists p, v, [(s, Ok w)]. flags. splits; try reflexivity. lia.
    + destruct rt as [w'|]; [|discriminate].
      exists [(p, Ok v); (s, Ok w); (t, Ok w')]. outcome_leaf.
      right. exists p, v, [(s, Ok w); (t, Ok w')]. flags.
      splits; try reflexivity. lia.
    + destruct rt as [w'|x']; [discriminate|]. injection Et as ->.
      exists [(p, Ok v); (s, Ok w); (t, Raise x')]. outcome_leaf.
      left. exists x'. split; [|reflexivity].
      exists [(p, Ok v); (s, Ok w)], t. split; reflexivity.
  - (* the stop-loss order was rejected *)
    destruct rs as [w|x']; [discriminate|]. injection Es as ->.
    pose proof (trace_app _ _ _ _ _ _ Tp Ts) as T.
    exists [(p, Ok v); (s, Raise x')]. outcome_leaf.
    left. exists x'. split; [|reflexivity].
    exists [(p, Ok v)], s. split; reflexivity.
Qed.

(** ** The requests of an order call *)

Lemma valid_side_inverse (v : pyval) :
  validate_side v = Ok tt -> SIDE_MAPPING_getitem v = Ok (SIDE_MAPPING_get v).
Proof. intros H. destruct (validate_side_ok v H) as [[-> E] | [-> E]]; exact E. Qed.

Lemma submit_outcome e c order amount sl tp st r st' vside vsym inverse :
  order !! "side" = Some vside ->
  order !! "symbol" = Some (PStr vsym) ->
  SIDE_MAPPING_getitem vside = Ok inverse ->
  submit e c order amount sl tp st = (r, st') ->
  let o1 := order_with_oid e st order in
  let n := uuid_calls st + oid_draws order in
  exists query orders prepared,
    trace_of e st st' (query ++ orders) /\
    queried e amount vsym o1 query prepared /\
    match prepared with
    | Raise x => orders = [] /\ r = Raise x
    | Ok o2 => posted e n o2 vside inverse sl tp orders r st'
    end.
Proof.
  intros Hside Hsym Hinv H o1 n.
  unfold submit in H.
  apply bind_inv in H as [(o1' & st1 & H1 & H) | (x & H1 & ->)];
    apply ensure_client_oid_inv in H1 as (E & T0 & U0); [|discriminate].
  injection E as ->. fold o1 in H.
  assert (o1 !! "symbol" = Some (PStr vsym)) as Hsym1
      by (unfold o1; rewrite order_with_oid_lookup; [assumption|discriminate]).
  assert (o1 !! "side" = Some vside) as Hside1
      by (unfold o1; rewrite order_with_oid_lookup; [assumption|discriminate]).
  apply bind_inv in H as [(o2 & st2 & H1 & H) | (x & H1 & ->)];
    apply (size_from_amount_inv _ _ _ _ _ _ _ _ Hsym1) in H1
      as (U1 & [(Ha & E & T1) | (Ha & ci & rci & T1 & Hcm & Hcu & Hcj & E)]);
    try discriminate.
  - (* no amount *)
    injection E as ->.
    apply (orders_outcome _ _ _ _ _ _ _ _ _ _ Hside1 Hinv) in H
      as (xs & T & Hto & Hpre & Hend).
    pose proof (trace_app _ _ _ _ _ _ (trace_app _ _ _ _ _ _ T0 T1) T) as TT.
    exists [], xs, (Ok o1). splits; [exact TT | left; splits; reflexivity || assumption |].
    replace n with (uuid_calls st2) by (unfold n; lia).
    unfold posted. splits; assumption.
  - (* amount, the order is prepared *)
    assert (o2 !! "side" = Some vside) as Hside2.
    { destruct rci as [info|]; [|discriminate]. cbn [rbind] in E.
      destruct (py_get info "multiplier") as [mult|]; [|discriminate].
      cbn [rbind] in E.
      destruct (amount_to_size amount mult) as [sz|]; [|discriminate].
      cbn [rbind] in E. injection E as ->.
      rewrite lookup_insert_ne; [assumption|discriminate]. }
    apply (orders_outcome _ _ _ _ _ _ _ _ _ _ Hside2 Hinv) in H
      as (xs & T & Hto & Hpre & Hend).
    pose proof (trace_app _ _ _ _ _ _ (trace_app _ _ _ _ _ _ T0 T1) T) as TT.
    exists [(ci, rci)], xs, (Ok o2). splits.
    + exact TT.
    + right. split; [exact Ha|]. exists ci, rci.
      splits; try reflexivity; assumption.
    + replace n with (uuid_calls st2) by (unfold n; lia).
      unfold posted. splits; assumption.
  - (* amount, no order is prepared *)
    pose proof (trace_app _ _ _ _ _ _ T0 T1) as TT.
    exists [(ci, rci)], [], (Raise x). splits.
    + exact TT.
    + right. split; [exact Ha|]. exists ci, rci.
      splits; try reflexivity; assumption.
    + reflexivity.
    + reflexivity.
Qed.

(** An order call, from the checks to the last request. *)
Lemma run_outcome e c k st r st' :
  create_order e c k st = (r, st') ->
  let side := PStr (lower (call_side k)) in
  let o1 := order_with_oid e st (call_order k) in
  let n := uuid_calls st + oid_draws (call_order k) in
  match first_error (call_checks k) with
  | Some x => r = Raise x /\ st' = st
  | None =>
      validate_side side = Ok tt /\
      exists query orders prepared,
        exchanges e st st' = (query ++ orders)%list /\
        queried e (call_amount k) (upper (call_symbol k)) o1 query prepared /\
        match prepared with
        | Raise x => orders = [] /\ r = Raise x
        | Ok o2 =>
            posted e n o2 side (SIDE_MAPPING_get side)
              (call_stop_loss_price k) (call_take_profit_price k) orders r st'
        end
  end.
Proof.
  intros H side o1 n.
  pose proof (create_order_checked e c k st) as Hc.
  destruct (first_error (call_checks k)) as [x|].
  { rewrite Hc in H. injection H as <- <-. split; reflexivity. }
  destruct Hc as [Hv Hc]. rewrite Hc in H. split; [exact Hv|].
  pose proof (valid_side_inverse side Hv) as Hinv.
  destruct (submit_outcome e c _ _ _ _ st r st' _ _ _
              (call_order_side k) (call_order_symbol k) Hinv H)
    as (query & orders & prepared & T & Hq & Hp).
  exists query, orders, prepared.
  split; [apply (trace_exchanges _ _ _ _ T)|]. split; assumption.
Qed.

(** ** What the response handler and the size computation raise *)

Lemma handle_response_raises (r : response) (x : exn) :
  _handle_response r = Raise x ->
  x = KucoinAPIException r \/
  x = KucoinRequestException ("Invalid Response: " ++ text r) \/
  x = TypeError.
Proof.
  unfold _handle_response.
  destruct (negb (String.prefix "2" (str_int (status_code r))));
    [intros [= <-]; auto|].
  destruct (json r) as [res|]; [|intros [= <-]; auto].
  destruct res as [| | | s | l | d]; cbn [py_contains py_getitem rbind];
    try (intros [= <-]; auto).
  - destruct (substring_of "code" s); cbn [rbind]; [intros [= <-]; auto|].
    destruct (substring_of "success" s); cbn [rbind]; [intros [= <-]; auto|].
    destruct (substring_of "data" s); cbn [rbind]; [intros [= <-]; auto|].
    discriminate.
  - destruct (existsb _ l); cbn [rbind]; [intros [= <-]; auto|].
    destruct (existsb _ l); cbn [rbind]; [intros [= <-]; auto|].
    destruct (existsb _ l); cbn [rbind]; [intros [= <-]; auto|].
    discriminate.
  - unfold dict_getitem.
    destruct (d !! "code") as [vc|]; destruct (d !! "success") as [vs|];
      destruct (d !! "data") as [vd|]; cbn;
      try destruct (py_eq_str vc "200000"); try destruct (truthy vs);
      cbn; intros [= <-]; auto.
Qed.

Lemma amount_to_size_raises (amount multiplier : pyval) (x : exn) :
  amount_to_size amount multiplier = Raise x ->
  x = TypeError \/ x = ZeroDivisionError.
Proof.
  unfold amount_to_size, py_floordiv.
  destruct (as_number amount) as [a|]; [|intros [= <-]; auto].
  destruct (as_number multiplier) as [m|];
    [|destruct (Qle_bool 1 a); intros [= <-]; auto].
  destruct (Qle_bool 1 a); [destruct (negb (Qle_bool 1 m))|];
    destruct (Qeq_bool m 0); intros [= <-]; auto.
Qed.

Lemma sized_order_raises (o : gmap string pyval) (amount info : pyval) (x : exn) :
  sized_order o amount info = Raise x ->
  x = AttributeError \/ x = TypeError \/ x = ZeroDivisionError.
Proof.
  unfold sized_order, py_get.
  destruct info as [| | | | | d]; cbn [rbind]; try (intros [= <-]; auto).
  destruct (amount_to_size amount (dict_get d "multiplier")) as [sz|x'] eqn:E;
    cbn [rbind]; [discriminate|].
  intros [= <-]. apply amount_to_size_raises in E as [-> | ->]; auto.
Qed.

Lemma sized_order_any (o o' : gmap string pyval) (amount info : pyval) (x : exn) :
  sized_order o amount info = Raise x -> sized_order o' amount info = Raise x.
Proof.
  unfold sized_order.
  destruct (py_get info "multiplier") as [m|]; cbn [rbind]; [|trivial].
  destruct (amount_to_size amount m); cbn [rbind]; [discriminate | trivial].
Qed.

(** ** The four ways an order call ends *)

Lemma exchange_result e st st' j rq rr :
  exchanges e st st' !! j = Some (rq, rr) ->
  issued st st' !! j = Some rq /\
  rr = _handle_response (http e (length (sent st) + j) rq).
Proof.
  unfold exchanges. rewrite list_lookup_imap.
  destruct (issued st st' !! j) as [rq'|]; [|discriminate].
  cbn. unfold exchange. intros [= -> ->]. split; reflexivity.
Qed.

Lemma forallb_accepted_app (l1 l2 : list (request * result pyval)) :
  forallb accepted (l1 ++ l2) = forallb accepted l1 && forallb accepted l2.
Proof. apply forallb_app. Qed.

Lemma run_ending e c k st r st' :
  create_order e c k st = (r, st') ->
  let side := PStr (lower (call_side k)) in
  let sl := call_stop_loss_price k in
  let tp := call_take_profit_price k in
  let o1 := order_with_oid e st (call_order k) in
  let n := uuid_calls st + oid_draws (call_order k) in
  (* rejected by a check *)
  (exists x, first_error (call_checks k) = Some x /\ r = Raise x /\ st' = st) \/
  first_error (call_checks k) = None /\
  ((* a request was rejected *)
   (exists x, stopped_at (exchanges e st st') x /\ r = Raise x) \/
   (* the size could not be computed *)
   (exists ci info x,
      truthy (call_amount k) = true /\
      exchanges e st st' = [(ci, Ok info)] /\ req_method ci = "GET" /\
      sized_order o1 (call_amount k) info = Raise x /\ r = Raise x) \/
   (* every request was accepted *)
   (exists query o2 p v rest,
      exchanges e st st' = (query ++ (p, Ok v) :: rest)%list /\
      queried e (call_amount k) (upper (call_symbol k)) o1 query (Ok o2) /\
      forallb accepted (exchanges e st st') = true /\
      Forall to_orders ((p, Ok v) :: rest) /\
      map (fun x => req_json (fst x)) ((p, Ok v) :: rest)
      = PDict o2 :: conditional_orders e n o2 side (SIDE_MAPPING_get side) sl tp /\
      r = Ok v /\
      uuid_calls st' = n + flag sl + flag tp)).
Proof.
  intros H side sl tp o1 n.
  pose proof (run_outcome e c k st r st' H) as Hrun. cbv zeta in Hrun.
  fold side o1 n sl tp in Hrun.
  destruct (first_error (call_checks k)) as [x|].
  { left. exists x. destruct Hrun as [-> ->]. splits; reflexivity. }
  right. split; [reflexivity|].
  destruct Hrun as (Hv & query & orders & prepared & HX & Hq & Hp).
  destruct prepared as [o2|x].
  - destruct Hp as (Hto & Hpre & Hend).
    assert (forallb accepted query = true) as Hqa.
    { destruct Hq as [(_ & -> & _) | (_ & ci & rci & -> & _ & _ & _ & E)];
        [reflexivity|].
      destruct rci; [reflexivity | discriminate]. }
    destruct Hend as [(x & (init & rq & -> & Hinit) & ->)
                     | (p & v & rest & -> & Hrest & Hlen & -> & Hu)].
    + left. exists x. split; [|reflexivity].
      exists (query ++ init)%list, rq. rewrite HX, app_assoc.
      split; [reflexivity|]. rewrite forallb_accepted_app, Hqa, Hinit. reflexivity.
    + right. right. exists query, o2, p, v, rest.
      splits; try assumption; try reflexivity.
      * rewrite HX, forallb_accepted_app, Hqa. cbn [forallb accepted snd is_Raise negb].
        exact Hrest.
      * destruct Hpre as [rem Hrem].
        assert (length (map (fun x => req_json (fst x)) ((p, Ok v) :: rest))
                = length (PDict o2 :: conditional_orders e n o2 side
                                        (SIDE_MAPPING_get side) sl tp)) as Hl.
        { rewrite length_map. cbn [length]. unfold conditional_orders.
          rewrite length_app, Hlen. unfold flag.
          destruct (truthy sl); destruct (truthy tp); reflexivity. }
        rewrite Hrem, length_app in Hl.
        destruct rem; [|simpl in Hl; lia].
        rewrite app_nil_r in Hrem. symmetry. exact Hrem.
  - destruct Hp as [-> ->]. rewrite app_nil_r in HX.
    destruct Hq as [(_ & _ & ?) | (Ha & ci & rci & -> & Hcm & _ & _ & E)];
      [discriminate|].
    destruct rci as [info|x']; cbn [rbind] in E.
    + right. left. exists ci, info, x. splits; try assumption; reflexivity || (symmetry; exact E).
    + left. injection E as ->. exists x'. split; [|reflexivity].
      exists [], ci. rewrite HX. split; reflexivity.
Qed.

(** ** Which exception a failed size computation raises *)

Lemma sized_order_raises_which (o : gmap string pyval) (amount info : pyval)
    (x : exn) :
  sized_order o amount info = Raise x ->
  match info with
  | PDict d =>
      match as_number amount, as_number (dict_get d "multiplier") with
      | Some _, Some m => x = ZeroDivisionError /\ (m == 0)%Q
      | _, _ => x = TypeError
      end
  | _ => x = AttributeError
  end.
Proof.
  unfold sized_order, py_get.
  destruct info as [| | | | | d]; cbn [rbind]; try (intros [= <-]; reflexivity).
  unfold amount_to_size, py_floordiv.
  destruct (as_number amount) as [a|]; [|cbn [rbind]; intros [= <-]; reflexivity].
  destruct (as_number (dict_get d "multiplier")) as [m|];
    [|destruct (Qle_bool 1 a); cbn [rbind]; intros [= <-]; reflexivity].
  destruct (Qle_bool 1 a); [destruct (negb (Qle_bool 1 m))|];
    destruct (Qeq_bool m 0) eqn:E; cbn [rbind]; try discriminate;
    intros [= <-]; (split; [reflexivity | apply Qeq_bool_iff, E]).
Qed.

(** ** Where the requests go *)

Lemma conditional_orders_length e n o2 side inverse sl tp :
  length (conditional_orders e n o2 side inverse sl tp) = flag sl + flag tp.
Proof.
  unfold conditional_orders, flag. rewrite length_app.
  destruct (truthy sl); destruct (truthy tp); reflexivity.
Qed.



(** ** An order call stops at the first request that fails *)

(** X6: an order call stops at the first request that fails.  Every
    request but the last one issued was handled without an exception, and
    when the last one raised, the call raises that exception: nothing is
    retried, nothing is swallowed, and no request follows a failure (so a
    rejected stop-loss order leaves the primary order placed and the
    take-profit order unsent). *)
Theorem order_call_stops_at_first_failure (e : env) (c : Client)
    (k : order_call) (st st' : state) (r : result pyval) :
  create_order e c k st = (r, st') ->
  (forall j x, exchanges e st st' !! j = Some x ->
     S j < length (exchanges e st st') -> accepted x = true) /\
  (forall rq x, last (exchanges e st st') = Some (rq, Raise x) -> r = Raise x).
Proof.
  intros H.
  destruct (run_ending e c k st r st' H)
    as [(x & _ & _ & ->)
       | (_ & [(x & (init & rq & HX & Hinit) & ->)
              | [(ci & info & x & _ & HX & _ & _ & _)
                | (query & o2 & p & v & rest & HX & _ & Hall & _)]])].
  - rewrite exchanges_same. split; [intros j y Hj; inversion Hj | discriminate].
  - rewrite HX. split.
    + intros j y Hj Hlt. rewrite length_app in Hlt. cbn [length] in Hlt.
      apply lookup_app_Some in Hj as [Hj | [Hge _]]; [|lia].
      rewrite forallb_forall in Hinit.
      apply Hinit, list_elem_of_In, (list_elem_of_lookup_2 _ _ _ Hj).
    + intros rq' x'. rewrite last_snoc. intros [= _ ->]. reflexivity.
  - rewrite HX. split.
    + intros [|j] y Hj Hlt; simpl in Hlt; [lia|]. destruct j; discriminate.
    + discriminate.
  - rewrite forallb_forall in Hall. split.
    + intros j y Hj _.
      apply Hall, list_elem_of_In, (list_elem_of_lookup_2 _ _ _ Hj).
    + intros rq x Hlast. exfalso.
      apply last_Some in Hlast as [l' Hl'].
      assert (accepted (rq, Raise x) = true) as Hacc.
      { apply Hall. rewrite Hl'. apply in_or_app. right. left. reflexivity. }
      discriminate.
Qed.

Lemma order_call_stops_at_first_failure_witness :
  fst (create_order failing_env example_client buy_with_stop_loss initial_state)
  = Raise (KucoinAPIException gateway_error).
Proof.
  destruct (order_call_stops_at_first_failure failing_env example_client
              buy_with_stop_loss initial_state
              (snd (create_order failing_env example_client buy_with_stop_loss
                      initial_state))
              (fst (create_order failing_env example_client buy_with_stop_loss
                      initial_state))) as [_ Hlast].
  - apply surjective_pairing.
  - eapply Hlast. vm_compute. reflexivity.
Defined.

(** ** An order call that returns *)

(** X7: an order call that returns has done everything.  All its requests
    were accepted; their number is one for the order plus one for each of
    [amount], [stop_loss_price], [take_profit_price] that is true; the value
    returned is the handled response of the primary order; the orders posted
    are the prepared order followed by its conditional orders; and one uuid
    was drawn for each generated [clientOid]. *)
Theorem returned_order_call_is_complete (e : env) (c : Client)
    (k : order_call) (st st' : state) (v : pyval) :
  create_order e c k st = (Ok v, st') ->
  let side := PStr (lower (call_side k)) in
  let sl := call_stop_loss_price k in
  let tp := call_take_profit_price k in
  let n := uuid_calls st + oid_draws (call_order k) in
  forallb accepted (exchanges e st st') = true /\
  length (exchanges e st st') = flag (call_amount k) + 1 + flag sl + flag tp /\
  uuid_calls st' = n + flag sl + flag tp /\
  exists p o2 rest,
    submissions e st st' = (p, Ok v) :: rest /\
    map (fun x => req_json (fst x)) (submissions e st st')
    = PDict o2 :: conditional_orders e n o2 side (SIDE_MAPPING_get side) sl tp.
Proof.
  intros H side sl tp n.
  destruct (run_ending e c k st (Ok v) st' H)
    as [(x & _ & ? & _)
       | (_ & [(x & _ & ?)
              | [(ci & info & x & _ & _ & _ & _ & ?)
                | (query & o2 & p & w & rest & HX & Hq & Hall & Hto & Hplan & Hr & Hu)]])];
    try discriminate.
  injection Hr as <-.
  fold side sl tp n in Hplan, Hu.
  assert (length ((p, Ok v) :: rest) = 1 + flag sl + flag tp) as Hlen.
  { apply (f_equal (@length pyval)) in Hplan.
    rewrite length_map in Hplan. rewrite Hplan. cbn [length].
    rewrite conditional_orders_length. lia. }
  assert (submissions e st st' = (p, Ok v) :: rest) as HS.
  { unfold submissions. rewrite HX.
    destruct Hq as [(_ & -> & _) | (_ & ci & rci & -> & Hcm & _)];
      cbn [app]; [|rewrite (filter_get_cons _ _ _ Hcm)];
      apply filter_posts; intros y Hy; rewrite Forall_forall in Hto;
      apply (Hto _ Hy). }
  splits.
  - exact Hall.
  - assert (length query = flag (call_amount k)) as Hql.
    { unfold flag.
      destruct Hq as [(-> & -> & _) | (-> & ci & rci & -> & _)]; reflexivity. }
    rewrite HX, length_app, Hlen, Hql. lia.
  - exact Hu.
  - exists p, o2, rest. split; [exact HS|]. rewrite HS. exact Hplan.
Qed.

Lemma returned_order_call_is_complete_witness :
  let st' := snd (create_order example_env example_client buy_with_stop_loss
                    initial_state) in
  length (exchanges example_env initial_state st') = 2 /\ uuid_calls st' = 2.
Proof.
  intros st'.
  assert (exists v, create_order example_env example_client buy_with_stop_loss
                      initial_state = (Ok v, st')) as [v Hv].
  { eexists. vm_compute. reflexivity. }
  destruct (returned_order_call_is_complete example_env example_client
              buy_with_stop_loss initial_state st' v Hv)
    as (_ & Hlen & Hu & _).
  split; [exact Hlen | exact Hu].
Defined.

(** ** The exceptions of an order call *)

Lemma rejected_is_validation (e : env) (c : Client) (k : order_call)
    (st : state) (x : exn) :
  first_error (call_checks k) = Some x -> is_validation_exn x = true.
Proof.
  intros H. pose proof (create_order_checked e c k st) as Hc. rewrite H in Hc.
  destruct (create_order_cases e c k st) as [(_ & msg & E) | (Hno & _)].
  - rewrite E in Hc. injection Hc as <-. reflexivity.
  - apply first_error_existsb in Hno. congruence.
Qed.

Lemma stopped_at_last e st st' x :
  stopped_at (exchanges e st st') x ->
  exists j rq,
    issued st st' !! j = Some rq /\ S j = length (issued st st') /\
    _handle_response (http e (length (sent st) + j) rq) = Raise x.
Proof.
  intros (init & rq & HX & _).
  assert (exchanges e st st' !! length init = Some (rq, Raise x)) as Hj.
  { rewrite HX. apply list_lookup_middle. reflexivity. }
  apply exchange_result in Hj as [Hj Hr].
  exists (length init), rq. split; [exact Hj|]. split; [|symmetry; exact Hr].
  apply (f_equal (@length _)) in HX. unfold exchanges in HX.
  rewrite length_imap, length_app in HX. simpl in HX. lia.
Qed.

(** X8: what an exception of an order call tells.  A validation error is
    that of the first failing check, and nothing was sent.  An API error
    carries the response to the last request issued, a request error its
    text.  A [ZeroDivisionError] or [AttributeError] comes from the size
    computation: the contract query was answered and is the only request.  A
    [TypeError] comes after a request at least.  A [KeyError] is never
    raised. *)
Theorem order_call_exceptions (e : env) (c : Client) (k : order_call)
    (st st' : state) (x : exn) :
  create_order e c k st = (Raise x, st') ->
  match x with
  | OrderParameterValidationException _ =>
      first_error (call_checks k) = Some x /\ st' = st
  | KucoinAPIException resp =>
      exists j rq,
        issued st st' !! j = Some rq /\ S j = length (issued st st') /\
        resp = http e (length (sent st) + j) rq
  | KucoinRequestException msg =>
      exists j rq,
        issued st st' !! j = Some rq /\ S j = length (issued st st') /\
        msg = "Invalid Response: " ++ text (http e (length (sent st) + j) rq)
  | TypeError => exchanges e st st' <> []
  | ZeroDivisionError | AttributeError =>
      truthy (call_amount k) = true /\
      exists ci info,
        exchanges e st st' = [(ci, Ok info)] /\ req_method ci = "GET"
  | KeyError => False
  end.
Proof.
  intros H.
  destruct (run_ending e c k st (Raise x) st' H)
    as [(x' & Hfirst & [= <-] & ->)
       | (_ & [(x' & Hstop & [= <-])
              | [(ci & info & x' & Ha & HX & Hcm & Hsz & [= <-])
                | (query & o2 & p & v & rest & _ & _ & _ & _ & _ & ? & _)]])];
    [| | |discriminate].
  - pose proof (rejected_is_validation e c k st x Hfirst) as Hx.
    destruct x; try discriminate. split; [exact Hfirst | reflexivity].
  - assert (exchanges e st st' <> []) as Hne.
    { destruct Hstop as (init & rq & -> & _). intros Hnil.
      apply app_eq_nil in Hnil as [_ ?]. discriminate. }
    destruct (stopped_at_last e st st' x Hstop) as (j & rq & Hj & Hlen & Hr).
    apply handle_response_raises in Hr as [-> | [-> | ->]].
    + exists j, rq. splits; reflexivity || assumption.
    + exists j, rq. splits; reflexivity || assumption.
    + exact Hne.
  - apply sized_order_raises in Hsz as [-> | [-> | ->]].
    + split; [exact Ha|]. exists ci, info. split; assumption.
    + rewrite HX. discriminate.
    + split; [exact Ha|]. exists ci, info. split; assumption.
Qed.

Lemma order_call_exceptions_witness :
  exists rq,
    issued initial_state
      (snd (create_order failing_env example_client buy_with_stop_loss
              initial_state)) !! 0 = Some rq /\
    gateway_error = http failing_env 0 rq.
Proof.
  destruct (order_call_exceptions failing_env example_client buy_with_stop_loss
              initial_state
              (snd (create_order failing_env example_client buy_with_stop_loss
                      initial_state))
              (KucoinAPIException gateway_error))
    as (j & rq & Hj & Hlen & Hresp).
  - vm_compute. reflexivity.
  - exists rq. destruct j as [|j].
    + split; [exact Hj | exact Hresp].
    + exfalso. vm_compute in Hlen. lia.
Defined.

(** ** When the size cannot be computed *)

(** X9: when the size cannot be computed from the answer to the contract
    query, the call raises and no order is posted: an [AttributeError] when
    the answer is not an object, a [TypeError] when its [multiplier] is
    missing or not a number (or the amount is not one), a
    [ZeroDivisionError] when the multiplier is zero. *)
Theorem failed_size_computation_posts_nothing (e : env) (c : Client)
    (k : order_call) (st st' : state) (r : result pyval) (ci : request)
    (info : pyval) (x : exn) :
  create_order e c k st = (r, st') ->
  exchanges e st st' !! 0 = Some (ci, Ok info) ->
  req_method ci = "GET" ->
  sized_order (call_order k) (call_amount k) info = Raise x ->
  r = Raise x /\
  exchanges e st st' = [(ci, Ok info)] /\
  submissions e st st' = [] /\
  match info with
  | PDict d =>
      match as_number (call_amount k), as_number (dict_get d "multiplier") with
      | Some _, Some m => x = ZeroDivisionError /\ (m == 0)%Q
      | _, _ => x = TypeError
      end
  | _ => x = AttributeError
  end.
Proof.
  intros H H0 Hcm Hsz.
  pose proof (run_outcome e c k st r st' H) as Hrun. cbv zeta in Hrun.
  destruct (first_error (call_checks k)) as [x'|].
  { destruct Hrun as [_ ->]. rewrite exchanges_same in H0. discriminate. }
  destruct Hrun as (_ & query & orders & prepared & HX & Hq & Hp).
  destruct Hq as [(_ & -> & ->) | (_ & ci' & rci & -> & _ & _ & _ & ->)].
  - (* no query: the first request is an order *)
    exfalso. cbn [app] in HX. destruct Hp as (Hto & _).
    rewrite HX in H0. apply list_elem_of_lookup_2 in H0.
    rewrite Forall_forall in Hto. destruct (Hto _ H0) as [Hpost _].
    cbn [fst] in Hpost. congruence.
  - rewrite HX in H0. injection H0 as -> ->. cbn [rbind] in Hp.
    rewrite (sized_order_any _ (order_with_oid e st (call_order k)) _ _ _ Hsz) in Hp.
    destruct Hp as [-> ->]. rewrite app_nil_r in HX.
    splits.
    + reflexivity.
    + exact HX.
    + unfold submissions. rewrite HX, (filter_get_cons _ _ _ Hcm). reflexivity.
    + exact (sized_order_raises_which _ _ _ _ Hsz).
Qed.

Lemma failed_size_computation_posts_nothing_witness :
  let run := create_order no_multiplier_env example_client buy_amount_2
               initial_state in
  fst run = Raise TypeError /\
  submissions no_multiplier_env initial_state (snd run) = [].
Proof.
  intros run.
  assert (exists ci, exchanges no_multiplier_env initial_state (snd run) !! 0
                     = Some (ci, Ok (PDict ∅)) /\ req_method ci = "GET")
    as (ci & H0 & Hcm).
  { vm_compute. eexists. split; reflexivity. }
  destruct (failed_size_computation_posts_nothing no_multiplier_env
              example_client buy_amount_2 initial_state (snd run) (fst run)
              ci (PDict ∅) TypeError)
    as (Hr & _ & Hs & _).
  - apply surjective_pairing.
  - exact H0.
  - exact Hcm.
  - reflexivity.
  - split; [exact Hr | exact Hs].
Defined.

(** ** A body that is not a JSON object *)

(** X10: a response with a status starting with 2 whose body is JSON but
    not an object never raises an API or request error: the body is returned
    as it is when it is an array with none of the strings "code", "success",
    "data" among its elements, or a string in which none of them occurs, and
    a [TypeError] is raised in every other case. *)
Theorem non_object_body_is_returned_or_a_TypeError (r : response)
    (body : pyval) :
  String.prefix "2" (str_int (status_code r)) = true ->
  json r = Some body ->
  (forall d, body <> PDict d) ->
  (_handle_response r = Ok body \/ _handle_response r = Raise TypeError) /\
  (_handle_response r = Ok body <->
     forall key, key ∈ ["code"; "success"; "data"] ->
                 py_contains key body = Ok false).
Proof.
  intros H2 Hj Hbody. unfold _handle_response. rewrite H2, Hj. cbn [negb].
  assert (forall P : string -> Prop,
            (forall key, key ∈ ["code"; "success"; "data"] -> P key)
            <-> P "code" /\ P "success" /\ P "data") as Hkeys.
  { intros P. split.
    - intros HP. splits; apply HP; set_unfold; tauto.
    - intros (? & ? & ?) key Hk.
      repeat (apply elem_of_cons in Hk as [-> | Hk]; [assumption|]).
      inversion Hk. }
  rewrite Hkeys.
  destruct body as [| | | s | l | d]; cbn [py_contains py_getitem rbind];
    try (split; [right; reflexivity|];
         split; [discriminate | intros (? & _); discriminate]).
  - destruct (substring_of "code" s); cbn [rbind];
      [split; [auto|]; split; [discriminate | intros (? & _); discriminate]|].
    destruct (substring_of "success" s); cbn [rbind];
      [split; [auto|]; split; [discriminate | intros (_ & ? & _); discriminate]|].
    destruct (substring_of "data" s); cbn [rbind];
      [split; [auto|]; split; [discriminate | intros (_ & _ & ?); discriminate]|].
    split; [auto|]. split; auto.
  - destruct (existsb _ l); cbn [rbind];
      [split; [auto|]; split; [discriminate | intros (? & _); discriminate]|].
    destruct (existsb _ l); cbn [rbind];
      [split; [auto|]; split; [discriminate | intros (_ & ? & _); discriminate]|].
    destruct (existsb _ l); cbn [rbind];
      [split; [auto|]; split; [discriminate | intros (_ & _ & ?); discriminate]|].
    split; [auto|]. split; auto.
  - destruct (Hbody d eq_refl).
Qed.

(** [200] with the body [["XBTUSDTM", "ETHUSDTM"]] *)
Lemma non_object_body_is_returned_or_a_TypeError_witness :
  _handle_response (http_200 (PList [PStr "XBTUSDTM"; PStr "ETHUSDTM"]))
  = Ok (PList [PStr "XBTUSDTM"; PStr "ETHUSDTM"]).
Proof.
  apply (non_object_body_is_returned_or_a_TypeError
           (http_200 (PList [PStr "XBTUSDTM"; PStr "ETHUSDTM"]))).
  - reflexivity.
  - reflexivity.
  - discriminate.
  - intros key Hk.
    repeat (apply elem_of_cons in Hk as [-> | Hk]; [reflexivity|]).
    inversion Hk.
Defined.

(** ** The computed size and the amount *)

Section SizeBounds.
Local Open Scope Q_scope.



End SizeBounds.

(** ** What a limit order does not send *)

Lemma limit_checks_passed e c a st :
  existsb is_Raise (limit_checks a) = false ->
  create_limit_order e c a st
  = _create_order e c (limit_order a) (Limit.amount a)
      (Limit.stop_loss_price a) (Limit.take_profit_price a) st.
Proof.
  unfold limit_checks, create_limit_order. cbn [existsb].
  destruct (validate_time_in_force _) as [[]|]; [|discriminate].
  destruct (validate_post_only _ _) as [[]|]; [|discriminate].
  destruct (validate_hidden_and_iceberg _ _) as [[]|]; [|discriminate].
  destruct (validate_iceberg _ _) as [[]|]; [|discriminate].
  reflexivity.
Qed.

(** X12: [time_in_force] and [post_only] are checked and then dropped.
    Two limit order calls that pass the checks of [create_limit_order] and
    differ in these two arguments only run identically: same requests, same
    payloads, same result. *)
Theorem time_in_force_and_post_only_are_not_sent (e : env) (c : Client)
    (a : Limit.args) (tif po : pyval) (st : state) :
  let a' := Limit.with_time_in_force tif (Limit.with_post_only po a) in
  existsb is_Raise (limit_checks a) = false ->
  existsb is_Raise (limit_checks a') = false ->
  create_limit_order e c a' st = create_limit_order e c a st.
Proof.
  intros a' Ha Ha'.
  rewrite (limit_checks_passed e c a st Ha), (limit_checks_passed e c a' st Ha').
  reflexivity.
Qed.

(** [create_limit_order("buy", "100", "XBTUSDTM", "5", size=1)] and the same
    call with [time_in_force="IOC", post_only="GTC"]. *)
Lemma time_in_force_and_post_only_are_not_sent_witness :
  create_limit_order example_env example_client
    (Limit.with_time_in_force (PStr "IOC")
       (Limit.with_post_only (PStr "GTC")
          (Limit.with_size (PNum 1) plain_limit_order))) initial_state
  = create_limit_order example_env example_client
      (Limit.with_size (PNum 1) plain_limit_order) initial_state.
Proof.
  apply (time_in_force_and_post_only_are_not_sent example_env example_client
           (Limit.with_size (PNum 1) plain_limit_order) (PStr "IOC") (PStr "GTC")
           initial_state); reflexivity.
Defined.

(** ** Validation errors come from the checks only *)

Lemma validation_error_iff_check_fails e c k st :
  is_validation_error (fst (create_order e c k st)) = false <->
  first_error (call_checks k) = None.
Proof.
  destruct (create_order e c k st) as [r st'] eqn:H. cbn [fst].
  destruct (run_ending e c k st r st' H)
    as [(x & Hfirst & -> & _)
       | (Hnone & [(x & Hstop & ->)
                  | [(ci & info & x & _ & _ & _ & Hsz & ->)
                    | (query & o2 & p & v & rest & _ & _ & _ & _ & _ & -> & _)]])].
  - pose proof (rejected_is_validation e c k st x Hfirst) as Hx.
    destruct x; try discriminate. cbn. rewrite Hfirst. split; discriminate.
  - split; [intros _; exact Hnone|]. intros _.
    destruct (stopped_at_last e st st' x Hstop) as (j & rq & _ & _ & Hr).
    apply handle_response_raises in Hr as [-> | [-> | ->]]; reflexivity.
  - split; [intros _; exact Hnone|]. intros _.
    apply sized_order_raises in Hsz as [-> | [-> | ->]]; reflexivity.
  - split; [intros _; exact Hnone | reflexivity].
Qed.

(** ** The checks of a market order, in terms of its arguments *)

Lemma truthy_guarded v : truthy (guarded v) = truthy v.
Proof. unfold guarded. destruct (truthy v) eqn:E; [exact E | reflexivity]. Qed.

Lemma py_in_strs_guarded v l :
  truthy v = true -> py_in_strs (guarded v) l = py_in_strs v l.
Proof. unfold guarded. intros ->. reflexivity. Qed.

Lemma dict_get_set_if k v (o : gmap string pyval) :
  o !! k = None -> dict_get (set_if k v o) k = guarded v.
Proof.
  intros Ho. unfold dict_get, set_if, guarded. destruct (truthy v).
  - rewrite lookup_insert_eq. reflexivity.
  - rewrite Ho. reflexivity.
Qed.

Lemma dict_get_set_if_ne k k' v (o : gmap string pyval) :
  k <> k' -> dict_get (set_if k v o) k' = dict_get o k'.
Proof. intros Hk. unfold dict_get. rewrite lookup_set_if_ne by exact Hk. reflexivity. Qed.

Ltac market_get :=
  unfold market_order;
  repeat rewrite dict_get_set_if_ne by discriminate;
  rewrite dict_get_set_if;
  [ reflexivity
  | repeat first [ rewrite lookup_set_if_ne by discriminate
                 | rewrite lookup_insert_ne by discriminate ];
    apply lookup_empty ].

Lemma market_order_get_stop a :
  dict_get (market_order a) "stop" = guarded (Market.stop a).
Proof. market_get. Qed.

Lemma market_order_get_stop_price a :
  dict_get (market_order a) "stopPrice" = guarded (Market.stop_price a).
Proof. market_get. Qed.

Lemma market_order_get_stop_price_type a :
  dict_get (market_order a) "stopPriceType" = guarded (Market.stop_price_type a).
Proof. market_get. Qed.

Lemma py_in_strs_2 v s1 s2 :
  py_in_strs v [s1; s2] = true <-> v = PStr s1 \/ v = PStr s2.
Proof.
  unfold py_in_strs. cbn [existsb]. rewrite orb_false_r, orb_true_iff.
  destruct v as [| | |s| |]; cbn [py_eq_str];
    try (split; [intros [?|?]; discriminate | intros [?|?]; discriminate]).
  rewrite !String.eqb_eq.
  split; (intros [E | E]; [left | right]); congruence.
Qed.

Lemma py_in_strs_3 v s1 s2 s3 :
  py_in_strs v [s1; s2; s3] = true <-> v = PStr s1 \/ v = PStr s2 \/ v = PStr s3.
Proof.
  unfold py_in_strs. cbn [existsb]. rewrite orb_false_r, !orb_true_iff.
  destruct v as [| | |s| |]; cbn [py_eq_str];
    try (split; [intros [?|[?|?]]; discriminate | intros [?|[?|?]]; discriminate]).
  rewrite !String.eqb_eq.
  split; (intros [E | [E | E]]; [left | right; left | right; right]); congruence.
Qed.

Lemma validate_side_passes v :
  is_Raise (validate_side v) = false <-> v = PStr "buy" \/ v = PStr "sell".
Proof.
  rewrite <- (py_in_strs_2 v "buy" "sell"). unfold validate_side, VALID_SIDE.
  destruct (py_in_strs v ["buy"; "sell"]); cbn; split; congruence.
Qed.

Lemma validate_stop_passes stop sp spt :
  is_Raise (validate_stop (guarded stop) (guarded sp) (guarded spt)) = false <->
  (truthy stop = true ->
     (stop = PStr "down" \/ stop = PStr "up") /\
     (spt = PStr "TP" \/ spt = PStr "MP" \/ spt = PStr "IP") /\
     truthy sp = true).
Proof.
  rewrite <- (py_in_strs_2 stop "down" "up"), <- (py_in_strs_3 spt "TP" "MP" "IP").
  unfold validate_stop, VALID_STOP, VALID_STOP_PRICE_TYPE.
  rewrite !truthy_guarded.
  destruct (truthy stop) eqn:Es; cbn [negb]; [|split; [discriminate | reflexivity]].
  rewrite (py_in_strs_guarded stop _ Es).
  destruct (py_in_strs stop ["down"; "up"]); cbn [negb];
    [|split; [discriminate | intros H; destruct (H eq_refl) as (? & _); discriminate]].
  destruct (truthy spt) eqn:Et.
  - rewrite (py_in_strs_guarded spt _ Et).
    destruct (py_in_strs spt ["TP"; "MP"; "IP"]); cbn [negb];
      [|split; [discriminate
               | intros H; destruct (H eq_refl) as (_ & ? & _); discriminate]].
    destruct (truthy sp); cbn [negb is_Raise].
    + split; [intros _ _; auto | reflexivity].
    + split; [discriminate
             | intros H; destruct (H eq_refl) as (_ & _ & ?); discriminate].
  - assert (py_in_strs spt ["TP"; "MP"; "IP"] = false) as Hno.
    { destruct spt as [| | |s| |]; try reflexivity.
      destruct s; [reflexivity | discriminate]. }
    unfold guarded at 1. rewrite Et, Hno. cbn.
    split; [discriminate
           | intros H; destruct (H eq_refl) as (_ & ? & _); discriminate].
Qed.

Lemma validate_stop_loss_take_profit_passes stop sl tp :
  is_Raise (validate_stop_loss_take_profit (guarded stop) sl tp) = false <->
  (truthy stop = true -> truthy sl = false /\ truthy tp = false).
Proof.
  unfold validate_stop_loss_take_profit. rewrite truthy_guarded.
  destruct (truthy stop), (truthy sl), (truthy tp); cbn;
    (split; [try discriminate; auto | intros H; try reflexivity;
             destruct (H eq_refl); discriminate]).
Qed.

Lemma validate_amount_size_passes amount size :
  is_Raise (validate_amount_size amount size) = false <->
  (truthy amount = true -> truthy size = false).
Proof.
  unfold validate_amount_size.
  destruct (truthy amount), (truthy size); cbn;
    (split; [try discriminate; auto | intros H; try reflexivity;
             discriminate (H eq_refl)]).
Qed.

(** X13: a market order gets past its checks (the call raises no
    validation error, whatever the exchange answers) exactly when the side,
    in lower case, is "buy" or "sell"; a true [stop] is "down" or "up" and
    comes with a [stop_price_type] among "TP", "MP", "IP" and a true
    [stop_price], and without stop-loss and take-profit price; and [amount]
    and [size] are not both true. *)
Theorem market_order_passes_the_checks_iff (e : env) (c : Client)
    (a : Market.args) (st : state) :
  is_validation_error (fst (create_market_order e c a st)) = false <->
  (lower (Market.side a) = "buy" \/ lower (Market.side a) = "sell") /\
  (truthy (Market.stop a) = true ->
     (Market.stop a = PStr "down" \/ Market.stop a = PStr "up") /\
     (Market.stop_price_type a = PStr "TP" \/
      Market.stop_price_type a = PStr "MP" \/
      Market.stop_price_type a = PStr "IP") /\
     truthy (Market.stop_price a) = true) /\
  (truthy (Market.stop a) = true ->
     truthy (Market.stop_loss_price a) = false /\
     truthy (Market.take_profit_price a) = false) /\
  (truthy (Market.amount a) = true -> truthy (Market.size a) = false).
Proof.
  rewrite (validation_error_iff_check_fails e c (MarketOrder a) st).
  rewrite first_error_existsb. cbn [call_checks]. unfold order_checks.
  assert (dict_get (market_order a) "side" = PStr (lower (Market.side a))) as ->
    by (unfold dict_get; rewrite market_order_side; reflexivity).
  assert (dict_get (market_order a) "size" = Market.size a) as ->
    by (unfold dict_get; rewrite market_order_size; reflexivity).
  rewrite market_order_get_stop, market_order_get_stop_price,
    market_order_get_stop_price_type.
  cbn [existsb]. rewrite orb_false_r, !orb_false_iff.
  rewrite validate_side_passes, validate_stop_passes,
    validate_stop_loss_take_profit_passes, validate_amount_size_passes.
  split.
  - intros ([E | E] & ? & ? & ?); (split; [|auto]); [left | right]; congruence.
  - intros ([E | E] & ? & ? & ?); (split; [|auto]); [left | right]; congruence.
Qed.

Lemma market_order_passes_the_checks_iff_witness :
  is_validation_error
    (fst (create_market_order example_env example_client stop_without_price
            initial_state)) = true.
Proof.
  destruct (is_validation_error _) eqn:E; [reflexivity|].
  apply (market_order_passes_the_checks_iff example_env example_client
           stop_without_price initial_state) in E
    as (_ & Hstop & _).
  destruct (Hstop eq_refl) as (_ & _ & ?). discriminate.
Defined.

(** ** The payload of a market order *)






(** ** Client order ids *)

Lemma dict_get_insert_ne k k' v (o : gmap string pyval) :
  k <> k' -> dict_get (<[k := v]> o) k' = dict_get o k'.
Proof. intros Hk. unfold dict_get. rewrite lookup_insert_ne by exact Hk. reflexivity. Qed.

Lemma call_order_client_oid k :
  dict_get (call_order k) "clientOid" = guarded (call_client_oid k).
Proof.
  destruct k as [a|a]; cbn [call_order call_client_oid];
    unfold limit_order, market_order;
    try destruct (truthy (Limit.iceberg a));
    repeat first [ rewrite dict_get_set_if_ne by discriminate
                 | rewrite dict_get_insert_ne by discriminate ];
    (rewrite dict_get_set_if;
     [ reflexivity
     | repeat rewrite lookup_insert_ne by discriminate; apply lookup_empty ]).
Qed.

Lemma is_None_guarded v : is_None (guarded v) = negb (truthy v).
Proof. unfold guarded. destruct (truthy v) eqn:E; [|reflexivity]. destruct v; try reflexivity; discriminate. Qed.

Lemma oid_draws_call k :
  oid_draws (call_order k) = if truthy (call_client_oid k) then 0 else 1.
Proof.
  unfold oid_draws. rewrite call_order_client_oid, is_None_guarded.
  destruct (truthy (call_client_oid k)); reflexivity.
Qed.

Lemma order_with_oid_client_oid e st k :
  order_with_oid e st (call_order k) !! "clientOid"
  = Some (if truthy (call_client_oid k) then call_client_oid k
          else PStr (uuid4_hex e (uuid_calls st))).
Proof.
  unfold order_with_oid.
  pose proof (call_order_client_oid k) as Hget.
  rewrite Hget, is_None_guarded.
  destruct (truthy (call_client_oid k)) eqn:E; cbn [negb].
  - unfold dict_get, guarded in Hget. rewrite E in Hget.
    destruct (call_order k !! "clientOid") as [v|]; cbn in Hget.
    + congruence.
    + rewrite <- Hget in E. discriminate.
  - apply lookup_insert_eq.
Qed.

(** The order [o2] that is posted first keeps the [clientOid] of the
    prepared order. *)
Lemma queried_client_oid e amount symbol o1 query o2 :
  queried e amount symbol o1 query (Ok o2) ->
  o2 !! "clientOid" = o1 !! "clientOid".
Proof.
  intros [(_ & _ & [= ->]) | (_ & ci & rci & _ & _ & _ & _ & E)]; [reflexivity|].
  destruct rci as [info|]; [|discriminate]. cbn [rbind] in E.
  unfold sized_order in E.
  destruct (py_get info "multiplier") as [m|]; [|discriminate]. cbn [rbind] in E.
  destruct (amount_to_size amount m) as [sz|]; [|discriminate]. cbn [rbind] in E.
  injection E as ->. apply lookup_insert_ne. discriminate.
Qed.

Lemma posts_after_query e st st' amount symbol o1 query prepared orders :
  exchanges e st st' = (query ++ orders)%list ->
  queried e amount symbol o1 query prepared ->
  Forall to_orders orders ->
  submissions e st st' = orders.
Proof.
  intros HX Hq Hto. unfold submissions. rewrite HX.
  assert (List.filter is_post orders = orders) as Hf.
  { apply filter_posts. intros y Hy. rewrite Forall_forall in Hto.
    apply (Hto _ Hy). }
  destruct Hq as [(_ & -> & _) | (_ & ci & rci & -> & Hcm & _)]; cbn [app].
  - exact Hf.
  - rewrite (filter_get_cons _ _ _ Hcm). exact Hf.
Qed.

(** The orders of a run and the plan they follow. *)
Lemma run_orders e c k st r st' :
  create_order e c k st = (r, st') ->
  let side := PStr (lower (call_side k)) in
  let n := uuid_calls st + oid_draws (call_order k) in
  submissions e st st' = [] \/
  exists o2,
    o2 !! "clientOid" = order_with_oid e st (call_order k) !! "clientOid" /\
    map (fun x => req_json (fst x)) (submissions e st st')
      `prefix_of` (PDict o2 :: conditional_orders e n o2 side
                                 (SIDE_MAPPING_get side)
                                 (call_stop_loss_price k)
                                 (call_take_profit_price k)).
Proof.
  intros H side n.
  pose proof (run_outcome e c k st r st' H) as Hrun. cbv zeta in Hrun.
  destruct (first_error (call_checks k)) as [x|].
  { left. destruct Hrun as [_ ->]. apply submissions_same. }
  destruct Hrun as (_ & query & orders & prepared & HX & Hq & Hp).
  destruct prepared as [o2|x].
  - destruct Hp as (Hto & Hpre & _). right. exists o2.
    rewrite (posts_after_query _ _ _ _ _ _ _ _ _ HX Hq Hto).
    split; [exact (queried_client_oid _ _ _ _ _ _ Hq) | exact Hpre].
  - destruct Hp as [-> _]. left.
    apply (posts_after_query _ _ _ _ _ _ _ _ _ HX Hq). constructor.
Qed.



Lemma client_oid_of_json x :
  client_oid_of x = json_client_oid (req_json (fst x)).
Proof.
  unfold client_oid_of, payload, json_client_oid.
  destruct (req_json (fst x)); try apply lookup_empty. reflexivity.
Qed.

Lemma conditional_client_oids e n o2 side inverse sl tp :
  map json_client_oid (conditional_orders e n o2 side inverse sl tp)
  = ((if truthy sl then [Some (PStr (uuid4_hex e n))] else []) ++
     (if truthy tp then [Some (PStr (uuid4_hex e (n + flag sl)))] else []))%list.
Proof.
  unfold conditional_orders. rewrite map_app.
  destruct (truthy sl); destruct (truthy tp); cbn [map json_client_oid app];
    repeat f_equal; conditional_lookup.
Qed.

Ltac fresh_oid :=
  repeat (apply NoDup_cons; split;
          [ intros Hin;
            repeat (apply elem_of_cons in Hin as [Hin | Hin];
                    [ injection Hin as Hin; try injection Hin as Hin
                    |]);
            try (inversion Hin; fail)
          |]);
  try apply NoDup_nil_2.

(** X16: the orders of one call have pairwise different client order ids,
    provided the uuid generator does not repeat itself over the three draws
    a call can make and the caller's own id is none of the generated ones. *)
Theorem client_oids_are_distinct (e : env) (c : Client) (k : order_call)
    (st st' : state) (r : result pyval) :
  create_order e c k st = (r, st') ->
  (forall i j, uuid_calls st <= i -> i < j -> j < uuid_calls st + 3 ->
     uuid4_hex e i <> uuid4_hex e j) ->
  (forall i, uuid_calls st <= i -> i < uuid_calls st + 2 ->
     call_client_oid k <> PStr (uuid4_hex e i)) ->
  NoDup (map client_oid_of (submissions e st st')).
Proof.
  intros H Huuid Hown.
  destruct (run_orders e c k st r st' H) as [-> | (o2 & Hoid & [rem Hpre])];
    [apply NoDup_nil_2|].
  assert (map client_oid_of (submissions e st st')
          = map json_client_oid
              (map (fun x => req_json (fst x)) (submissions e st st'))) as ->.
  { rewrite map_map. apply map_ext. intros x. apply client_oid_of_json. }
  apply (f_equal (map json_client_oid)) in Hpre.
  rewrite map_app in Hpre.
  apply (NoDup_app (map json_client_oid
                      (map (fun x => req_json (fst x)) (submissions e st st')))
                   (map json_client_oid rem)).
  rewrite <- Hpre. cbn [map json_client_oid].
  rewrite conditional_client_oids, Hoid, order_with_oid_client_oid, oid_draws_call.
  set (u := uuid_calls st) in *.
  unfold flag.
  destruct (truthy (call_client_oid k)) eqn:Eo;
    destruct (truthy (call_stop_loss_price k));
    destruct (truthy (call_take_profit_price k)); cbn [app];
    fresh_oid;
    match goal with
    | Hin : call_client_oid _ = PStr (uuid4_hex _ ?i) |- _ =>
        apply (Hown i); [lia | lia | exact Hin]
    | Hin : uuid4_hex _ ?i = uuid4_hex _ ?j |- _ =>
        first [ apply (Huuid i j); [lia | lia | lia | exact Hin]
              | apply (Huuid j i); [lia | lia | lia | symmetry; exact Hin] ]
    end.
Qed.

Lemma client_oids_are_distinct_witness :
  NoDup (map client_oid_of
           (submissions example_env initial_state
              (snd (create_order example_env example_client buy_with_stop_loss
                      initial_state)))).
Proof.
  apply (client_oids_are_distinct example_env example_client buy_with_stop_loss
           initial_state _
           (fst (create_order example_env example_client buy_with_stop_loss
                   initial_state))).
  - apply surjective_pairing.
  - intros i j _ Hij Hj.
    destruct i as [|[|i]]; destruct j as [|[|[|j]]]; try (simpl in *; lia);
      vm_compute; discriminate.
  - intros i _ _. discriminate.
Defined.

(** ** The checks of a limit order, in terms of its arguments *)

Ltac limit_get :=
  unfold limit_order;
  destruct (truthy (Limit.iceberg _));
  repeat first [ rewrite dict_get_set_if_ne by discriminate
               | rewrite dict_get_insert_ne by discriminate ];
  (rewrite dict_get_set_if;
   [ reflexivity
   | repeat first [ rewrite lookup_set_if_ne by discriminate
                  | rewrite lookup_insert_ne by discriminate ];
     apply lookup_empty ]).

Lemma limit_order_get_stop a :
  dict_get (limit_order a) "stop" = guarded (Limit.stop a).
Proof. limit_get. Qed.

Lemma limit_order_get_stop_price a :
  dict_get (limit_order a) "stopPrice" = guarded (Limit.stop_price a).
Proof. limit_get. Qed.

Lemma limit_order_get_stop_price_type a :
  dict_get (limit_order a) "stopPriceType" = guarded (Limit.stop_price_type a).
Proof. limit_get. Qed.

Lemma validate_time_in_force_passes tif :
  is_Raise (validate_time_in_force tif) = false <->
  (truthy tif = true -> tif = PStr "GTC" \/ tif = PStr "IOC").
Proof.
  rewrite <- (py_in_strs_2 tif "GTC" "IOC").
  unfold validate_time_in_force, VALID_TIME_IN_FORCE.
  destruct (truthy tif); cbn [negb]; [|split; [discriminate | reflexivity]].
  destruct (py_in_strs tif ["GTC"; "IOC"]); cbn.
  - split; [auto | reflexivity].
  - split; [discriminate | intros H; discriminate (H eq_refl)].
Qed.

(** [validate_post_only first second], whatever is passed: it raises when
    [second] is true and [first] is not ["GTC"]. *)
Lemma validate_post_only_passes first second :
  is_Raise (validate_post_only first second) = false <->
  (truthy second = true -> first = PStr "GTC").
Proof.
  unfold validate_post_only. cbn [nth VALID_TIME_IN_FORCE].
  destruct (truthy second); cbn [andb]; [|split; [discriminate | reflexivity]].
  destruct first as [| | |s| |]; cbn [py_eq_str negb is_Raise];
    try (split; [discriminate | intros H; discriminate (H eq_refl)]).
  destruct (String.eqb s "GTC") eqn:E; cbn.
  - apply String.eqb_eq in E as ->. split; [auto | reflexivity].
  - split; [discriminate|]. intros H. injection (H eq_refl) as ->.
    discriminate.
Qed.

Lemma validate_hidden_and_iceberg_passes hidden iceberg :
  is_Raise (validate_hidden_and_iceberg hidden iceberg) = false <->
  (truthy hidden = true -> truthy iceberg = false).
Proof.
  unfold validate_hidden_and_iceberg.
  destruct (truthy hidden), (truthy iceberg); cbn;
    (split; [try discriminate; auto | intros H; try reflexivity;
             discriminate (H eq_refl)]).
Qed.

Lemma validate_iceberg_passes iceberg visible_size :
  is_Raise (validate_iceberg iceberg visible_size) = false <->
  (truthy iceberg = true -> truthy visible_size = true).
Proof.
  unfold validate_iceberg.
  destruct (truthy iceberg), (truthy visible_size); cbn;
    (split; [try discriminate; auto | intros H; try reflexivity;
             discriminate (H eq_refl)]).
Qed.

(** X17: a limit order gets past its checks exactly when its arguments
    satisfy the conditions below, which are those of a market order and,
    before them, the four of [create_limit_order] as it calls them:
    [time_in_force], if true, is "GTC" or "IOC"; [post_only] is "GTC"
    whenever [time_in_force] is true (the test [validate_post_only] makes on
    the arguments in the order it receives them); [hidden] and [iceberg] are
    not both true; [iceberg] comes with a [visible_size]. *)
Theorem limit_order_passes_the_checks_iff (e : env) (c : Client)
    (a : Limit.args) (st : state) :
  is_validation_error (fst (create_limit_order e c a st)) = false <->
  ((truthy (Limit.time_in_force a) = true ->
      Limit.time_in_force a = PStr "GTC" \/ Limit.time_in_force a = PStr "IOC") /\
   (truthy (Limit.time_in_force a) = true -> Limit.post_only a = PStr "GTC") /\
   (truthy (Limit.hidden a) = true -> truthy (Limit.iceberg a) = false) /\
   (truthy (Limit.iceberg a) = true -> truthy (Limit.visible_size a) = true)) /\
  (lower (Limit.side a) = "buy" \/ lower (Limit.side a) = "sell") /\
  (truthy (Limit.stop a) = true ->
     (Limit.stop a = PStr "down" \/ Limit.stop a = PStr "up") /\
     (Limit.stop_price_type a = PStr "TP" \/
      Limit.stop_price_type a = PStr "MP" \/
      Limit.stop_price_type a = PStr "IP") /\
     truthy (Limit.stop_price a) = true) /\
  (truthy (Limit.stop a) = true ->
     truthy (Limit.stop_loss_price a) = false /\
     truthy (Limit.take_profit_price a) = false) /\
  (truthy (Limit.amount a) = true -> truthy (Limit.size a) = false).
Proof.
  rewrite (validation_error_iff_check_fails e c (LimitOrder a) st).
  rewrite first_error_existsb. cbn [call_checks].
  rewrite existsb_app, orb_false_iff. unfold limit_checks, order_checks.
  assert (dict_get (limit_order a) "side" = PStr (lower (Limit.side a))) as ->
    by (unfold dict_get; rewrite limit_order_side; reflexivity).
  assert (dict_get (limit_order a) "size" = Limit.size a) as ->
    by (unfold dict_get; rewrite limit_order_size; reflexivity).
  rewrite limit_order_get_stop, limit_order_get_stop_price,
    limit_order_get_stop_price_type.
  cbn [existsb]. rewrite !orb_false_r, !orb_false_iff.
  rewrite validate_time_in_force_passes, validate_post_only_passes,
    validate_hidden_and_iceberg_passes, validate_iceberg_passes.
  rewrite validate_side_passes, validate_stop_passes,
    validate_stop_loss_take_profit_passes, validate_amount_size_passes.
  split.
  - intros (Hl & [E | E] & ? & ? & ?); (split; [exact Hl|]);
      (split; [|auto]); [left | right]; congruence.
  - intros (Hl & [E | E] & ? & ? & ?); (split; [exact Hl|]);
      (split; [|auto]); [left | right]; congruence.
Qed.

(** [create_limit_order("buy", "100", "XBTUSDTM", "5", size=1,
    time_in_force="IOC")] is rejected: [post_only] is not ["GTC"]. *)
Lemma limit_order_passes_the_checks_iff_witness :
  is_validation_error
    (fst (create_limit_order example_env example_client
            (Limit.with_time_in_force (PStr "IOC")
               (Limit.with_size (PNum 1) plain_limit_order))
            initial_state)) = true.
Proof.
  destruct (is_validation_error _) eqn:E; [reflexivity|].
  apply (limit_order_passes_the_checks_iff example_env example_client
           (Limit.with_time_in_force (PStr "IOC")
              (Limit.with_size (PNum 1) plain_limit_order)) initial_state) in E
    as ((_ & Hpo & _) & _).
  discriminate (Hpo eq_refl).
Defined.

(** ** The two conditional orders of a call *)

Lemma conditional_orders_agree o2 oid oid' side sl tp key :
  key ∉ trigger_keys ->
  stop_loss_order o2 oid side sl !! key
  = take_profit_order o2 oid' side (SIDE_MAPPING_get side) tp !! key.
Proof.
  intros Hk.
  assert (key <> "clientOid" /\ key <> "stop" /\ key <> "stopPrice")
    as (? & ? & ?).
  { unfold trigger_keys in Hk. set_unfold. naive_solver. }
  unfold stop_loss_order, take_profit_order.
  destruct (decide (key = "reduceOnly")) as [-> | ?];
    [rewrite !lookup_insert_eq; reflexivity|].
  rewrite !(lookup_insert_ne _ "reduceOnly") by congruence.
  destruct (decide (key = "stopPriceType")) as [-> | ?];
    [rewrite !lookup_insert_eq; reflexivity|].
  rewrite !(lookup_insert_ne _ "stopPriceType") by congruence.
  rewrite !(lookup_insert_ne _ "stopPrice") by congruence.
  rewrite !(lookup_insert_ne _ "stop") by congruence.
  destruct (decide (key = "side")) as [-> | ?];
    [rewrite !lookup_insert_eq; reflexivity|].
  rewrite !(lookup_insert_ne _ "side") by congruence.
  rewrite !(lookup_insert_ne _ "clientOid") by congruence.
  reflexivity.
Qed.

(** X18: when a call has posted both its conditional orders, the second and
    the third order posted are the stop-loss and the take-profit order, in
    this order; they trigger at the respective prices, in opposite
    directions ([stop] "down" and "up", or "up" and "down"), and agree on
    every key other than [clientOid], [stop] and [stopPrice]: same inverted
    side, same size, both reduce-only. *)
Theorem conditional_orders_mirror_each_other (e : env) (c : Client)
    (k : order_call) (st st' : state) (r : result pyval)
    (s t : request) (rs rt : result pyval) :
  create_order e c k st = (r, st') ->
  submissions e st st' !! 1 = Some (s, rs) ->
  submissions e st st' !! 2 = Some (t, rt) ->
  payload s !! "stopPrice" = Some (call_stop_loss_price k) /\
  payload t !! "stopPrice" = Some (call_take_profit_price k) /\
  (exists d d', payload s !! "stop" = Some (PStr d) /\
                payload t !! "stop" = Some (PStr d') /\ d <> d' /\
                (d = "down" \/ d = "up") /\ (d' = "down" \/ d' = "up")) /\
  (forall key, key ∉ trigger_keys -> payload s !! key = payload t !! key).
Proof.
  intros H H1 H2.
  destruct (run_orders e c k st r st' H) as [Hnil | (o2 & _ & [rem Hpre])].
  { rewrite Hnil in H1. discriminate. }
  destruct (submissions e st st') as [|p [|[s' rs'] [|[t' rt'] rest]]];
    try discriminate.
  injection H1 as -> ->. injection H2 as -> ->.
  cbn [map fst] in Hpre. unfold conditional_orders in Hpre.
  set (side := PStr (lower (call_side k))) in *.
  destruct (truthy (call_stop_loss_price k)) eqn:Esl;
    destruct (truthy (call_take_profit_price k)) eqn:Etp;
    cbn [app] in Hpre; try discriminate.
  injection Hpre as _ Hs Ht _.
  rewrite (payload_json _ _ (eq_sym Hs)), (payload_json _ _ (eq_sym Ht)).
  splits.
  - conditional_lookup.
  - conditional_lookup.
  - exists (if py_eq_str side "buy" then "down" else "up"),
           (if py_eq_str side "buy" then "up" else "down").
    splits; try conditional_lookup;
      destruct (py_eq_str side "buy"); auto; discriminate.
  - intros key Hk. apply conditional_orders_agree, Hk.
Qed.

Lemma conditional_orders_mirror_each_other_witness :
  let st' := snd (create_order example_env example_client sell_with_both
                    initial_state) in
  exists s rs t rt,
    submissions example_env initial_state st' !! 1 = Some (s, rs) /\
    submissions example_env initial_state st' !! 2 = Some (t, rt) /\
    payload s !! "stopPrice" = Some (PNum 110) /\
    payload t !! "stopPrice" = Some (PNum 90) /\
    payload s !! "side" = payload t !! "side".
Proof.
  intros st'.
  assert (exists s rs t rt,
            submissions example_env initial_state st' !! 1 = Some (s, rs) /\
            submissions example_env initial_state st' !! 2 = Some (t, rt))
    as (s & rs & t & rt & H1 & H2).
  { vm_compute. eexists _, _, _, _. split; reflexivity. }
  destruct (conditional_orders_mirror_each_other example_env example_client
              sell_with_both initial_state st'
              (fst (create_order example_env example_client sell_with_both
                      initial_state)) s t rs rt)
    as (Hs & Ht & _ & Hsame).
  - apply surjective_pairing.
  - exact H1.
  - exact H2.
  - exists s, rs, t, rt. splits; try assumption.
    apply Hsame. intros Hin.
    repeat (apply elem_of_cons in Hin as [Hin | Hin]; [discriminate|]).
    inversion Hin.
Defined.

(** ** A stop of the caller's and conditional orders exclude each other *)

Lemma lookup_set_if_Some k k' v w (o : gmap string pyval) :
  set_if k v o !! k' = Some w -> (k' = k /\ w = v /\ truthy v = true) \/ o !! k' = Some w.
Proof.
  unfold set_if. destruct (truthy v) eqn:E; [|auto].
  intros Hl. apply lookup_insert_Some in Hl as [(-> & ->) | (_ & Hl)]; auto.
Qed.

Lemma call_order_stop_is_true k w :
  call_order k !! "stop" = Some w -> truthy w = true.
Proof.
  destruct k as [a|a]; cbn [call_order]; unfold limit_order, market_order;
    try destruct (truthy (Limit.iceberg a));
    repeat rewrite lookup_insert_ne by discriminate;
    intros Hl;
    repeat (apply lookup_set_if_Some in Hl as [(Hk & -> & Ht) | Hl];
            [first [discriminate Hk | exact Ht]|]);
    repeat rewrite lookup_insert_ne in Hl by discriminate;
    rewrite lookup_empty in Hl; discriminate.
Qed.

(** X19: on the wire, a stop of the caller's and conditional orders exclude
    each other: when a call has posted a second order, its primary order has
    no [stop] key, so the [stop] of a stop-loss or take-profit order never
    replaces one the caller gave. *)
Theorem conditional_orders_replace_no_stop (e : env) (c : Client)
    (k : order_call) (st st' : state) (r : result pyval)
    (p s : request) (rp rs : result pyval) :
  create_order e c k st = (r, st') ->
  submissions e st st' !! 0 = Some (p, rp) ->
  submissions e st st' !! 1 = Some (s, rs) ->
  payload p !! "stop" = None /\
  (truthy (call_stop_loss_price k) = true \/
   truthy (call_take_profit_price k) = true).
Proof.
  intros H H0 H1.
  destruct (submitted_run e c k st r st' p rp H H0)
    as (o2 & rest & inv & HS & Hchk & _ & (_ & _ & Hpj) & Hkeep & _ & _ & _ & _
        & _ & _ & _ & Hlen & _).
  rewrite HS in H1. cbn [lookup list_lookup] in H1.
  assert (truthy (call_stop_loss_price k) = true \/
          truthy (call_take_profit_price k) = true) as Hcond.
  { destruct rest; [discriminate|]. unfold flag in Hlen. simpl in Hlen.
    destruct (truthy (call_stop_loss_price k)); [auto|].
    destruct (truthy (call_take_profit_price k)); [auto | lia]. }
  split; [|exact Hcond].
  rewrite (payload_json _ _ Hpj), Hkeep by discriminate.
  destruct (call_order k !! "stop") as [w|] eqn:Ew; [exfalso | reflexivity].
  pose proof (call_order_stop_is_true k w Ew) as Hw.
  assert (is_Raise (validate_stop_loss_take_profit
                      (dict_get (call_order k) "stop")
                      (call_stop_loss_price k) (call_take_profit_price k))
          = false) as Hv.
  { destruct (is_Raise _) eqn:Er; [|reflexivity].
    assert (existsb is_Raise (call_checks k) = true) as Hex; [|congruence].
    apply existsb_exists. eexists. split; [|exact Er].
    destruct k as [a|a]; cbn [call_checks call_order call_stop_loss_price
                                call_take_profit_price];
      [apply in_or_app; right|]; unfold order_checks; cbn [In]; tauto. }
  unfold validate_stop_loss_take_profit, dict_get in Hv. rewrite Ew in Hv.
  cbn [from_option id] in Hv. rewrite Hw in Hv.
  destruct Hcond as [Hc | Hc]; rewrite Hc in Hv;
    [|destruct (truthy (call_stop_loss_price k))]; discriminate.
Qed.

Lemma conditional_orders_replace_no_stop_witness :
  let st' := snd (create_order example_env example_client buy_with_stop_loss
                    initial_state) in
  exists p rp,
    submissions example_env initial_state st' !! 0 = Some (p, rp) /\
    payload p !! "stop" = None.
Proof.
  intros st'.
  assert (exists p rp s rs,
            submissions example_env initial_state st' !! 0 = Some (p, rp) /\
            submissions example_env initial_state st' !! 1 = Some (s, rs))
    as (p & rp & s & rs & H0 & H1).
  { vm_compute. eexists _, _, _, _. split; reflexivity. }
  destruct (conditional_orders_replace_no_stop example_env example_client
              buy_with_stop_loss initial_state st'
              (fst (create_order example_env example_client buy_with_stop_loss
                      initial_state)) p s rp rs) as [Hno _].
  - apply surjective_pairing.
  - exact H0.
  - exact H1.
  - exists p, rp. split; [exact H0 | exact Hno].
Defined.
